(** * HomeStay_be: reservation allocation and pricing engine

  A shallow embedding of the booking controllers and services
  (createBookingController.ts in its two versions, updateBookingController.ts,
  roomController.ts, bookingValidationService.ts,
  bookingPricingService.ts, bookingService.ts) and the properties the
  specification states about them.

  Modelling conventions.
  - A JavaScript [Date] is its [getTime()] value: milliseconds since the
    epoch, an integer ([Z]).
  - The process runs with the UTC time zone, so [setDate(getDate() + 1)]
    adds exactly one day of milliseconds and [setHours(0,0,0,0)] truncates
    to UTC midnight; [toISOString().split('T')[0]] is the UTC calendar
    date, represented by its day number [t / MS_PER_DAY].
  - A JavaScript number that carries money or a rate is an IEEE 754
    double, represented by the rational ([Q]) it denotes. [*], [-] and [+]
    on such numbers return the exact result rounded to the nearest double,
    a tie going to the even significand ([JsNumber.double]); subnormal
    numbers are modelled, overflow to [Infinity] (magnitudes of 2^1024 and
    more) is not. [Math.round] is exact on the double it receives.
  - A number that enters from outside is a double: the literal [0.1] is
    [JsNumber.double (1 # 10)]. Whole numbers below 2^53 are doubles.
  - The dates of a stay are whole numbers of milliseconds;
    [calculateNights] takes [Math.ceil] on their exact quotient by a day,
    and the guests-per-room rule on the exact third of the guest count:
    the double quotient has the same ceiling for numerators below 2^53
    (lemmas [calculateNights_double] and [requiredRooms_double]).
  - The two Mongoose collections are lists of documents in insertion
    order; a controller is a function from the store (and the clock, where
    it reads it) to its response and the new store.
  - Left out of the documents: [user], [paymentStatus] and the generated
    [bookingReference], which no rule of admission, pricing or lifecycle
    reads. The notification e-mail sent after a booking catches its own
    errors and touches neither the store nor the response. *)

From Stdlib Require Import ZArith QArith Qround Qpower Qabs Lia Lqa Ascii String
  DecimalString.
From stdpp Require Import base option list gmap sets strings sorting.

Local Open Scope Z_scope.

(** ** Dates *)

Module JsDate.

(** [1000 * 60 * 60 * 24] *)
Definition MS_PER_DAY : Z := 1000 * 60 * 60 * 24.

Definition MS_PER_HOUR : Z := 1000 * 60 * 60.

(** [d.toISOString().split('T')[0]], as a day number. *)
Definition isoDate (t : Z) : Z := t / MS_PER_DAY.

(** [d.setDate(d.getDate() + n)] *)
Definition addDays (t : Z) (n : Z) : Z := t + n * MS_PER_DAY.

(** [d.setHours(0, 0, 0, 0)] *)
Definition startOfDay (t : Z) : Z := t - t mod MS_PER_DAY.

(** [new Date('YYYY-MM-DD' + 'T00:00:00.000Z')] for the calendar day [d]. *)
Definition midnight (d : Z) : Z := d * MS_PER_DAY.

(** A date is a calendar date at midnight UTC. *)
Definition atMidnight (t : Z) : Prop := t mod MS_PER_DAY = 0.

End JsDate.

(** ** JavaScript numbers *)

Module JsNumber.

Definition pow2 (e : Z) : Q := (2 ^ e)%Q.

(** For [x > 0], the exponent [e] with [2^e <= x < 2^(e+1)]. *)
Definition floorLog2 (x : Q) : Z :=
  let e := Z.log2 (Qnum x) - Z.log2 (Z.pos (Qden x)) in
  if Qle_bool (pow2 e) x then e else e - 1.

(** The integer nearest to [m], a tie going to the even one. *)
Definition roundHalfEven (m : Q) : Z :=
  let f := Qfloor m in
  match (m - inject_Z f ?= 1 # 2)%Q with
  | Lt => f
  | Gt => f + 1
  | Eq => if Z.even f then f else f + 1
  end.

(** The unit in the last place of the doubles around [x]: 52 fraction bits
    below the exponent of [x], and no exponent below that of the smallest
    normal number. *)
Definition ulp (x : Q) : Q := pow2 (Z.max (floorLog2 (Qabs x)) (-1022) - 52).

(** The double nearest to [x]. *)
Definition double (x : Q) : Q :=
  if Qeq_bool x 0 then 0%Q
  else Qred (inject_Z (roundHalfEven (x / ulp x)) * ulp x).

(** [x + y], [x - y], [x * y] and [x / y] on doubles. *)
Definition add (x y : Q) : Q := double (x + y).

Definition sub (x y : Q) : Q := double (x - y).

Definition mul (x y : Q) : Q := double (x * y).

Definition div (x y : Q) : Q := double (x / y).

(** [Math.round]: nearest integer, a tie goes to the larger one. *)
Definition Math_round (x : Q) : Z := Qfloor (x + (1 # 2)).

End JsNumber.

(** ** Pricing calculator (bookingPricingService.ts) *)

Module Pricing.
Import JsDate.

Record PricingCalculation := {
  nights : Z;
  pricePerNight : Q;
  basePrice : Q;
  taxAmount : Z;
  discountAmount : Q;
  totalPrice : Q
}.

Record PricingParams := {
  checkInDate : Z;
  checkOutDate : Z;
  p_pricePerNight : Q;
  p_discountAmount : option Q;
  p_taxRate : option Q
}.

(** The literal [0.12]: the double nearest to 12/100. *)
Definition DEFAULT_TAX_RATE : Q := JsNumber.double (12 # 100).

(** [Math.ceil] *)
Definition Math_ceil (x : Q) : Z := Qceiling x.

(** [x || d] on an optional number: [undefined] and [0] are falsy. *)
Definition orDefault (x : option Q) (d : Q) : Q :=
  match x with
  | Some v => if Qeq_bool v 0 then d else v
  | None => d
  end.

Definition calculateNights (checkIn checkOut : Z) : Z :=
  let timeDiff := checkOut - checkIn in
  Math_ceil (inject_Z timeDiff / inject_Z MS_PER_DAY)%Q.

Definition calculatePricing (params : PricingParams) : PricingCalculation :=
  let nights := calculateNights (checkInDate params) (checkOutDate params) in
  let pricePerNight := p_pricePerNight params in
  let basePrice := JsNumber.mul pricePerNight (inject_Z nights) in
  let discountAmount := orDefault (p_discountAmount params) 0 in
  let priceAfterDiscount := JsNumber.sub basePrice discountAmount in
  let taxRate := orDefault (p_taxRate params) DEFAULT_TAX_RATE in
  let taxAmount := JsNumber.Math_round (JsNumber.mul priceAfterDiscount taxRate) in
  let totalPrice := JsNumber.add priceAfterDiscount (inject_Z taxAmount) in
  {| nights := nights;
     pricePerNight := pricePerNight;
     basePrice := basePrice;
     taxAmount := taxAmount;
     discountAmount := discountAmount;
     totalPrice := totalPrice |}.

End Pricing.

(** ** Documents and the store (models Booking and Room, through Mongoose) *)

Module Store.
Import JsDate.

Inductive Status := pending | confirmed | cancelled.

#[global] Instance Status_eq_dec : EqDecision Status.
Proof. solve_decision. Defined.

(** A numeric field of a document or of a request body is [option]:
    [None] stands for [undefined] or [NaN], which are falsy and make every
    comparison false. *)
Record Booking := {
  b_id : nat;
  room : nat;
  checkIn : Z;
  checkOut : Z;
  guests : option Z;
  children : option Z;
  numberOfRooms : option Z;
  guestName : string;
  guestEmail : string;
  guestPhone : string;
  nights : option Q;
  pricePerNight : option Q;
  totalPrice : option Q;
  taxAmount : option Q;
  discountAmount : option Q;
  status : Status;
  specialRequests : option string;
  cancelledAt : option Z;
  cancelledBy : option nat;
  cancellationReason : option string
}.

Record Room := {
  r_id : nat;
  name : string;
  price : Q;
  capacity : Z;
  totalRooms : Z;
  isAvailable : bool
}.

(** The two collections. [nextId] is the source of fresh [_id]s. *)
Record State := {
  rooms : list Room;
  bookings : list Booking;
  nextId : nat
}.

(** [Room.findById(roomId)] *)
Definition Room_findById (st : State) (roomId : nat) : option Room :=
  List.find (fun r => bool_decide (r_id r = roomId)) (rooms st).

(** [Booking.findById(id)] *)
Definition Booking_findById (st : State) (id : nat) : option Booking :=
  List.find (fun b => bool_decide (b_id b = id)) (bookings st).

(** [status: { $in: ['pending', 'confirmed'] }] *)
Definition isActive (b : Booking) : bool :=
  match status b with pending | confirmed => true | cancelled => false end.

(** The query shared by every conflict and occupancy read:
    [{ room: roomId, status: { $in: ['pending', 'confirmed'] },
       checkIn: { $lt: checkOutDate }, checkOut: { $gt: checkInDate } }],
    with [_id: { $ne: excludeBookingId }] when an id is excluded. *)
Definition overlapQuery (roomId : nat) (checkInDate checkOutDate : Z)
    (excludeBookingId : option nat) (b : Booking) : bool :=
  bool_decide (room b = roomId)
  && isActive b
  && bool_decide (checkIn b < checkOutDate)
  && bool_decide (checkOut b > checkInDate)
  && match excludeBookingId with
     | Some id => negb (bool_decide (b_id b = id))
     | None => true
     end.

(** [Booking.find(query)] *)
Definition Booking_find (st : State) (query : Booking -> bool) : list Booking :=
  List.filter query (bookings st).

(** [Booking.findOne(query)] *)
Definition Booking_findOne (st : State) (query : Booking -> bool) : option Booking :=
  List.find query (bookings st).

(** Replace the document whose [_id] is [id]. *)
Fixpoint replaceById (id : nat) (f : Booking -> Booking) (l : list Booking) : list Booking :=
  match l with
  | [] => []
  | b :: l' =>
      if bool_decide (b_id b = id) then f b :: l'
      else b :: replaceById id f l'
  end.

(** [booking.save()] of a document loaded by [findById]. *)
Definition Booking_save (st : State) (b : Booking) : State :=
  {| rooms := rooms st;
     bookings := replaceById (b_id b) (fun _ => b) (bookings st);
     nextId := nextId st |}.

(** [booking.deleteOne()] *)
Definition Booking_deleteOne (st : State) (id : nat) : State :=
  {| rooms := rooms st;
     bookings := List.filter (fun b => negb (bool_decide (b_id b = id))) (bookings st);
     nextId := nextId st |}.

End Store.

(** ** Requests and responses *)

Module Http.
Import Store.

(** A date string of a request body: a calendar day ['YYYY-MM-DD'], a full
    ISO instant, or text that is no date. *)
Inductive DateInput :=
| IsoDay (d : Z)
| IsoInstant (t : Z)
| Unparsable.

(** [new Date(s)]; [None] is [Invalid Date]. *)
Definition parseDate (s : option DateInput) : option Z :=
  match s with
  | Some (IsoDay d) => Some (JsDate.midnight d)
  | Some (IsoInstant t) => Some t
  | Some Unparsable | None => None
  end.

(** [new Date(s + 'T00:00:00.000Z')]: only a calendar day stays a date
    when the suffix is appended. *)
Definition parseDay (s : option DateInput) : option Z :=
  match s with
  | Some (IsoDay d) => Some (JsDate.midnight d)
  | Some (IsoInstant _) | Some Unparsable | None => None
  end.

(** [req.body] of [POST /api/bookings]. *)
Record Request := {
  q_room : option nat;
  q_checkIn : option DateInput;
  q_checkOut : option DateInput;
  q_guests : option Z;
  q_children : option Z;
  q_numberOfRooms : option Z;
  q_guestName : option string;
  q_guestEmail : option string;
  q_guestPhone : option string;
  q_nights : option Q;
  q_pricePerNight : option Q;
  q_totalPrice : option Q;
  q_taxAmount : option Q;
  q_discountAmount : option Q;
  q_specialRequests : option string
}.

(** [req.body] of [PUT /api/bookings/:id]; the keys that carry the stay
    window, the counts and the status. *)
Record UpdateBody := {
  u_checkIn : option DateInput;
  u_checkOut : option DateInput;
  u_guests : option Z;
  u_children : option Z;
  u_numberOfRooms : option Z;
  u_status : option Status
}.

Record ValidationResult := {
  isValid : bool;
  error : option string;
  statusCode : option Z
}.

Definition valid : ValidationResult :=
  {| isValid := true; error := None; statusCode := None |}.

Definition invalid (msg : string) (code : Z) : ValidationResult :=
  {| isValid := false; error := Some msg; statusCode := Some code |}.

(** What a controller sends and returns on. *)
Inductive Response :=
| ValidationError (code : Z) (message : option string)
| InsufficientRoomsForGuests (requiredRooms : Z)
| ExceedsMaxRooms (maxRoomsForType : Z)
| NotEnoughRooms (availableRooms : Z) (requestedRooms : option Z)
    (conflictingBooking : option Booking)
| DatesNotAvailable (conflictingBooking : Booking)
| BookingConfirmed (booking : Booking)
| BookingUpdated (booking : option Booking)
| BookingCancelled (booking : Booking)
| BookingDeleted
| BookingNotFound
| RoomNotAvailable
| NotCancellable
| MongooseValidationError
| ServerError.

(** [res.status(result.statusCode || 400).json({ message: result.error })] *)
Definition sendValidationError (result : ValidationResult) : Response :=
  ValidationError
    (match statusCode result with
     | Some c => if c =? 0 then 400 else c
     | None => 400
     end)
    (error result).

(** A key of the body that holds a non-empty value (an id or a date
    string; [None] is a missing key or the empty string). *)
Definition given {A} (x : option A) : bool :=
  match x with Some _ => true | None => false end.

(** Truthiness of an optional string and of an optional number. *)
Definition truthyS (s : option string) : bool :=
  match s with
  | Some EmptyString | None => false
  | Some _ => true
  end.

Definition truthyZ (n : option Z) : bool :=
  match n with
  | Some v => negb (v =? 0)
  | None => false
  end.

Definition truthyQ (n : option Q) : bool :=
  match n with
  | Some v => negb (Qeq_bool v 0)
  | None => false
  end.

(** [a < b] and [a > b] on numbers that may be [undefined] or [NaN]. *)
Definition js_lt (a b : option Z) : bool :=
  match a, b with
  | Some x, Some y => bool_decide (x < y)
  | _, _ => false
  end.

Definition js_gt (a b : option Z) : bool := js_lt b a.

(** [Number(x) || 0] *)
Definition numberOrZero (x : option Q) : option Q :=
  if truthyQ x then x else Some 0%Q.

End Http.

(** ** Parts of the repository that the sources do not include

    [validators/bookingValidator.ts] (the per-field validators that the
    later controller calls, and [MAX_ROOMS_PER_TYPE]) and
    [models/Booking.ts] (the schema validation run by [Booking.create] and
    by [findByIdAndUpdate] with [runValidators], and the method
    [canBeCancelled]) are taken as parameters of the controllers. *)

Module Absent.
Import Store Http.

Record Env := {
  validateGuestName : option string -> ValidationResult;
  validatePhoneNumber : option string -> ValidationResult;
  validateChildren : Z -> option Z -> ValidationResult;
  validateSpecialRequests : string -> ValidationResult;
  validateGuestCapacityByRoomType : option Z -> string -> ValidationResult;
  validateNumberOfRoomsByType : option Z -> string -> ValidationResult;
  MAX_ROOMS_PER_TYPE : string -> option Z;
  schemaAccepts : Booking -> bool;
  canBeCancelled : Z -> Booking -> bool
}.

End Absent.

(** ** BookingValidationService (bookingValidationService.ts) *)

Module BookingValidationService.
Import JsDate Store Http.
Local Open Scope string_scope.

(** [requiredFields.filter(field => !data[field])] *)
Definition missingFields (data : Request) : list string :=
  (if given (q_room data) then [] else ["room"])
  ++ (if given (q_checkIn data) then [] else ["checkIn"])
  ++ (if given (q_checkOut data) then [] else ["checkOut"])
  ++ (if truthyZ (q_guests data) then [] else ["guests"])
  ++ (if truthyS (q_guestName data) then [] else ["guestName"])
  ++ (if truthyS (q_guestEmail data) then [] else ["guestEmail"])
  ++ (if truthyS (q_guestPhone data) then [] else ["guestPhone"]).

Definition validateRequiredFields (data : Request) : ValidationResult :=
  let missing := missingFields data in
  if bool_decide (0 < Z.of_nat (length missing))%Z then
    invalid ("Missing required fields: " ++ String.concat ", " missing) 400
  else valid.

Definition validateRoom (st : State) (roomId : option nat)
    : ValidationResult * option Room :=
  match roomId ≫= Room_findById st with
  | None => (invalid "Room not found" 404, None)
  | Some room =>
      if negb (isAvailable room)
      then (invalid "This room is currently unavailable" 400, None)
      else (valid, Some room)
  end.

(** [validateDates]; [now] is the clock read by [new Date()]. A comparison
    with an [Invalid Date] is false, so unparsable input passes both tests
    and is returned as it is. *)
Definition validateDates (now : Z) (checkIn checkOut : option DateInput)
    : ValidationResult * option Z * option Z :=
  let checkInDate := parseDay checkIn in
  let checkOutDate := parseDay checkOut in
  if match checkOutDate, checkInDate with
     | Some o, Some i => bool_decide (o <= i)%Z
     | _, _ => false
     end
  then (invalid "Check-out date must be after check-in date" 400, None, None)
  else
    let today := startOfDay now in
    if match checkInDate with
       | Some i => bool_decide (i < today)%Z
       | None => false
       end
    then (invalid "Check-in date cannot be in the past" 400, None, None)
    else (valid, checkInDate, checkOutDate).

(** [checkBookingConflict]: [Some b] is
    [{ hasConflict: true, conflictingBooking: b }]. *)
Definition checkBookingConflict (st : State) (roomId : nat)
    (checkInDate checkOutDate : Z) (excludeBookingId : option nat)
    : option Booking :=
  Booking_findOne st (overlapQuery roomId checkInDate checkOutDate excludeBookingId).

(** [validateGuestCapacity]; the message prints the capacity in decimal. *)
Definition validateGuestCapacity (guests roomCapacity : Z) : ValidationResult :=
  if bool_decide (guests > roomCapacity)%Z then
    invalid ("This room can accommodate maximum "
             ++ NilZero.string_of_int (Z.to_int roomCapacity) ++ " guests") 400
  else valid.

End BookingValidationService.

(** ** Occupancy accounting of the later [createBooking] *)

Module Occupancy.
Import JsDate Store Http.

(** [booking.numberOfRooms || 1] *)
Definition roomsBooked (b : Booking) : Z :=
  match numberOfRooms b with
  | Some n => if n =? 0 then 1 else n
  | None => 1
  end.

(** The body of [while (currentDate < bCheckOut)], run at most [fuel]
    times:
    [count = (bookingsPerDate.get(dateString) || 0) + roomsBooked]. *)
Fixpoint markDays (fuel : nat) (currentDate bCheckOut rooms : Z)
    (bookingsPerDate : gmap Z Z) : gmap Z Z :=
  match fuel with
  | O => bookingsPerDate
  | S fuel' =>
      if bool_decide (currentDate < bCheckOut) then
        let dateString := isoDate currentDate in
        let count := default 0 (bookingsPerDate !! dateString) + rooms in
        markDays fuel' (addDays currentDate 1) bCheckOut rooms
          (<[dateString := count]> bookingsPerDate)
      else bookingsPerDate
  end.

(** The number of times the loop body runs for a stay: the days from
    check-in up to, not including, check-out. *)
Definition stayDays (bCheckIn bCheckOut : Z) : nat :=
  Z.to_nat ((bCheckOut - bCheckIn + MS_PER_DAY - 1) / MS_PER_DAY).

(** One turn of [existingBookings.forEach]. *)
Definition addBooking (bookingsPerDate : gmap Z Z) (booking : Booking) : gmap Z Z :=
  markDays (stayDays (checkIn booking) (checkOut booking))
    (checkIn booking) (checkOut booking) (roomsBooked booking) bookingsPerDate.

Definition bookingsPerDate (existingBookings : list Booking) : gmap Z Z :=
  fold_left addBooking existingBookings ∅.

(** [bookingsPerDate.size > 0 ? Math.max(...values) : 0] *)
Definition maxBookedRooms (m : gmap Z Z) : Z :=
  match (map_to_list m).*2 with
  | [] => 0
  | v :: vs => fold_left Z.max vs v
  end.

Definition availableRooms (room : Room) (existingBookings : list Booking) : Z :=
  totalRooms room - maxBookedRooms (bookingsPerDate existingBookings).

End Occupancy.

(** ** String methods used by the service (ASCII) *)

Module JsString.

Definition isSpace (c : ascii) : bool :=
  let n := nat_of_ascii c in
  ((n =? 32) || ((9 <=? n) && (n <=? 13)))%nat.

Definition isDigit (c : ascii) : bool :=
  let n := nat_of_ascii c in
  ((48 <=? n) && (n <=? 57))%nat.

Fixpoint dropSpaces (l : list ascii) : list ascii :=
  match l with
  | c :: l' => if isSpace c then dropSpaces l' else l
  | [] => []
  end.

(** [s.trim()] *)
Definition trim (s : string) : string :=
  string_of_list_ascii
    (rev (dropSpaces (rev (dropSpaces (list_ascii_of_string s))))).

Definition lowerChar (c : ascii) : ascii :=
  let n := nat_of_ascii c in
  if ((65 <=? n) && (n <=? 90))%nat then ascii_of_nat (n + 32) else c.

(** [s.toLowerCase()] *)
Definition toLowerCase (s : string) : string :=
  string_of_list_ascii (map lowerChar (list_ascii_of_string s)).

End JsString.

(** ** BookingService (bookingService.ts, later version) *)

Module BookingService.
Import JsDate Store Http Absent JsString.

(** What a service call throws. *)
Inductive Thrown :=
| TypeError
| CastError
| SchemaValidationError
| NotFoundError
| CannotBeCancelledError.

Record CreateBookingData := {
  d_room : nat;
  d_checkIn : Z;
  d_checkOut : Z;
  d_guests : option Z;
  d_children : option Z;
  d_numberOfRooms : option Z;
  d_guestName : option string;
  d_guestEmail : option string;
  d_guestPhone : option string;
  d_nights : option Q;
  d_pricePerNight : option Q;
  d_totalPrice : option Q;
  d_taxAmount : option Q;
  d_discountAmount : option Q;
  d_status : option Status;
  d_specialRequests : option string
}.

(** [Booking.create(doc)]: the document gets a fresh [_id] and is
    validated against the schema before it is stored. *)
Definition Booking_create (env : Env) (st : State) (doc : nat -> Booking)
    : Thrown + Booking * State :=
  let booking := doc (nextId st) in
  if schemaAccepts env booking then
    inr (booking,
         {| rooms := rooms st;
            bookings := bookings st ++ [booking];
            nextId := S (nextId st) |})
  else inl SchemaValidationError.

(** [BookingService.createBooking(data)]. [x.trim()] on a missing string
    throws. *)
Definition createBooking (env : Env) (st : State) (data : CreateBookingData)
    : Thrown + Booking * State :=
  match d_guestName data, d_guestEmail data, d_guestPhone data with
  | Some nm, Some email, Some phone =>
      Booking_create env st (fun id =>
        {| b_id := id;
           room := d_room data;
           checkIn := d_checkIn data;
           checkOut := d_checkOut data;
           guests := d_guests data;
           children := Some (default 0 (d_children data));
           numberOfRooms := d_numberOfRooms data;
           guestName := trim nm;
           guestEmail := toLowerCase (trim email);
           guestPhone := trim phone;
           nights := d_nights data;
           pricePerNight := d_pricePerNight data;
           totalPrice := d_totalPrice data;
           taxAmount := numberOrZero (d_taxAmount data);
           discountAmount := numberOrZero (d_discountAmount data);
           status := default confirmed (d_status data);
           specialRequests := trim <$> d_specialRequests data;
           cancelledAt := None;
           cancelledBy := None;
           cancellationReason := None |})
  | _, _, _ => inl TypeError
  end.

(** The earlier version of the service has no [children] and no
    [numberOfRooms]: the document is stored without them. *)
Definition createBooking_earlier (env : Env) (st : State) (data : CreateBookingData)
    : Thrown + Booking * State :=
  match d_guestName data, d_guestEmail data, d_guestPhone data with
  | Some nm, Some email, Some phone =>
      Booking_create env st (fun id =>
        {| b_id := id;
           room := d_room data;
           checkIn := d_checkIn data;
           checkOut := d_checkOut data;
           guests := d_guests data;
           children := None;
           numberOfRooms := None;
           guestName := trim nm;
           guestEmail := toLowerCase (trim email);
           guestPhone := trim phone;
           nights := d_nights data;
           pricePerNight := d_pricePerNight data;
           totalPrice := d_totalPrice data;
           taxAmount := numberOrZero (d_taxAmount data);
           discountAmount := numberOrZero (d_discountAmount data);
           status := default confirmed (d_status data);
           specialRequests := trim <$> d_specialRequests data;
           cancelledAt := None;
           cancelledBy := None;
           cancellationReason := None |})
  | _, _, _ => inl TypeError
  end.

(** The keys of the body written over a document; a date string is cast
    by [new Date]. [None]: the cast of a date failed. *)
Definition applyUpdate (data : UpdateBody) (b : Booking) : option Booking :=
  match
    match u_checkIn data with
    | Some s => parseDate (Some s)
    | None => Some (checkIn b)
    end,
    match u_checkOut data with
    | Some s => parseDate (Some s)
    | None => Some (checkOut b)
    end
  with
  | Some ci, Some co =>
      Some {| b_id := b_id b;
              room := room b;
              checkIn := ci;
              checkOut := co;
              guests := match u_guests data with Some g => Some g | None => guests b end;
              children := match u_children data with Some c => Some c | None => children b end;
              numberOfRooms :=
                match u_numberOfRooms data with Some n => Some n | None => numberOfRooms b end;
              guestName := guestName b;
              guestEmail := guestEmail b;
              guestPhone := guestPhone b;
              nights := nights b;
              pricePerNight := pricePerNight b;
              totalPrice := totalPrice b;
              taxAmount := taxAmount b;
              discountAmount := discountAmount b;
              status := default (status b) (u_status data);
              specialRequests := specialRequests b;
              cancelledAt := cancelledAt b;
              cancelledBy := cancelledBy b;
              cancellationReason := cancellationReason b |}
  | _, _ => None
  end.

(** [Booking.findByIdAndUpdate(bookingId, data,
      { new: true, runValidators: true })]; [None] is [null]. *)
Definition updateBooking (env : Env) (st : State) (bookingId : nat) (data : UpdateBody)
    : Thrown + option Booking * State :=
  match Booking_findById st bookingId with
  | None => inr (None, st)
  | Some b =>
      match applyUpdate data b with
      | None => inl CastError
      | Some b' =>
          if schemaAccepts env b' then inr (Some b', Booking_save st b')
          else inl SchemaValidationError
      end
  end.

Definition cancelBooking (env : Env) (now : Z) (st : State) (bookingId : nat)
    (userId : option nat) (reason : option string)
    : Thrown + Booking * State :=
  match Booking_findById st bookingId with
  | None => inl NotFoundError
  | Some booking =>
      if negb (canBeCancelled env now booking) then inl CannotBeCancelledError
      else
        let booking' :=
          {| b_id := b_id booking;
             room := room booking;
             checkIn := checkIn booking;
             checkOut := checkOut booking;
             guests := guests booking;
             children := children booking;
             numberOfRooms := numberOfRooms booking;
             guestName := guestName booking;
             guestEmail := guestEmail booking;
             guestPhone := guestPhone booking;
             nights := nights booking;
             pricePerNight := pricePerNight booking;
             totalPrice := totalPrice booking;
             taxAmount := taxAmount booking;
             discountAmount := discountAmount booking;
             status := cancelled;
             specialRequests := specialRequests booking;
             cancelledAt := Some now;
             cancelledBy :=
               match userId with Some u => Some u | None => cancelledBy booking end;
             cancellationReason :=
               if truthyS reason then reason else cancellationReason booking |} in
        if schemaAccepts env booking' then inr (booking', Booking_save st booking')
        else inl SchemaValidationError
  end.

Definition deleteBooking (st : State) (bookingId : nat) : Thrown + Booking * State :=
  match Booking_findById st bookingId with
  | None => inl NotFoundError
  | Some booking => inr (booking, Booking_deleteOne st bookingId)
  end.

(** [BookingQueryParams]: the filters of [GET /api/bookings]. *)
Record BookingQueryParams := {
  f_status : option string;
  f_startDate : option DateInput;
  f_endDate : option DateInput;
  f_roomId : option nat
}.

(** The filter object that [buildBookingQuery] returns. A bound on
    [checkIn] is a [Date], which may be [Invalid Date] ([Some None]). *)
Record BookingQuery := {
  w_status : option string;
  w_room : option nat;
  w_checkIn_gte : option (option Z);
  w_checkIn_lte : option (option Z)
}.

Definition buildBookingQuery (params : BookingQueryParams) : BookingQuery :=
  {| w_status := if truthyS (f_status params) then f_status params else None;
     w_room := f_roomId params;
     w_checkIn_gte :=
       if given (f_startDate params) then Some (parseDay (f_startDate params)) else None;
     w_checkIn_lte :=
       if given (f_endDate params) then Some (parseDay (f_endDate params)) else None |}.

(** The string stored for a status. *)
Definition statusName (s : Status) : string :=
  match s with
  | pending => "pending"
  | confirmed => "confirmed"
  | cancelled => "cancelled"
  end.

(** Whether a document satisfies a filter object whose dates are valid. *)
Definition satisfies (q : BookingQuery) (b : Booking) : bool :=
  match w_status q with
  | Some s => String.eqb (statusName (status b)) s
  | None => true
  end
  && match w_room q with
     | Some roomId => bool_decide (room b = roomId)
     | None => true
     end
  && match w_checkIn_gte q with
     | Some (Some t) => bool_decide (t <= checkIn b)%Z
     | _ => true
     end
  && match w_checkIn_lte q with
     | Some (Some t) => bool_decide (checkIn b <= t)%Z
     | _ => true
     end.

(** [Booking.find(query)] on a filter object: the cast of an
    [Invalid Date] throws. *)
Definition Booking_findBy (st : State) (q : BookingQuery) : Thrown + list Booking :=
  match w_checkIn_gte q, w_checkIn_lte q with
  | Some None, _ | _, Some None => inl CastError
  | _, _ => inr (Booking_find st (satisfies q))
  end.

(** [getAllBookings]: [.sort({ createdAt: -1 })] is the newest first, the
    reverse of the order of creation. *)
Definition getAllBookings (st : State) (params : BookingQueryParams)
    : Thrown + list Booking :=
  match Booking_findBy st (buildBookingQuery params) with
  | inr bookings => inr (rev bookings)
  | inl e => inl e
  end.

(** [getBookingById] *)
Definition getBookingById (st : State) (bookingId : nat) : option Booking :=
  Booking_findById st bookingId.

(** How a controller answers after [BookingService.createBooking]: 201
    with the booking, or what its [catch] block sends. *)
Definition respond (st : State) (result : Thrown + Booking * State)
    : Response * State :=
  match result with
  | inr (booking, st') => (BookingConfirmed booking, st')
  | inl SchemaValidationError => (MongooseValidationError, st)
  | inl _ => (ServerError, st)
  end.

End BookingService.

(** ** createBooking, earlier version (single-room conflict check) *)

Module CreateBookingEarlier.
Import JsDate Store Http Absent BookingValidationService.

(** The object passed to [BookingService.createBooking]. *)
Definition bookingData (req : Request) (roomId : nat) (checkInDate checkOutDate : Z)
    : BookingService.CreateBookingData :=
  {| BookingService.d_room := roomId;
     BookingService.d_checkIn := checkInDate;
     BookingService.d_checkOut := checkOutDate;
     BookingService.d_guests := q_guests req;
     BookingService.d_children := None;
     BookingService.d_numberOfRooms := None;
     BookingService.d_guestName := q_guestName req;
     BookingService.d_guestEmail := q_guestEmail req;
     BookingService.d_guestPhone := q_guestPhone req;
     BookingService.d_nights := q_nights req;
     BookingService.d_pricePerNight := q_pricePerNight req;
     BookingService.d_totalPrice := q_totalPrice req;
     BookingService.d_taxAmount := q_taxAmount req;
     BookingService.d_discountAmount := q_discountAmount req;
     BookingService.d_status := Some confirmed;
     BookingService.d_specialRequests := q_specialRequests req |}.

Definition createBooking (env : Env) (now : Z) (st : State) (req : Request)
    : Response * State :=
  (* Step 1: Validate required fields *)
  let fieldsValidation := validateRequiredFields req in
  if negb (isValid fieldsValidation) then (sendValidationError fieldsValidation, st) else
  (* Step 2: Validate room exists and is available *)
  let roomValidation := validateRoom st (q_room req) in
  if negb (isValid (fst roomValidation)) then (sendValidationError (fst roomValidation), st) else
  (* Step 3: Validate dates *)
  let dateValidation := validateDates now (q_checkIn req) (q_checkOut req) in
  if negb (isValid (fst (fst dateValidation)))
  then (sendValidationError (fst (fst dateValidation)), st) else
  match q_room req, snd (fst dateValidation), snd dateValidation with
  | Some roomId, Some checkInDate, Some checkOutDate =>
      (* Step 4: Check for booking conflicts *)
      match checkBookingConflict st roomId checkInDate checkOutDate None with
      | Some conflictingBooking => (DatesNotAvailable conflictingBooking, st)
      | None =>
          (* Step 5: Create booking *)
          BookingService.respond st
            (BookingService.createBooking_earlier env st
               (bookingData req roomId checkInDate checkOutDate))
      end
  | _, _, _ => (ServerError, st)
  end.

End CreateBookingEarlier.

(** ** createBooking, later version (inventory-aware admission) *)

Module CreateBookingLater.
Import JsDate Store Http Absent BookingValidationService Occupancy.

(** [Math.ceil(guests / 3)] *)
Definition requiredRooms (guests : option Z) : option Z :=
  (fun g => Pricing.Math_ceil (inject_Z g / 3)%Q) <$> guests.

(** The object passed to [BookingService.createBooking]; [children]
    defaults to [0] and [specialRequests] to the empty string. *)
Definition bookingData (req : Request) (roomId : nat) (checkInDate checkOutDate : Z)
    : BookingService.CreateBookingData :=
  {| BookingService.d_room := roomId;
     BookingService.d_checkIn := checkInDate;
     BookingService.d_checkOut := checkOutDate;
     BookingService.d_guests := q_guests req;
     BookingService.d_children := Some (default 0 (q_children req));
     BookingService.d_numberOfRooms := q_numberOfRooms req;
     BookingService.d_guestName := q_guestName req;
     BookingService.d_guestEmail := q_guestEmail req;
     BookingService.d_guestPhone := q_guestPhone req;
     BookingService.d_nights := q_nights req;
     BookingService.d_pricePerNight := q_pricePerNight req;
     BookingService.d_totalPrice := q_totalPrice req;
     BookingService.d_taxAmount := q_taxAmount req;
     BookingService.d_discountAmount := q_discountAmount req;
     BookingService.d_status := Some confirmed;
     BookingService.d_specialRequests :=
       Some (if truthyS (q_specialRequests req)
             then default EmptyString (q_specialRequests req)
             else EmptyString) |}.

Definition createBooking (env : Env) (st : State) (req : Request)
    : Response * State :=
  let children := default 0 (q_children req) in
  let numberOfRooms := q_numberOfRooms req in
  let guests := q_guests req in
  (* Validate guest name (no numbers) *)
  let nameValidation := validateGuestName env (q_guestName req) in
  if negb (isValid nameValidation) then (sendValidationError nameValidation, st) else
  (* Validate phone number (exactly 10 digits) *)
  let phoneValidation := validatePhoneNumber env (q_guestPhone req) in
  if negb (isValid phoneValidation) then (sendValidationError phoneValidation, st) else
  (* Validate children count *)
  let childrenValidation := validateChildren env children guests in
  if negb (isValid childrenValidation) then (sendValidationError childrenValidation, st) else
  (* Validate special requests word count *)
  let specialRequestsValidation :=
    if truthyS (q_specialRequests req)
    then validateSpecialRequests env (default EmptyString (q_specialRequests req))
    else valid in
  if negb (isValid specialRequestsValidation)
  then (sendValidationError specialRequestsValidation, st) else
  (* Validate room exists and is available *)
  let roomValidation := validateRoom st (q_room req) in
  if negb (isValid (fst roomValidation)) then (sendValidationError (fst roomValidation), st) else
  match q_room req, snd roomValidation with
  | Some roomId, Some room =>
      (* Validate guest capacity based on room type *)
      let capacityValidation := validateGuestCapacityByRoomType env guests (name room) in
      if negb (isValid capacityValidation)
      then (sendValidationError capacityValidation, st) else
      (* Validate number of rooms by room type *)
      let roomCountValidation := validateNumberOfRoomsByType env numberOfRooms (name room) in
      if negb (isValid roomCountValidation)
      then (sendValidationError roomCountValidation, st) else
      (* Validate sufficient rooms for guests (3 guests per room) *)
      if js_lt numberOfRooms (requiredRooms guests)
      then (InsufficientRoomsForGuests (default 0 (requiredRooms guests)), st) else
      (* Validate doesn't exceed max rooms for this type *)
      let maxRoomsForType := MAX_ROOMS_PER_TYPE env (name room) in
      if truthyZ maxRoomsForType && js_gt numberOfRooms maxRoomsForType
      then (ExceedsMaxRooms (default 0 maxRoomsForType), st) else
      (* Parse and validate dates *)
      match parseDate (q_checkIn req), parseDate (q_checkOut req) with
      | Some checkInDate, Some checkOutDate =>
          (* Check if enough rooms are available *)
          let existingBookings :=
            Booking_find st (overlapQuery roomId checkInDate checkOutDate None) in
          let availableRooms := availableRooms room existingBookings in
          if js_lt (Some availableRooms) numberOfRooms
          then (NotEnoughRooms availableRooms numberOfRooms (head existingBookings), st)
          else
            (* Create booking with all validated data *)
            BookingService.respond st
              (BookingService.createBooking env st
                 (bookingData req roomId checkInDate checkOutDate))
      | _, _ => (ServerError, st)
      end
  | _, _ => (ServerError, st)
  end.

End CreateBookingLater.

(** ** updateBooking, cancelBooking, deleteBooking *)

Module UpdateBookingController.
Import JsDate Store Http Absent BookingValidationService.

Definition updateBooking (env : Env) (st : State) (id : nat) (body : UpdateBody)
    : Response * State :=
  match Booking_findById st id with
  | None => (BookingNotFound, st)
  | Some booking =>
      let commit :=
        match BookingService.updateBooking env st id body with
        | inr (updatedBooking, st') => (BookingUpdated updatedBooking, st')
        | inl _ => (ServerError, st)
        end in
      (* If updating dates, check for conflicts *)
      if given (u_checkIn body) || given (u_checkOut body) then
        let newCheckIn :=
          if given (u_checkIn body) then parseDay (u_checkIn body)
          else Some (checkIn booking) in
        let newCheckOut :=
          if given (u_checkOut body) then parseDay (u_checkOut body)
          else Some (checkOut booking) in
        match newCheckIn, newCheckOut with
        | Some ci, Some co =>
            (* Check for conflicts (excluding current booking) *)
            match checkBookingConflict st (room booking) ci co (Some id) with
            | Some _ => (RoomNotAvailable, st)
            | None => commit
            end
        | _, _ => (ServerError, st)
        end
      else commit
  end.

Definition cancelBooking (env : Env) (now : Z) (st : State) (id : nat)
    (userId : option nat) (reason : option string) : Response * State :=
  match BookingService.cancelBooking env now st id userId reason with
  | inr (booking, st') => (BookingCancelled booking, st')
  | inl BookingService.NotFoundError => (BookingNotFound, st)
  | inl BookingService.CannotBeCancelledError => (NotCancellable, st)
  | inl _ => (ServerError, st)
  end.

Definition deleteBooking (st : State) (id : nat) : Response * State :=
  match BookingService.deleteBooking st id with
  | inr (_, st') => (BookingDeleted, st')
  | inl BookingService.NotFoundError => (BookingNotFound, st)
  | inl _ => (ServerError, st)
  end.

End UpdateBookingController.

(** ** checkAvailability (checkAvailabilityController.ts) *)

Module CheckAvailabilityController.
Import JsDate Store Http BookingValidationService.

(** [req.body] of [POST /api/bookings/check-availability]. *)
Record ProbeBody := {
  a_roomId : option nat;
  a_checkIn : option DateInput;
  a_checkOut : option DateInput;
  a_guests : option Z
}.

Inductive ProbeResponse :=
| MissingParameters
| ProbeRoomNotFound (message : option string)
| RoomDisabled
| OverCapacity (message : option string) (room : Room)
| DatesRejected (response : Response)
| NotAvailable (conflictingBooking : Booking) (room : Room)
| Available (room : Room) (pricing : Pricing.PricingCalculation) (checkIn checkOut : Z)
| ProbeServerError.

Definition checkAvailability (now : Z) (st : State) (body : ProbeBody) : ProbeResponse :=
  (* Validate required fields *)
  if negb (given (a_roomId body)) || negb (given (a_checkIn body))
     || negb (given (a_checkOut body))
  then MissingParameters else
  (* Validate room exists and is available *)
  let roomValidation := validateRoom st (a_roomId body) in
  if negb (isValid (fst roomValidation)) then
    if bool_decide (statusCode (fst roomValidation) = Some 404%Z)
    then ProbeRoomNotFound (error (fst roomValidation))
    else RoomDisabled
  else
  match a_roomId body, snd roomValidation with
  | Some roomId, Some room =>
      (* Validate guest capacity (if provided) *)
      let capacityValidation :=
        if truthyZ (a_guests body)
        then validateGuestCapacity (default 0%Z (a_guests body)) (capacity room)
        else valid in
      if negb (isValid capacityValidation)
      then OverCapacity (error capacityValidation) room else
      (* Validate dates *)
      let dateValidation := validateDates now (a_checkIn body) (a_checkOut body) in
      if negb (isValid (fst (fst dateValidation)))
      then DatesRejected (sendValidationError (fst (fst dateValidation))) else
      match snd (fst dateValidation), snd dateValidation with
      | Some checkInDate, Some checkOutDate =>
          (* Check for booking conflicts *)
          match checkBookingConflict st roomId checkInDate checkOutDate None with
          | Some conflictingBooking => NotAvailable conflictingBooking room
          | None =>
              (* Calculate pricing *)
              let pricing :=
                Pricing.calculatePricing
                  {| Pricing.checkInDate := checkInDate;
                     Pricing.checkOutDate := checkOutDate;
                     Pricing.p_pricePerNight := price room;
                     Pricing.p_discountAmount := None;
                     Pricing.p_taxRate := None |} in
              Available room pricing (isoDate checkInDate) (isoDate checkOutDate)
          end
      | _, _ => ProbeServerError
      end
  | _, _ => ProbeServerError
  end.

End CheckAvailabilityController.

(** ** getRoomAvailability (roomController.ts) *)

Module RoomController.
Import JsDate Store Http.

Record Day := {
  date : Z;
  available : bool
}.

Inductive CalendarResponse :=
| Calendar (startDate endDate : Z) (availability : list Day)
| RoomNotFound
| CalendarError.

(** [for (d = new Date(checkIn); d < checkOut; d.setDate(d.getDate() + 1))
      bookedDates.add(d.toISOString().split('T')[0])], at most [fuel]
    turns. *)
Fixpoint markBooked (fuel : nat) (d bCheckOut : Z) (bookedDates : gset Z) : gset Z :=
  match fuel with
  | O => bookedDates
  | S fuel' =>
      if bool_decide (d < bCheckOut)
      then markBooked fuel' (addDays d 1) bCheckOut ({[ isoDate d ]} ∪ bookedDates)
      else bookedDates
  end.

Definition addBooked (bookedDates : gset Z) (booking : Booking) : gset Z :=
  markBooked (Occupancy.stayDays (checkIn booking) (checkOut booking))
    (checkIn booking) (checkOut booking) bookedDates.

(** [for (d = new Date(start); d <= end; d.setDate(d.getDate() + 1))
      availability.push({ date, available: !bookedDates.has(date) })],
    at most [fuel] turns. *)
Fixpoint calendarDays (fuel : nat) (d end_ : Z) (bookedDates : gset Z) : list Day :=
  match fuel with
  | O => []
  | S fuel' =>
      if bool_decide (d <= end_) then
        {| date := isoDate d;
           available := negb (bool_decide (isoDate d ∈ bookedDates)) |}
        :: calendarDays fuel' (addDays d 1) end_ bookedDates
      else []
  end.

Definition getRoomAvailability (now : Z) (st : State) (roomId : nat)
    (startDate : option DateInput) : CalendarResponse :=
  match List.find (fun r => bool_decide (r_id r = roomId) && isAvailable r) (rooms st) with
  | None => RoomNotFound
  | Some room =>
      match (if given startDate then parseDate startDate else Some now) with
      | None => CalendarError
      | Some t =>
          let start := startOfDay t in
          let end_ := addDays start 30 in
          let bookings := Booking_find st (overlapQuery roomId start end_ None) in
          let bookedDates := fold_left addBooked bookings ∅ in
          Calendar (isoDate start) (isoDate end_)
            (calendarDays (Z.to_nat ((end_ - start) / MS_PER_DAY + 1)) start end_ bookedDates)
      end
  end.

(** The filters of [GET /api/rooms]. A numeric filter is a query string:
    absent or empty ([None]), not a number ([Some None]) or a number. *)
Record RoomFilters := {
  g_available : option string;
  g_minPrice : option (option Q);
  g_maxPrice : option (option Q);
  g_capacity : option (option Q)
}.

Inductive RoomResponse :=
| RoomList (rooms : list Room)
| RoomFound (room : Room)
| RoomToggled (room : Room)
| RoomDeleted
| RoomMissing
| RoomError.

(** The price and capacity part of the filter object, shared by the two
    listings; [None] when a bound is not a number and its cast throws. *)
Definition withinBounds (filters : RoomFilters) : option (Room -> bool) :=
  match g_minPrice filters, g_maxPrice filters, g_capacity filters with
  | Some None, _, _ | _, Some None, _ | _, _, Some None => None
  | lo, hi, cap =>
      Some (fun r =>
        match lo with Some (Some q) => Qle_bool q (price r) | _ => true end
        && match hi with Some (Some q) => Qle_bool (price r) q | _ => true end
        && match cap with
           | Some (Some q) => Qle_bool q (inject_Z (capacity r))
           | _ => true
           end)
  end.

(** [.sort({ price: 1 })] *)
Definition byPrice (r1 r2 : Room) : Prop := Qle_bool (price r1) (price r2) = true.

#[global] Instance byPrice_dec : RelDecision byPrice.
Proof. intros r1 r2. unfold byPrice. apply _. Defined.

(** [getAllRooms]: the public listing. *)
Definition getAllRooms (st : State) (filters : RoomFilters) : RoomResponse :=
  let onlyAvailable :=
    match g_available filters with
    | Some a => negb (String.eqb a "false")
    | None => true
    end in
  match withinBounds filters with
  | None => RoomError
  | Some bounds =>
      RoomList
        (merge_sort byPrice
           (List.filter (fun r => (if onlyAvailable then isAvailable r else true)
                                  && bounds r) (rooms st)))
  end.

(** [getAllRoomsAdmin]: the newest first. *)
Definition getAllRoomsAdmin (st : State) (filters : RoomFilters) : RoomResponse :=
  let flag (r : Room) :=
    match g_available filters with
    | Some a =>
        if String.eqb a "true" then isAvailable r
        else if String.eqb a "false" then negb (isAvailable r)
        else true
    | None => true
    end in
  match withinBounds filters with
  | None => RoomError
  | Some bounds => RoomList (rev (List.filter (fun r => flag r && bounds r) (rooms st)))
  end.

(** [getRoomById]: [Room.findOne({ _id, isAvailable: true })]. *)
Definition getRoomById (st : State) (id : nat) : RoomResponse :=
  match List.find (fun r => bool_decide (r_id r = id) && isAvailable r) (rooms st) with
  | Some room => RoomFound room
  | None => RoomMissing
  end.

(** [getRoomByIdAdmin] *)
Definition getRoomByIdAdmin (st : State) (id : nat) : RoomResponse :=
  match Room_findById st id with
  | Some room => RoomFound room
  | None => RoomMissing
  end.

(** Replace the room whose [_id] is [id]. *)
Fixpoint replaceRoom (id : nat) (room' : Room) (l : list Room) : list Room :=
  match l with
  | [] => []
  | r :: l' =>
      if bool_decide (r_id r = id) then room' :: l'
      else r :: replaceRoom id room' l'
  end.

(** [toggleRoomAvailability]; [accepts] is the validation that
    [room.save()] runs against the schema of models/Room.ts, which the
    sources do not include. *)
Definition toggleRoomAvailability (accepts : Room -> bool) (st : State) (id : nat)
    : RoomResponse * State :=
  match Room_findById st id with
  | None => (RoomMissing, st)
  | Some room =>
      let room' :=
        {| r_id := r_id room;
           name := name room;
           price := price room;
           capacity := capacity room;
           totalRooms := totalRooms room;
           isAvailable := negb (isAvailable room) |} in
      if accepts room' then
        (RoomToggled room',
         {| rooms := replaceRoom (r_id room) room' (rooms st);
            bookings := bookings st;
            nextId := nextId st |})
      else (RoomError, st)
  end.

(** [deleteRoom] *)
Definition deleteRoom (st : State) (id : nat) : RoomResponse * State :=
  match Room_findById st id with
  | None => (RoomMissing, st)
  | Some _ =>
      (RoomDeleted,
       {| rooms := List.filter (fun r => negb (bool_decide (r_id r = id))) (rooms st);
          bookings := bookings st;
          nextId := nextId st |})
  end.

End RoomController.

(** ** The reservation lifecycle as a transition system *)

Module Lifecycle.
Import Store Http Absent.

(** One request served by the later controllers. *)
Inductive Op :=
| Create (req : Request)
| Update (id : nat) (body : UpdateBody)
| Cancel (now : Z) (id : nat) (userId : option nat) (reason : option string)
| Delete (id : nat).

Definition serve (env : Env) (st : State) (op : Op) : Response * State :=
  match op with
  | Create req => CreateBookingLater.createBooking env st req
  | Update id body => UpdateBookingController.updateBooking env st id body
  | Cancel now id userId reason =>
      UpdateBookingController.cancelBooking env now st id userId reason
  | Delete id => UpdateBookingController.deleteBooking st id
  end.

(** The state after a sequence of requests. *)
Definition run (env : Env) (st : State) (ops : list Op) : State :=
  fold_left (fun s op => snd (serve env s op)) ops st.

(** A catalog with no reservation yet. *)
Definition initial (catalog : list Room) : State :=
  {| rooms := catalog; bookings := []; nextId := 0 |}.

Definition reachable (env : Env) (catalog : list Room) (st : State) : Prop :=
  exists ops, run env (initial catalog) ops = st.

(** Every document has an [_id] below [nextId], and no two share one. *)
Definition idsFresh (st : State) : Prop :=
  NoDup (List.map b_id (bookings st))
  /\ Forall (fun b => (b_id b < nextId st)%nat) (bookings st).

End Lifecycle.

(** ** The absent parts, as the specification describes them *)

Module SpecModel.
Import JsDate Store Http Absent JsString.
Local Open Scope string_scope.

Fixpoint allChars (p : ascii -> bool) (s : string) : bool :=
  match s with
  | EmptyString => true
  | String c s' => p c && allChars p s'
  end.

(** The number of maximal runs of characters that are not spaces. *)
Fixpoint countWords (inWord : bool) (s : string) : nat :=
  match s with
  | EmptyString => 0
  | String c s' =>
      if isSpace c then countWords false s'
      else if inWord then countWords true s' else S (countWords true s')
  end.

(** Modelled from the spec: [validateGuestName] of
    validators/bookingValidator.ts, "guest name contains no digits". *)
Definition guestNameRule (nm : option string) : ValidationResult :=
  match nm with
  | Some s =>
      if allChars (fun c => negb (isDigit c)) s then valid
      else invalid "invalid_format: guest name" 400
  | None => invalid "invalid_format: guest name" 400
  end.

(** Modelled from the spec: [validatePhoneNumber] of
    validators/bookingValidator.ts, "phone is exactly 10 digits". *)
Definition phoneRule (phone : option string) : ValidationResult :=
  match phone with
  | Some s =>
      if allChars isDigit s && bool_decide (String.length s = 10%nat) then valid
      else invalid "invalid_format: phone" 400
  | None => invalid "invalid_format: phone" 400
  end.

(** Modelled from the spec: [validateChildren] of
    validators/bookingValidator.ts, "children count, if present, is
    between 0 and total guests inclusive". *)
Definition childrenRule (children : Z) (guests : option Z) : ValidationResult :=
  if bool_decide (0 <= children)%Z && negb (js_lt guests (Some children)) then valid
  else invalid "invalid_format: children" 400.

(** Modelled from the spec: [validateSpecialRequests] of
    validators/bookingValidator.ts, "special-request text, if present, does
    not exceed a fixed word-count ceiling"; the ceiling is [wordLimit]. *)
Definition specialRequestsRule (wordLimit : nat) (text : string) : ValidationResult :=
  if bool_decide (countWords false text <= wordLimit)%nat then valid
  else invalid "invalid_format: special requests" 400.

(** Modelled from the spec: [validateGuestCapacityByRoomType] of
    validators/bookingValidator.ts, "guest count does not exceed the room
    type's stated capacity", a lookup keyed by the display name. *)
Definition capacityRule (capacityOf : string -> option Z)
    (guests : option Z) (roomName : string) : ValidationResult :=
  if js_gt guests (capacityOf roomName) then invalid "capacity_exceeded" 400
  else valid.

(** Modelled from the spec: [validateNumberOfRoomsByType] of
    validators/bookingValidator.ts, "requested room count does not exceed
    the type-specific maximum (when one is configured)". *)
Definition roomCountRule (maxRoomsOf : string -> option Z)
    (numberOfRooms : option Z) (roomName : string) : ValidationResult :=
  if js_gt numberOfRooms (maxRoomsOf roomName) then invalid "room_count_invalid" 400
  else valid.

(** Modelled from the spec: [canBeCancelled] of models/Booking.ts, "the
    stay's check-in must be at least 24 hours in the future at the moment
    of cancellation". *)
Definition cancellable (now : Z) (b : Booking) : bool :=
  bool_decide (24 * MS_PER_HOUR <= checkIn b - now)%Z.

(** Modelled from the spec: the absent modules together; the schema of
    models/Booking.ts, of which the specification says nothing, accepts
    every document. *)
Definition specEnv (wordLimit : nat) (capacityOf maxRoomsOf : string -> option Z) : Env :=
  {| validateGuestName := guestNameRule;
     validatePhoneNumber := phoneRule;
     validateChildren := childrenRule;
     validateSpecialRequests := specialRequestsRule wordLimit;
     validateGuestCapacityByRoomType := capacityRule capacityOf;
     validateNumberOfRoomsByType := roomCountRule maxRoomsOf;
     MAX_ROOMS_PER_TYPE := maxRoomsOf;
     schemaAccepts := fun _ => true;
     canBeCancelled := cancellable |}.

End SpecModel.

(** ** The specification's own notions *)

Module Spec.
Import JsDate Store Http Absent BookingValidationService.

(** A reservation's "rooms requested"; a document of the earlier
    version, which records no count, is a stay in one room. *)
Definition roomsRequested (b : Booking) : Z := default 1 (numberOfRooms b).

(** The night of calendar day [d] is occupied by [b]: [d] lies in
    [[checkIn, checkOut)]. *)
Definition covers (b : Booking) (d : Z) : bool :=
  bool_decide (checkIn b <= midnight d) && bool_decide (midnight d < checkOut b).

Definition sumRooms (l : list Booking) : Z :=
  foldr (fun b acc => roomsRequested b + acc) 0 l.

(** The rooms of a room type committed on the night of day [d]: the sum of
    rooms requested over the pending and confirmed reservations whose
    window covers it. *)
Definition nightLoad (st : State) (roomId : nat) (d : Z) : Z :=
  sumRooms
    (List.filter (fun b => bool_decide (room b = roomId) && isActive b && covers b d)
       (bookings st)).

(** The core invariant of section 3. *)
Definition inventoryInvariant (st : State) : Prop :=
  forall r d, In r (rooms st) -> nightLoad st (r_id r) d <= totalRooms r.

(** A reservation as the data model has it: calendar dates at midnight
    UTC and at least one room. *)
Definition wellFormed (b : Booking) : Prop :=
  atMidnight (checkIn b) /\ atMidnight (checkOut b) /\ 1 <= roomsRequested b.

(** Section 4.3. The calendar days of the window [[from, to)]. *)
Definition windowDays (from to : Z) : list Z :=
  seqZ (isoDate from) (isoDate to - isoDate from).

(** The per-day counter: the rooms requested of every reservation whose
    days include [d]. *)
Definition dayCounter (existing : list Booking) (d : Z) : Z :=
  sumRooms (List.filter (fun b => covers b d) existing).

Definition maxOf (l : list Z) : Z :=
  match l with
  | [] => 0
  | v :: vs => fold_left Z.max vs v
  end.

(** The peak occupancy: the maximum of the counter over the days of the
    requested window. *)
Definition peakOccupancy (existing : list Booking) (from to : Z) : Z :=
  maxOf (dayCounter existing <$> windowDays from to).

(** Section 4.2. The verdict of one rule: [Some] is the failure it
    reports. *)
Definition report (r : ValidationResult) : option Response :=
  if isValid r then None else Some (sendValidationError r).

Fixpoint firstFailure (verdicts : list (option Response)) : option Response :=
  match verdicts with
  | [] => None
  | Some r :: _ => Some r
  | None :: rest => firstFailure rest
  end.

(** The nine rules of section 4.2, in the order it gives them. The rules
    on the room type are read against the room the request names. *)
Definition nineRules (env : Env) (now : Z) (st : State) (req : Request)
    : list (option Response) :=
  let room := snd (validateRoom st (q_room req)) in
  [ report (validateRequiredFields req);
    report (validateGuestName env (q_guestName req));
    report (validatePhoneNumber env (q_guestPhone req));
    match q_children req with
    | Some c => report (validateChildren env c (q_guests req))
    | None => None
    end;
    match q_specialRequests req with
    | Some text => report (validateSpecialRequests env text)
    | None => None
    end;
    report (fst (fst (validateDates now (q_checkIn req) (q_checkOut req))));
    match room with
    | Some r => report (validateGuestCapacityByRoomType env (q_guests req) (name r))
    | None => None
    end;
    match room with
    | Some r => report (validateNumberOfRoomsByType env (q_numberOfRooms req) (name r))
    | None => None
    end;
    if js_lt (q_numberOfRooms req) (CreateBookingLater.requiredRooms (q_guests req))
    then Some (InsufficientRoomsForGuests
                 (default 0 (CreateBookingLater.requiredRooms (q_guests req))))
    else None ].

(** The rules the later controller runs, in its order. *)
Definition laterRules (env : Env) (st : State) (req : Request)
    : list (option Response) :=
  let room := snd (validateRoom st (q_room req)) in
  [ report (validateGuestName env (q_guestName req));
    report (validatePhoneNumber env (q_guestPhone req));
    report (validateChildren env (default 0 (q_children req)) (q_guests req));
    if truthyS (q_specialRequests req)
    then report (validateSpecialRequests env (default EmptyString (q_specialRequests req)))
    else None;
    report (fst (validateRoom st (q_room req)));
    match room with
    | Some r => report (validateGuestCapacityByRoomType env (q_guests req) (name r))
    | None => None
    end;
    match room with
    | Some r => report (validateNumberOfRoomsByType env (q_numberOfRooms req) (name r))
    | None => None
    end;
    if js_lt (q_numberOfRooms req) (CreateBookingLater.requiredRooms (q_guests req))
    then Some (InsufficientRoomsForGuests
                 (default 0 (CreateBookingLater.requiredRooms (q_guests req))))
    else None;
    match room with
    | Some r =>
        if truthyZ (MAX_ROOMS_PER_TYPE env (name r))
           && js_gt (q_numberOfRooms req) (MAX_ROOMS_PER_TYPE env (name r))
        then Some (ExceedsMaxRooms (default 0 (MAX_ROOMS_PER_TYPE env (name r))))
        else None
    | None => None
    end ].

(** The rules the earlier controller runs, in its order. *)
Definition earlierRules (now : Z) (st : State) (req : Request)
    : list (option Response) :=
  [ report (validateRequiredFields req);
    report (fst (validateRoom st (q_room req)));
    report (fst (fst (validateDates now (q_checkIn req) (q_checkOut req)))) ].

(** The discount a caller supplied, [0] when absent. *)
Definition suppliedDiscount (params : Pricing.PricingParams) : Q :=
  match Pricing.p_discountAmount params with Some d => d | None => 0%Q end.

(** The rate the calculation applies: the caller's rate when one is
    supplied and is not zero, the default when none is supplied. *)
Definition rateInForce (params : Pricing.PricingParams) (r : Q) : Prop :=
  match Pricing.p_taxRate params with
  | Some v => ~ (v == 0)%Q /\ r = v
  | None => r = Pricing.DEFAULT_TAX_RATE
  end.


End Spec.

(** ** The specification's concrete scenario *)

Module Deluxe.
Import JsDate Store Http Absent.
Local Open Scope string_scope.

(** 2025-03-01, as a day number. *)
Definition march1 : Z := 20148.

Definition deluxe : Room :=
  {| r_id := 1;
     name := "Deluxe";
     price := 3500;
     capacity := 6;
     totalRooms := 2;
     isAvailable := true |}.

Definition tables (roomName : string) : option Z :=
  if String.eqb roomName "Deluxe" then Some 2%Z else None.

Definition capacities (roomName : string) : option Z :=
  if String.eqb roomName "Deluxe" then Some 6%Z else None.

Definition env : Env := SpecModel.specEnv 50 capacities tables.

Definition catalog : list Room := [deluxe].

(** A request for [n] rooms from day [from] to day [to]. *)
Definition request (n from to : Z) : Request :=
  {| q_room := Some 1%nat;
     q_checkIn := Some (IsoDay from);
     q_checkOut := Some (IsoDay to);
     q_guests := Some 2%Z;
     q_children := None;
     q_numberOfRooms := Some n;
     q_guestName := Some "Asha Rao";
     q_guestEmail := Some "Asha@Example.com";
     q_guestPhone := Some "9876543210";
     q_nights := Some (inject_Z (to - from));
     q_pricePerNight := Some 3500%Q;
     q_totalPrice := Some 7840%Q;
     q_taxAmount := Some 840%Q;
     q_discountAmount := None;
     q_specialRequests := None |}.

(** Reservation A of the scenario: 1 room, 2025-03-01 to 2025-03-03. *)
Definition requestA : Request := request 1 march1 (march1 + 2).

(** Reservation B: 2 rooms, 2025-03-02 to 2025-03-04. *)
Definition requestB : Request := request 2 (march1 + 1) (march1 + 3).

(** Reservation C: 1 room, 2025-03-03 to 2025-03-05. *)
Definition requestC : Request := request 1 (march1 + 2) (march1 + 4).

(** The store once A is booked. *)
Definition withA : State :=
  Lifecycle.run env (Lifecycle.initial catalog) [Lifecycle.Create requestA].

(** Another stay of 1 room, 2025-03-05 to 2025-03-07. *)
Definition requestD : Request := request 1 (march1 + 4) (march1 + 6).

(** The store once A and D are booked. *)
Definition withAD : State :=
  Lifecycle.run env (Lifecycle.initial catalog)
    [Lifecycle.Create requestA; Lifecycle.Create requestD].

(** Request A without an e-mail address and with a digit in the name. *)
Definition requestNoEmail : Request :=
  {| q_room := q_room requestA;
     q_checkIn := q_checkIn requestA;
     q_checkOut := q_checkOut requestA;
     q_guests := q_guests requestA;
     q_children := q_children requestA;
     q_numberOfRooms := q_numberOfRooms requestA;
     q_guestName := Some "R2D2";
     q_guestEmail := None;
     q_guestPhone := q_guestPhone requestA;
     q_nights := q_nights requestA;
     q_pricePerNight := q_pricePerNight requestA;
     q_totalPrice := q_totalPrice requestA;
     q_taxAmount := q_taxAmount requestA;
     q_discountAmount := q_discountAmount requestA;
     q_specialRequests := q_specialRequests requestA |}.

(** Request A with a digit in the name. *)
Definition requestDigitName : Request :=
  {| q_room := q_room requestA;
     q_checkIn := q_checkIn requestA;
     q_checkOut := q_checkOut requestA;
     q_guests := q_guests requestA;
     q_children := q_children requestA;
     q_numberOfRooms := q_numberOfRooms requestA;
     q_guestName := Some "R2D2";
     q_guestEmail := q_guestEmail requestA;
     q_guestPhone := q_guestPhone requestA;
     q_nights := q_nights requestA;
     q_pricePerNight := q_pricePerNight requestA;
     q_totalPrice := q_totalPrice requestA;
     q_taxAmount := q_taxAmount requestA;
     q_discountAmount := q_discountAmount requestA;
     q_specialRequests := q_specialRequests requestA |}.

(** A request whose check-out precedes its check-in. *)
Definition requestBackwards : Request := request 1 (march1 + 2) march1.

(** A stay of 1 room that begins 30 days after 2025-03-01. *)
Definition requestLate : Request := request 1 (march1 + 30) (march1 + 32).

(** The store with only that stay. *)
Definition withLate : State :=
  Lifecycle.run env (Lifecycle.initial catalog) [Lifecycle.Create requestLate].

(** A stay of 1 room that begins 29 days after 2025-03-01. *)
Definition requestLateEve : Request := request 1 (march1 + 29) (march1 + 32).

Definition withLateEve : State :=
  Lifecycle.run env (Lifecycle.initial catalog) [Lifecycle.Create requestLateEve].

(** The spec's scenario for pricing: 3500 a night, 2025-03-01 to
    2025-03-03. *)
Definition stay (taxRate : option Q) : Pricing.PricingParams :=
  {| Pricing.checkInDate := JsDate.midnight march1;
     Pricing.checkOutDate := JsDate.midnight (march1 + 2);
     Pricing.p_pricePerNight := 3500;
     Pricing.p_discountAmount := None;
     Pricing.p_taxRate := taxRate |}.

(** [n] nights from 2025-03-01 at [perNight], no discount. *)
Definition priced (perNight : Q) (n : Z) (taxRate : option Q) : Pricing.PricingParams :=
  {| Pricing.checkInDate := JsDate.midnight march1;
     Pricing.checkOutDate := JsDate.midnight (march1 + n);
     Pricing.p_pricePerNight := perNight;
     Pricing.p_discountAmount := None;
     Pricing.p_taxRate := taxRate |}.

(** A body that moves a stay to the days [from] to [to]. *)
Definition moveTo (from to : Z) : UpdateBody :=
  {| u_checkIn := Some (IsoDay from);
     u_checkOut := Some (IsoDay to);
     u_guests := None;
     u_children := None;
     u_numberOfRooms := None;
     u_status := None |}.

(** A body that changes the room count. *)
Definition setRooms (n : Z) : UpdateBody :=
  {| u_checkIn := None;
     u_checkOut := None;
     u_guests := None;
     u_children := None;
     u_numberOfRooms := Some n;
     u_status := None |}.

(** Request A with a check-in that is no date. *)
Definition requestGarbledDate : Request :=
  {| q_room := q_room requestA;
     q_checkIn := Some Unparsable;
     q_checkOut := q_checkOut requestA;
     q_guests := q_guests requestA;
     q_children := q_children requestA;
     q_numberOfRooms := q_numberOfRooms requestA;
     q_guestName := q_guestName requestA;
     q_guestEmail := q_guestEmail requestA;
     q_guestPhone := q_guestPhone requestA;
     q_nights := q_nights requestA;
     q_pricePerNight := q_pricePerNight requestA;
     q_totalPrice := q_totalPrice requestA;
     q_taxAmount := q_taxAmount requestA;
     q_discountAmount := q_discountAmount requestA;
     q_specialRequests := q_specialRequests requestA |}.

(** A probe of the Deluxe room for the days [from] to [to]. *)
Definition probe (from to : Z) : CheckAvailabilityController.ProbeBody :=
  {| CheckAvailabilityController.a_roomId := Some 1%nat;
     CheckAvailabilityController.a_checkIn := Some (IsoDay from);
     CheckAvailabilityController.a_checkOut := Some (IsoDay to);
     CheckAvailabilityController.a_guests := Some 2%Z |}.

(** A stay of 1 room from 2025-03-02 14:00 to 2025-03-03 10:00 UTC, its
    dates sent as full ISO instants. *)
Definition requestAfternoon : Request :=
  {| q_room := q_room requestA;
     q_checkIn := Some (IsoInstant (midnight (march1 + 1) + 14 * MS_PER_HOUR));
     q_checkOut := Some (IsoInstant (midnight (march1 + 2) + 10 * MS_PER_HOUR));
     q_guests := q_guests requestA;
     q_children := q_children requestA;
     q_numberOfRooms := q_numberOfRooms requestA;
     q_guestName := q_guestName requestA;
     q_guestEmail := q_guestEmail requestA;
     q_guestPhone := q_guestPhone requestA;
     q_nights := Some 1%Q;
     q_pricePerNight := q_pricePerNight requestA;
     q_totalPrice := Some 3920%Q;
     q_taxAmount := Some 420%Q;
     q_discountAmount := q_discountAmount requestA;
     q_specialRequests := q_specialRequests requestA |}.

(** 1 room for the night of 2025-03-03. *)
Definition requestNight : Request := request 1 (march1 + 2) (march1 + 3).

(** The store once the afternoon stay and one night of 03-03 are booked. *)
Definition withAfternoon : State :=
  Lifecycle.run env (Lifecycle.initial catalog)
    [Lifecycle.Create requestAfternoon; Lifecycle.Create requestNight].

(** A body that writes a status. *)
Definition setStatus (s : Status) : UpdateBody :=
  {| u_checkIn := None;
     u_checkOut := None;
     u_guests := None;
     u_children := None;
     u_numberOfRooms := None;
     u_status := Some s |}.

(** The store once A is booked and then cancelled 24 hours before its
    check-in. *)
Definition cancelledA : State :=
  Lifecycle.run env (Lifecycle.initial catalog)
    [Lifecycle.Create requestA;
     Lifecycle.Cancel (midnight march1 - 24 * MS_PER_HOUR) 0 None None].

(** The same store once an update has written status confirmed to A. *)
Definition reactivatedA : State :=
  Lifecycle.run env (Lifecycle.initial catalog)
    [Lifecycle.Create requestA;
     Lifecycle.Cancel (midnight march1 - 24 * MS_PER_HOUR) 0 None None;
     Lifecycle.Update 0 (setStatus confirmed)].

(** The store once A is booked twice. *)
Definition withAA : State :=
  Lifecycle.run env (Lifecycle.initial catalog)
    [Lifecycle.Create requestA; Lifecycle.Create requestA].

(** The store once A is booked twice and the first A is given 2 rooms. *)
Definition oversold : State :=
  Lifecycle.run env (Lifecycle.initial catalog)
    [Lifecycle.Create requestA; Lifecycle.Create requestA;
     Lifecycle.Update 0 (setRooms 2)].

End Deluxe.

(** ** Exclusive use of a room

    What the conflict check of the validation service is there to keep:
    no two pending or confirmed reservations of one room overlap. *)

Module Exclusive.
Import Store.

Definition overlaps (x y : Booking) : Prop :=
  checkIn x < checkOut y /\ checkIn y < checkOut x.

Definition noDoubleBooking (st : State) : Prop :=
  forall x y,
    In x (bookings st) -> In y (bookings st) -> b_id x <> b_id y ->
    room x = room y -> isActive x = true -> isActive y = true ->
    ~ overlaps x y.

End Exclusive.

(** ** Histories without updates *)

Module History.
Import Store Http Lifecycle.

(** A creation request for whole calendar days and at least one room. *)
Definition dayRequest (req : Request) : Prop :=
  exists from to n,
    q_checkIn req = Some (IsoDay from) /\ q_checkOut req = Some (IsoDay to)
    /\ q_numberOfRooms req = Some n /\ 1 <= n.

Definition withoutUpdate (op : Op) : Prop :=
  match op with
  | Create req => dayRequest req
  | Update _ _ => False
  | Cancel _ _ _ _ | Delete _ => True
  end.

(** A request that writes no status to the reservation [id]. *)
Definition writesNoStatus (id : nat) (op : Op) : Prop :=
  match op with
  | Update i body => i = id -> u_status body = None
  | Create _ | Cancel _ _ _ _ | Delete _ => True
  end.

(** The reservation [id] was created and is now cancelled or deleted. *)
Definition retired (id : nat) (st : State) : Prop :=
  (id < nextId st)%nat
  /\ forall x, In x (bookings st) -> b_id x = id -> status x = cancelled.

(** A store that satisfies the inventory invariant, holds well-formed
    reservations and has distinct room ids. *)
Definition sound (st : State) : Prop :=
  Spec.inventoryInvariant st
  /\ Forall Spec.wellFormed (bookings st)
  /\ NoDup (List.map r_id (rooms st)).

End History.

(** * Properties *)

(** ** Dates *)

Section DateFacts.
Import JsDate.

Lemma MS_PER_DAY_pos : 0 < MS_PER_DAY.
Proof. reflexivity. Qed.

Lemma isoDate_midnight d : isoDate (midnight d) = d.
Proof. unfold isoDate, midnight. apply Z.div_mul. discriminate. Qed.

Lemma atMidnight_midnight d : atMidnight (midnight d).
Proof. unfold atMidnight, midnight. apply Z.mod_mul. discriminate. Qed.

Lemma atMidnight_inv t : atMidnight t -> t = midnight (isoDate t).
Proof.
  unfold atMidnight, midnight, isoDate. intros H.
  pose proof (Z.div_mod t MS_PER_DAY ltac:(discriminate)). lia.
Qed.

Lemma startOfDay_atMidnight t : atMidnight t -> startOfDay t = t.
Proof. unfold atMidnight, startOfDay. lia. Qed.

Lemma isoDate_addDays t n : isoDate (addDays t n) = isoDate t + n.
Proof.
  unfold isoDate, addDays. rewrite Z.div_add by discriminate. reflexivity.
Qed.

Lemma midnight_lt a b : midnight a < midnight b <-> a < b.
Proof. unfold midnight. pose proof MS_PER_DAY_pos. nia. Qed.

Lemma midnight_le a b : midnight a <= midnight b <-> a <= b.
Proof. unfold midnight. pose proof MS_PER_DAY_pos. nia. Qed.

End DateFacts.

(** ** Double arithmetic *)

Section NumberFacts.
Import JsNumber.
Local Open Scope Q_scope.

Lemma two_neq_0 : ~ 2 == 0.
Proof. discriminate. Qed.

Lemma pow2_pos e : 0 < pow2 e.
Proof. apply Qpower_0_lt. reflexivity. Qed.

Lemma pow2_plus a b : pow2 (a + b) == pow2 a * pow2 b.
Proof. apply Qpower_plus. exact two_neq_0. Qed.

Lemma pow2_Z k : (0 <= k)%Z -> pow2 k == inject_Z (2 ^ k).
Proof. intros H. unfold pow2. rewrite Zpower_Qpower by exact H. reflexivity. Qed.

Lemma pow2_le a b : (a <= b)%Z -> pow2 a <= pow2 b.
Proof. intros H. apply Qpower_le_compat_l; [exact H | discriminate]. Qed.

Lemma pow2_le_inv a b : pow2 a <= pow2 b -> (a <= b)%Z.
Proof. intros H. apply (Qpower_le_compat_l_inv 2); [exact H | reflexivity]. Qed.

Lemma pow2_lt_inv a b : pow2 a < pow2 b -> (a < b)%Z.
Proof. intros H. apply (Qpower_lt_compat_l_inv 2); [exact H | reflexivity]. Qed.

(** [floorLog2] does not overshoot. *)
Lemma floorLog2_le x : 0 < x -> pow2 (floorLog2 x) <= x.
Proof.
  intros Hx. unfold floorLog2.
  set (n := Qnum x). set (d := Z.pos (Qden x)).
  destruct (Qle_bool (pow2 (Z.log2 n - Z.log2 d)) x) eqn:E.
  - apply Qle_bool_iff. exact E.
  - clear E.
    assert (Hn : (0 < n)%Z).
    { unfold Qlt in Hx. simpl in Hx. subst n. lia. }
    assert (Hd : (0 < d)%Z) by (subst d; lia).
    pose proof (Z.log2_spec n Hn) as [Hn1 _].
    pose proof (Z.log2_spec d Hd) as [_ Hd2].
    pose proof (Z.log2_nonneg n) as Hln. pose proof (Z.log2_nonneg d) as Hld.
    replace (Z.log2 n - Z.log2 d - 1)%Z with (Z.log2 n - Z.succ (Z.log2 d))%Z by lia.
    unfold pow2. rewrite Qpower_minus by exact two_neq_0.
    fold (pow2 (Z.log2 n)). fold (pow2 (Z.succ (Z.log2 d))).
    rewrite !pow2_Z by lia.
    set (a := (2 ^ Z.log2 n)%Z) in *. set (b := (2 ^ Z.succ (Z.log2 d))%Z) in *.
    assert (Hb : (0 < b)%Z) by lia.
    assert (Ha : (0 < a)%Z) by (subst a; apply Z.pow_pos_nonneg; lia).
    assert (Hx' : x == inject_Z n / inject_Z d).
    { destruct x as [xn xd]. subst n d. simpl. unfold Qeq, Qdiv, Qmult, Qinv, inject_Z.
      simpl. lia. }
    rewrite Hx'.
    apply Qle_shift_div_l; [unfold Qlt, inject_Z; simpl; lia|].
    unfold Qdiv. rewrite <- Qmult_assoc, (Qmult_comm (/ _)), Qmult_assoc.
    apply Qle_shift_div_r; [unfold Qlt, inject_Z; simpl; lia|].
    rewrite <- !inject_Z_mult. rewrite <- Zle_Qle. nia.
Qed.

Lemma roundHalfEven_near m : Qabs (inject_Z (roundHalfEven m) - m) <= 1 # 2.
Proof.
  unfold roundHalfEven.
  pose proof (Qfloor_le m) as H1. pose proof (Qlt_floor m) as H2.
  set (f := Qfloor m) in *.
  rewrite inject_Z_plus in H2. change (inject_Z 1) with 1 in H2.
  assert (Hcases : forall r, (r = f \/ r = (f + 1)%Z) ->
                    (r = f -> m - inject_Z f <= 1 # 2) ->
                    (r = (f + 1)%Z -> 1 # 2 <= m - inject_Z f) ->
                    Qabs (inject_Z r - m) <= 1 # 2).
  { intros r Hr Hlo Hhi. apply Qabs_Qle_condition.
    destruct Hr as [->| ->].
    - specialize (Hlo eq_refl). split; lra.
    - specialize (Hhi eq_refl). rewrite inject_Z_plus. change (inject_Z 1) with 1.
      split; lra. }
  destruct (m - inject_Z f ?= 1 # 2) eqn:E.
  - apply Qeq_alt in E.
    destruct (Z.even f); apply Hcases; auto; intros; try lia; rewrite E; apply Qle_refl.
  - apply Qlt_alt in E. apply Hcases; auto; intros; try lia. apply Qlt_le_weak. exact E.
  - apply Qgt_alt in E. apply Hcases; auto; intros; try lia. apply Qlt_le_weak. exact E.
Qed.

Lemma roundHalfEven_whole z : roundHalfEven (inject_Z z) = z.
Proof.
  unfold roundHalfEven. rewrite Qfloor_Z.
  replace (inject_Z z - inject_Z z ?= 1 # 2) with Lt; [reflexivity|].
  symmetry. apply Qlt_alt.
  assert (E : inject_Z z - inject_Z z == 0) by ring.
  rewrite E. reflexivity.
Qed.


Lemma floorLog2_abs_le x : ~ x == 0 -> pow2 (floorLog2 (Qabs x)) <= Qabs x.
Proof.
  intros Hx. apply floorLog2_le.
  destruct (Qlt_le_dec 0 (Qabs x)) as [H|H]; [exact H|].
  exfalso. apply Hx. apply Qabs_Qle_condition in H. lra.
Qed.

(** [double x] is [x] moved by at most half a unit in the last place. *)
Lemma double_near x : Qabs (double x - x) <= (1 # 2) * ulp x.
Proof.
  unfold double. destruct (Qeq_bool x 0) eqn:E.
  - apply Qeq_bool_iff in E.
    pose proof (pow2_pos (Z.max (floorLog2 (Qabs x)) (-1022) - 52)) as Hu.
    fold (ulp x) in Hu.
    assert (H0 : 0 - x == 0) by (rewrite E; ring).
    rewrite H0. change (Qabs 0) with 0. set (u := ulp x) in *. lra.
  - pose proof (pow2_pos (Z.max (floorLog2 (Qabs x)) (-1022) - 52)) as Hu.
    fold (ulp x) in Hu. rewrite Qred_correct.
    set (u := ulp x) in *. set (r := roundHalfEven (x / u)).
    assert (Hm : inject_Z r * u - x == (inject_Z r - x / u) * u) by (field; lra).
    rewrite Hm, Qabs_Qmult, (Qabs_pos u) by lra.
    apply Qmult_le_compat_r; [|lra]. apply roundHalfEven_near.
Qed.

(** The relative error of [double] is at most [2^-53] in the normal
    range. *)
Lemma double_error x :
  pow2 (-1022) <= Qabs x -> Qabs (double x - x) <= Qabs x * pow2 (-53).
Proof.
  intros Hx.
  assert (Hnz : ~ x == 0).
  { intros E. rewrite E in Hx. pose proof (pow2_pos (-1022)) as Hp.
    change (Qabs 0) with 0 in Hx. set (p := pow2 (-1022)) in *. clearbody p. lra. }
  eapply Qle_trans; [apply double_near|].
  unfold ulp. set (e := Z.max (floorLog2 (Qabs x)) (-1022)).
  assert (He : pow2 e <= Qabs x).
  { subst e. destruct (Z.max_spec (floorLog2 (Qabs x)) (-1022)) as [[_ ->]|[_ ->]];
      [exact Hx | apply floorLog2_abs_le; exact Hnz]. }
  replace (e - 52)%Z with (e + (-52))%Z by lia. rewrite pow2_plus.
  assert (H52 : (1 # 2) * pow2 (-52) == pow2 (-53)) by reflexivity.
  rewrite (Qmult_comm (pow2 e)), Qmult_assoc, H52, Qmult_comm.
  apply Qmult_le_compat_r; [exact He|]. apply Qlt_le_weak, pow2_pos.
Qed.

(** Whole numbers below [2^53] are doubles. *)
Lemma double_whole z : (Z.abs z < 2 ^ 53)%Z -> double (inject_Z z) == inject_Z z.
Proof.
  intros Hz. unfold double. destruct (Qeq_bool (inject_Z z) 0) eqn:E.
  - apply Qeq_bool_iff in E. rewrite E. reflexivity.
  - apply Qeq_bool_neq in E. rewrite Qred_correct.
    unfold ulp. set (e := Z.max (floorLog2 (Qabs (inject_Z z))) (-1022)).
    assert (He : (e <= 52)%Z).
    { subst e. apply Z.max_lub; [|lia].
      pose proof (floorLog2_abs_le _ E) as H.
      assert (Hlt : pow2 (floorLog2 (Qabs (inject_Z z))) < pow2 53).
      { eapply Qle_lt_trans; [exact H|].
        change (Qabs (inject_Z z)) with (inject_Z (Z.abs z)).
        rewrite pow2_Z by lia. rewrite <- Zlt_Qlt. exact Hz. }
      apply pow2_lt_inv in Hlt. lia. }
    set (k := (52 - e)%Z). assert (Hk : (0 <= k)%Z) by lia.
    replace (e - 52)%Z with (- k)%Z by lia.
    assert (Hu : pow2 (- k) == / inject_Z (2 ^ k)).
    { unfold pow2. rewrite Qpower_opp. fold (pow2 k). rewrite pow2_Z by exact Hk.
      reflexivity. }
    assert (Hp : 0 < inject_Z (2 ^ k)).
    { rewrite <- pow2_Z by exact Hk. apply pow2_pos. }
    assert (Hm : inject_Z z / pow2 (- k) == inject_Z (z * 2 ^ k)).
    { rewrite Hu, inject_Z_mult. field. lra. }
    assert (Hr : roundHalfEven (inject_Z z / pow2 (- k)) = (z * 2 ^ k)%Z).
    { unfold roundHalfEven. rewrite (Qfloor_comp _ _ Hm), Qfloor_Z.
      assert (Ec : (inject_Z z / pow2 (- k) - inject_Z (z * 2 ^ k) ?= 1 # 2) = Lt).
      { apply Qlt_alt. rewrite Hm.
        assert (E0 : inject_Z (z * 2 ^ k) - inject_Z (z * 2 ^ k) == 0) by ring.
        rewrite E0. reflexivity. }
      rewrite Ec. reflexivity. }
    rewrite Hr, Hu, inject_Z_mult. field. lra.
Qed.


(** [floorLog2] does not undershoot either. *)
Lemma floorLog2_lt x : 0 < x -> x < pow2 (floorLog2 x + 1).
Proof.
  intros Hx. unfold floorLog2.
  set (n := Qnum x). set (d := Z.pos (Qden x)).
  destruct (Qle_bool (pow2 (Z.log2 n - Z.log2 d)) x) eqn:E.
  - clear E.
    assert (Hn : (0 < n)%Z).
    { unfold Qlt in Hx. simpl in Hx. subst n. lia. }
    assert (Hd : (0 < d)%Z) by (subst d; lia).
    pose proof (Z.log2_spec n Hn) as [_ Hn2].
    pose proof (Z.log2_spec d Hd) as [Hd1 _].
    pose proof (Z.log2_nonneg n) as Hln. pose proof (Z.log2_nonneg d) as Hld.
    replace (Z.log2 n - Z.log2 d + 1)%Z with (Z.succ (Z.log2 n) - Z.log2 d)%Z by lia.
    unfold pow2. rewrite Qpower_minus by exact two_neq_0.
    fold (pow2 (Z.succ (Z.log2 n))). fold (pow2 (Z.log2 d)).
    rewrite !pow2_Z by lia.
    set (a := (2 ^ Z.succ (Z.log2 n))%Z) in *. set (b := (2 ^ Z.log2 d)%Z) in *.
    assert (Hb : (0 < b)%Z) by (subst b; apply Z.pow_pos_nonneg; lia).
    assert (Hx' : x == inject_Z n / inject_Z d).
    { destruct x as [xn xd]. subst n d. simpl. unfold Qeq, Qdiv, Qmult, Qinv, inject_Z.
      simpl. lia. }
    rewrite Hx'.
    apply Qlt_shift_div_r; [unfold Qlt, inject_Z; simpl; lia|].
    unfold Qdiv. rewrite <- Qmult_assoc, (Qmult_comm (/ _)), Qmult_assoc.
    apply Qlt_shift_div_l; [unfold Qlt, inject_Z; simpl; lia|].
    rewrite <- !inject_Z_mult. rewrite <- Zlt_Qlt. nia.
  - replace (Z.log2 n - Z.log2 d - 1 + 1)%Z with (Z.log2 n - Z.log2 d)%Z by lia.
    apply Qnot_le_lt. intros H. apply Qle_bool_iff in H. congruence.
Qed.

(** The exponent is determined by the value, not by the way the rational
    is written. *)
Lemma floorLog2_unique x e :
  pow2 e <= x -> x < pow2 (e + 1) -> floorLog2 x = e.
Proof.
  intros H1 H2.
  assert (Hx : 0 < x) by (eapply Qlt_le_trans; [apply (pow2_pos e) | exact H1]).
  pose proof (floorLog2_le x Hx) as H3. pose proof (floorLog2_lt x Hx) as H4.
  assert (Ha : pow2 (floorLog2 x) < pow2 (e + 1)) by (eapply Qle_lt_trans; eauto).
  assert (Hb : pow2 e < pow2 (floorLog2 x + 1)) by (eapply Qle_lt_trans; eauto).
  apply pow2_lt_inv in Ha, Hb. lia.
Qed.

Lemma floorLog2_comp x y : 0 < x -> x == y -> floorLog2 x = floorLog2 y.
Proof.
  intros Hx E. symmetry. apply floorLog2_unique.
  - rewrite <- E. apply floorLog2_le. exact Hx.
  - rewrite <- E. apply floorLog2_lt. exact Hx.
Qed.

Lemma roundHalfEven_comp x y : x == y -> roundHalfEven x = roundHalfEven y.
Proof.
  intros E. unfold roundHalfEven. rewrite (Qfloor_comp _ _ E).
  assert (Ec : (x - inject_Z (Qfloor y) ?= 1 # 2) = (y - inject_Z (Qfloor y) ?= 1 # 2))
    by (rewrite E; reflexivity).
  rewrite Ec. reflexivity.
Qed.

(** [double] depends on the value only. *)
Lemma double_comp x y : x == y -> double x == double y.
Proof.
  intros E. unfold double.
  destruct (Qeq_bool x 0) eqn:Ex.
  - apply Qeq_bool_iff in Ex.
    rewrite (proj2 (Qeq_bool_iff y 0)) by (rewrite <- E; exact Ex). reflexivity.
  - apply Qeq_bool_neq in Ex.
    assert (Ey : Qeq_bool y 0 = false).
    { destruct (Qeq_bool y 0) eqn:Ey; [|reflexivity].
      apply Qeq_bool_iff in Ey. exfalso. apply Ex. rewrite E. exact Ey. }
    rewrite Ey, !Qred_correct.
    assert (Hpos : 0 < Qabs x).
    { destruct (Qlt_le_dec 0 (Qabs x)) as [H|H]; [exact H|].
      exfalso. apply Ex. apply Qabs_Qle_condition in H. lra. }
    assert (Hu : ulp x = ulp y).
    { unfold ulp. rewrite (floorLog2_comp (Qabs x) (Qabs y) Hpos (Qabs_wd _ _ E)).
      reflexivity. }
    rewrite Hu. rewrite (roundHalfEven_comp (x / ulp y) (y / ulp y)) by (rewrite E; reflexivity).
    reflexivity.
Qed.

Lemma Qfloor_unique x q :
  inject_Z q <= x -> x < inject_Z q + 1 -> Qfloor x = q.
Proof.
  intros H1 H2.
  pose proof (Qfloor_le x) as H3. pose proof (Qlt_floor x) as H4.
  rewrite inject_Z_plus in H4. change (inject_Z 1) with 1 in H4.
  assert (Ha : inject_Z (Qfloor x) < inject_Z (q + 1)).
  { rewrite inject_Z_plus. change (inject_Z 1) with 1. lra. }
  assert (Hb : inject_Z q < inject_Z (Qfloor x + 1)).
  { rewrite inject_Z_plus. change (inject_Z 1) with 1. lra. }
  rewrite <- Zlt_Qlt in Ha, Hb. lia.
Qed.

(** The literal [0.12]. *)
Lemma double_12_percent : double (12 # 100) == 1080863910568919 # 9007199254740992.
Proof. vm_compute. reflexivity. Qed.

(** At the default rate the tax on a whole amount is the exact amount
    rounded half up: the double product is never as far as 1/50 from the
    exact one, and 12 z / 100 + 1/2 is never nearer than 1/50 to a whole
    number. *)
Lemma Math_round_default_rate z :
  (Z.abs z <= 2 ^ 49)%Z ->
  Math_round (mul (inject_Z z) (double (12 # 100))) = ((12 * z + 50) / 100)%Z.
Proof.
  intros Hz. unfold Math_round, mul.
  set (c := 1080863910568919 # 9007199254740992).
  assert (Hy : inject_Z z * double (12 # 100) == inject_Z z * c)
    by (rewrite double_12_percent; reflexivity).
  rewrite (Qfloor_comp _ _ (Qplus_comp _ _ (double_comp _ _ Hy) _ _ (Qeq_refl _))).
  set (q := ((12 * z + 50) / 100)%Z).
  pose proof (Z.div_mod (12 * z + 50) 100 ltac:(discriminate)) as Hdm. fold q in Hdm.
  pose proof (Z.mod_pos_bound (12 * z + 50) 100 ltac:(reflexivity)) as Hr.
  set (r := ((12 * z + 50) mod 100)%Z) in *.
  assert (Hr2 : (2 <= r <= 98)%Z) by lia.
  assert (HQ : 12 * inject_Z z + 50 == 100 * inject_Z q + inject_Z r).
  { change 12 with (inject_Z 12). change 50 with (inject_Z 50).
    change 100 with (inject_Z 100).
    rewrite <- !inject_Z_mult, <- !inject_Z_plus. rewrite Hdm. reflexivity. }
  assert (Hr3 : 2 <= inject_Z r <= 98).
  { change 2 with (inject_Z 2). change 98 with (inject_Z 98).
    rewrite <- !Zle_Qle. exact Hr2. }
  set (Z' := inject_Z z) in *.
  assert (HA : Qabs Z' <= 562949953421312).
  { subst Z'. change (Qabs (inject_Z z)) with (inject_Z (Z.abs z)).
    change 562949953421312 with (inject_Z (2 ^ 49)). rewrite <- Zle_Qle. exact Hz. }
  destruct (Qeq_dec Z' 0) as [E0|Hnz].
  - assert (Hd0 : double (Z' * c) == 0).
    { rewrite (double_comp _ 0) by (rewrite E0; ring). reflexivity. }
    apply Qfloor_unique; rewrite Hd0; rewrite E0 in HQ; clearbody q r; lra.
  - assert (Hbig : pow2 (-1022) <= Qabs (Z' * c)).
    { rewrite Qabs_Qmult.
      assert (H1 : 1 <= Qabs Z').
      { subst Z'. change (Qabs (inject_Z z)) with (inject_Z (Z.abs z)).
        change 1 with (inject_Z 1). rewrite <- Zle_Qle.
        assert (z <> 0%Z).
        { intros ->. apply Hnz. reflexivity. }
        lia. }
      assert (Hc : pow2 (-1022) <= Qabs c) by (vm_compute; discriminate).
      assert (Hc0 : 0 <= Qabs c) by apply Qabs_nonneg.
      set (p := pow2 (-1022)) in *. set (ac := Qabs c) in *. clearbody p ac.
      assert (Hm : 1 * ac <= Qabs Z' * ac) by (apply Qmult_le_compat_r; assumption).
      set (t := Qabs Z' * ac) in *. clearbody t. lra. }
    pose proof (double_error _ Hbig) as He.
    rewrite Qabs_Qmult in He.
    assert (Hp53 : pow2 (-53) == 1 # 9007199254740992) by reflexivity.
    assert (Hac : Qabs c == c) by reflexivity.
    rewrite Hp53, Hac in He.
    apply Qabs_diff_Qle_condition in He. destruct He as [He1 He2].
    pose proof (Qle_Qabs Z') as Hab1.
    assert (Hab2 : - Z' <= Qabs Z') by (rewrite <- Qabs_opp; apply Qle_Qabs).
    set (A := Qabs Z') in *. set (y' := double (Z' * c)) in *.
    clearbody A y' q r Z'. unfold c in *.
    apply Qfloor_unique; lra.
Qed.


Lemma ulp_pos x : 0 < ulp x.
Proof. apply pow2_pos. Qed.

(** A number that is a whole multiple of its own unit in the last place
    is a double. *)
Lemma double_fixed x w : x == inject_Z w * ulp x -> double x == x.
Proof.
  intros Hx. unfold double. destruct (Qeq_bool x 0) eqn:E.
  - apply Qeq_bool_iff in E. symmetry. exact E.
  - rewrite Qred_correct. pose proof (ulp_pos x) as Hu.
    assert (Hm : x / ulp x == inject_Z w).
    { rewrite Hx at 1. set (u := ulp x) in *. field. clearbody u. lra. }
    rewrite (roundHalfEven_comp _ _ Hm), roundHalfEven_whole. symmetry. exact Hx.
Qed.

Lemma Qabs_whole_pow2 r k : Qabs (inject_Z r * pow2 k) == inject_Z (Z.abs r) * pow2 k.
Proof.
  rewrite Qabs_Qmult, (Qabs_pos (pow2 k)) by (apply Qlt_le_weak, pow2_pos).
  reflexivity.
Qed.

Lemma double_scaled_whole r k :
  (Z.abs r < 2 ^ 53)%Z -> (-1074 <= k)%Z ->
  double (inject_Z r * pow2 k) == inject_Z r * pow2 k.
Proof.
  intros Hr Hk.
  destruct (Z.eq_dec r 0%Z) as [->|Hnz].
  { change (inject_Z 0) with 0. rewrite (double_comp _ 0) by ring.
    change (double 0) with 0. ring. }
  set (x := inject_Z r * pow2 k).
  set (L := Z.log2 (Z.abs r)).
  assert (Hpos : (0 < Z.abs r)%Z) by lia.
  pose proof (Z.log2_spec _ Hpos) as [HL1 HL2]. fold L in HL1, HL2.
  pose proof (Z.log2_nonneg (Z.abs r)) as HL0. fold L in HL0.
  assert (HL : (L <= 52)%Z).
  { destruct (Z_le_gt_dec L 52) as [H|H]; [exact H|]. exfalso.
    assert ((2 ^ 53 <= 2 ^ L)%Z) by (apply Z.pow_le_mono_r; lia). lia. }
  assert (Hfl : floorLog2 (Qabs x) = (L + k)%Z).
  { apply floorLog2_unique; unfold x; rewrite Qabs_whole_pow2.
    - rewrite pow2_plus. apply Qmult_le_compat_r; [|apply Qlt_le_weak, pow2_pos].
      rewrite pow2_Z by exact HL0. rewrite <- Zle_Qle. exact HL1.
    - replace (L + k + 1)%Z with (Z.succ L + k)%Z by lia. rewrite pow2_plus.
      apply Qmult_lt_compat_r; [apply pow2_pos|].
      rewrite pow2_Z by lia. rewrite <- Zlt_Qlt. exact HL2. }
  set (e := Z.max (L + k) (-1022)).
  assert (Hu : ulp x = pow2 (e - 52)) by (unfold ulp; rewrite Hfl; reflexivity).
  set (j := (k - (e - 52))%Z).
  assert (Hj : (0 <= j)%Z) by (subst j e; lia).
  apply (double_fixed x (r * 2 ^ j)).
  rewrite Hu, inject_Z_mult, <- pow2_Z by exact Hj.
  unfold x. replace k with (j + (e - 52))%Z at 1 by (subst j; lia).
  rewrite pow2_plus. ring.
Qed.

(** Rounding twice is rounding once. *)
Lemma double_idem x : double (double x) == double x.
Proof.
  destruct (Qeq_bool x 0) eqn:E.
  { apply Qeq_bool_iff in E.
    rewrite (double_comp _ _ (double_comp _ _ E)), (double_comp _ _ E). reflexivity. }
  set (u := ulp x). set (r := roundHalfEven (x / u)).
  assert (Hd : double x = Qred (inject_Z r * u)) by (unfold double; rewrite E; reflexivity).
  rewrite Hd. clear Hd. apply Qeq_bool_neq in E.
  rewrite (double_comp _ _ (Qred_correct _)), Qred_correct.
  assert (Hpos : 0 < Qabs x).
  { destruct (Qlt_le_dec 0 (Qabs x)) as [H|H]; [exact H|].
    exfalso. apply E. apply Qabs_Qle_condition in H. lra. }
  set (e := Z.max (floorLog2 (Qabs x)) (-1022)).
  assert (Hu : u = pow2 (e - 52)) by reflexivity.
  assert (Hlt : Qabs x < pow2 (e + 1)).
  { eapply Qlt_le_trans; [apply floorLog2_lt; exact Hpos|]. apply pow2_le. subst e. lia. }
  assert (Hm : Qabs (x / u) < inject_Z (2 ^ 53)).
  { unfold Qdiv. rewrite Qabs_Qmult, Qabs_Qinv, (Qabs_pos u)
      by (apply Qlt_le_weak, ulp_pos).
    apply Qlt_shift_div_r; [apply ulp_pos|].
    rewrite <- pow2_Z by lia. rewrite Hu, <- pow2_plus.
    replace (53 + (e - 52))%Z with (e + 1)%Z by lia. exact Hlt. }
  pose proof (roundHalfEven_near (x / u)) as Hn. fold r in Hn.
  assert (Hr : (Z.abs r <= 2 ^ 53)%Z).
  { assert (Hq : inject_Z (Z.abs r) < inject_Z (2 ^ 53 + 1)).
    { change (inject_Z (Z.abs r)) with (Qabs (inject_Z r)).
      rewrite inject_Z_plus. change (inject_Z 1) with 1.
      pose proof (Qabs_triangle (inject_Z r - x / u) (x / u)) as Ht.
      assert (Ee : inject_Z r - x / u + x / u == inject_Z r) by ring.
      rewrite Ee in Ht.
      set (a := Qabs (inject_Z r)) in *. set (b := Qabs (inject_Z r - x / u)) in *.
      set (c := Qabs (x / u)) in *. set (p := inject_Z (2 ^ 53)) in *.
      clearbody a b c p. lra. }
    rewrite <- Zlt_Qlt in Hq. lia. }
  rewrite Hu.
  destruct (Z_lt_le_dec (Z.abs r) (2 ^ 53)) as [Hs|Hs].
  - apply double_scaled_whole; [exact Hs | subst e; lia].
  - assert (Er : r = (2 * (r / 2))%Z).
    { assert (Z.abs r = 2 ^ 53)%Z by lia.
      assert (Hdiv : (r mod 2 = 0)%Z).
      { destruct (Z.abs_eq_or_opp r) as [Ha|Ha]; rewrite Ha in H.
        - rewrite H. reflexivity.
        - replace r with (- 2 ^ 53)%Z by lia. reflexivity. }
      pose proof (Z.div_mod r 2 ltac:(discriminate)). lia. }
    assert (Eh : inject_Z r * pow2 (e - 52) == inject_Z (r / 2) * pow2 (e - 51)).
    { rewrite Er at 1. rewrite inject_Z_mult.
      replace (e - 51)%Z with (1 + (e - 52))%Z by lia. rewrite pow2_plus.
      change (pow2 1) with 2. change (inject_Z 2) with 2. ring. }
    rewrite (double_comp _ _ Eh), Eh.
    apply double_scaled_whole; [|subst e; lia].
    assert (Z.abs (r / 2) = 2 ^ 52)%Z.
    { assert (Z.abs r = 2 ^ 53)%Z by lia.
      destruct (Z.abs_eq_or_opp r) as [Ha|Ha]; rewrite Ha in H.
      - rewrite H. reflexivity.
      - replace r with (- 2 ^ 53)%Z by lia. reflexivity. }
    lia.
Qed.

Lemma Qceiling_unique x c :
  inject_Z (c - 1) < x -> x <= inject_Z c -> Qceiling x = c.
Proof.
  intros H1 H2. unfold Qceiling.
  rewrite (Qfloor_unique (- x) (- c)); [lia | |].
  - rewrite inject_Z_opp. lra.
  - rewrite inject_Z_opp. unfold Z.sub in H1. rewrite inject_Z_plus in H1.
    rewrite inject_Z_opp in H1. change (inject_Z 1) with 1 in H1. lra.
Qed.

(** [Math.ceil] of a quotient of whole numbers: the double quotient has
    the ceiling of the exact one. The quotient is a whole number, and then
    a double, or it is at least 1/d away from the next whole number, while
    the double nearest to it is nearer than that. *)
Lemma Qceiling_div_whole a d :
  (0 < d <= 2 ^ 53)%Z -> (Z.abs a < 2 ^ 53)%Z ->
  Qceiling (div (inject_Z a) (inject_Z d)) = Qceiling (inject_Z a / inject_Z d).
Proof.
  intros Hd Ha. unfold div.
  set (q := inject_Z a / inject_Z d).
  pose proof (Z.div_mod a d ltac:(lia)) as Hdm.
  pose proof (Z.mod_pos_bound a d ltac:(lia)) as Hr.
  set (k := (a / d)%Z) in *. set (r := (a mod d)%Z) in *.
  assert (HD : 0 < inject_Z d).
  { change 0 with (inject_Z 0). rewrite <- Zlt_Qlt. lia. }
  set (u := / inject_Z d).
  assert (Hu : 0 < u) by (apply Qinv_lt_0_compat; exact HD).
  assert (Hdu : inject_Z d * u == 1) by (apply Qmult_inv_r; lra).
  assert (Eq : q == inject_Z k + inject_Z r * u).
  { unfold q, Qdiv. fold u. rewrite Hdm at 1.
    rewrite inject_Z_plus, inject_Z_mult.
    transitivity (inject_Z k * (inject_Z d * u) + inject_Z r * u); [ring|].
    rewrite Hdu. ring. }
  destruct (Z.eq_dec r 0%Z) as [Hr0|Hr0].
  - assert (Eq' : q == inject_Z k).
    { rewrite Eq, Hr0. change (inject_Z 0) with 0. ring. }
    assert (Hk : (Z.abs k < 2 ^ 53)%Z).
    { assert (a = d * k)%Z by lia. nia. }
    apply Qceiling_comp.
    rewrite (double_comp _ _ Eq'), Eq'. apply double_whole. exact Hk.
  - assert (Hnz : a <> 0%Z).
    { intros E. apply Hr0. unfold r. rewrite E. apply Zmod_0_l. }
    assert (Hr1 : u <= inject_Z r * u).
    { assert (H1 : 1 * u <= inject_Z r * u).
      { apply Qmult_le_compat_r; [|lra].
        change 1 with (inject_Z 1). rewrite <- Zle_Qle. lia. }
      lra. }
    assert (Hr2 : inject_Z r * u <= 1 - u).
    { assert (H1 : inject_Z r * u <= inject_Z (d - 1) * u).
      { apply Qmult_le_compat_r; [|lra]. rewrite <- Zle_Qle. lia. }
      unfold Z.sub in H1. rewrite inject_Z_plus in H1.
      rewrite inject_Z_opp in H1. change (inject_Z 1) with 1 in H1.
      assert (E : (inject_Z d + - (1)) * u == inject_Z d * u - u) by ring.
      rewrite E, Hdu in H1. exact H1. }
    assert (Hq : Qabs q == inject_Z (Z.abs a) * u).
    { unfold q, Qdiv. fold u. rewrite Qabs_Qmult, (Qabs_pos u) by lra. reflexivity. }
    assert (Hbig : pow2 (-1022) <= Qabs q).
    { rewrite Hq.
      assert (H1 : 1 * u <= inject_Z (Z.abs a) * u).
      { apply Qmult_le_compat_r; [|lra].
        change 1 with (inject_Z 1). rewrite <- Zle_Qle. lia. }
      assert (H2 : pow2 (-53) <= u).
      { assert (H3 : inject_Z d <= inject_Z (2 ^ 53)) by (rewrite <- Zle_Qle; lia).
        assert (H4 : pow2 (-53) * inject_Z (2 ^ 53) == 1) by reflexivity.
        assert (H5 : pow2 (-53) * inject_Z d <= pow2 (-53) * inject_Z (2 ^ 53)).
        { rewrite !(Qmult_comm (pow2 (-53))).
          apply Qmult_le_compat_r; [exact H3 | apply Qlt_le_weak, pow2_pos]. }
        rewrite H4 in H5.
        assert (H6 : pow2 (-53) * inject_Z d * u <= 1 * u)
          by (apply Qmult_le_compat_r; [exact H5 | lra]).
        assert (E : pow2 (-53) * inject_Z d * u == pow2 (-53) * (inject_Z d * u)) by ring.
        rewrite E, Hdu in H6. lra. }
      assert (H3 : pow2 (-1022) <= pow2 (-53)) by (apply pow2_le; lia).
      set (t := inject_Z (Z.abs a) * u) in *. set (p1 := pow2 (-1022)) in *.
      set (p2 := pow2 (-53)) in *. clearbody t p1 p2. lra. }
    pose proof (double_error _ Hbig) as He.
    assert (Hsmall : Qabs q * pow2 (-53) < u).
    { rewrite Hq.
      assert (H1 : inject_Z (Z.abs a) * pow2 (-53) < 1).
      { assert (H2 : inject_Z (Z.abs a) < inject_Z (2 ^ 53)) by (rewrite <- Zlt_Qlt; exact Ha).
        assert (H4 : inject_Z (2 ^ 53) * pow2 (-53) == 1) by reflexivity.
        rewrite <- H4. apply Qmult_lt_compat_r; [apply pow2_pos | exact H2]. }
      assert (H2 : inject_Z (Z.abs a) * pow2 (-53) * u < 1 * u)
        by (apply Qmult_lt_compat_r; [exact Hu | exact H1]).
      assert (E : inject_Z (Z.abs a) * u * pow2 (-53)
                  == inject_Z (Z.abs a) * pow2 (-53) * u) by ring.
      rewrite E. lra. }
    assert (Hnear : Qabs (double q - q) < u) by (eapply Qle_lt_trans; eassumption).
    apply Qabs_Qlt_condition in Hnear. destruct Hnear as [Hn1 Hn2].
    assert (Ek : inject_Z (k + 1 - 1) == inject_Z k) by (f_equiv; lia).
    assert (Ek1 : inject_Z (k + 1) == inject_Z k + 1)
      by (rewrite inject_Z_plus; reflexivity).
    rewrite (Qceiling_unique (double q) (k + 1)), (Qceiling_unique q (k + 1));
      [reflexivity | | | |]; rewrite ?Ek, ?Ek1;
      set (dq := double q) in *; set (ru := inject_Z r * u) in *;
      set (K := inject_Z k) in *; clearbody dq ru K q u; lra.
Qed.

Lemma mul_comp x x' y y' : x == x' -> y == y' -> mul x y == mul x' y'.
Proof. intros Hx Hy. apply double_comp. rewrite Hx, Hy. reflexivity. Qed.

Lemma sub_comp x x' y y' : x == x' -> y == y' -> sub x y == sub x' y'.
Proof. intros Hx Hy. apply double_comp. rewrite Hx, Hy. reflexivity. Qed.

Lemma add_comp x x' y y' : x == x' -> y == y' -> add x y == add x' y'.
Proof. intros Hx Hy. apply double_comp. rewrite Hx, Hy. reflexivity. Qed.

Lemma Math_round_comp x y : x == y -> Math_round x = Math_round y.
Proof. intros H. unfold Math_round. apply Qfloor_comp. rewrite H. reflexivity. Qed.

(** The exact 12% of a whole amount, rounded half up. *)
Lemma Math_round_percent z :
  Math_round (inject_Z z * (12 # 100)) = ((12 * z + 50) / 100)%Z.
Proof.
  unfold Math_round.
  assert (E : inject_Z z * (12 # 100) + (1 # 2) == (12 * z + 50) # 100).
  { unfold Qeq, Qplus, Qmult, inject_Z. simpl. lia. }
  rewrite (Qfloor_comp _ _ E). reflexivity.
Qed.

Lemma Math_round_half_up x :
  inject_Z (Math_round x) <= x + (1 # 2) < inject_Z (Math_round x) + 1.
Proof.
  unfold Math_round. split.
  - apply Qfloor_le.
  - pose proof (Qlt_floor (x + (1 # 2))) as H.
    rewrite inject_Z_plus in H. exact H.
Qed.

End NumberFacts.

(** ** Pricing *)

Section PricingFacts.
Import JsDate Pricing.

(** [Math.ceil] of a quotient of integers, in integer arithmetic. *)
Lemma calculateNights_div checkIn checkOut :
  calculateNights checkIn checkOut = - ((checkIn - checkOut) / MS_PER_DAY).
Proof.
  unfold calculateNights, Math_ceil, Qceiling.
  f_equal. unfold Qfloor, Qopp, Qdiv, Qmult, Qinv, inject_Z. simpl.
  f_equal. lia.
Qed.

Lemma orDefault_zero x :
  (orDefault x 0 == match x with Some d => d | None => 0 end)%Q.
Proof.
  destruct x as [v|]; simpl; [|reflexivity].
  destruct (Qeq_bool v 0) eqn:E; [|reflexivity].
  apply Qeq_bool_eq in E. symmetry. exact E.
Qed.

(** The convention on [calculateNights]: the double quotient has the
    ceiling of the exact one. *)
Lemma calculateNights_double checkIn checkOut :
  Z.abs (checkOut - checkIn) < 2 ^ 53 ->
  Math_ceil (JsNumber.div (inject_Z (checkOut - checkIn)) (inject_Z MS_PER_DAY))
  = calculateNights checkIn checkOut.
Proof.
  intros H. unfold calculateNights, Math_ceil.
  apply Qceiling_div_whole; [split; [reflexivity | discriminate] | exact H].
Qed.

(** The same for [Math.ceil(guests / 3)]. *)
Lemma requiredRooms_double g :
  Z.abs g < 2 ^ 53 ->
  Math_ceil (JsNumber.div (inject_Z g) 3) = Math_ceil (inject_Z g / 3)%Q.
Proof.
  intros H. unfold Math_ceil.
  apply (Qceiling_div_whole g 3); [split; [reflexivity | discriminate] | exact H].
Qed.

Lemma orDefault_rate params rate :
  Spec.rateInForce params rate ->
  (orDefault (p_taxRate params) DEFAULT_TAX_RATE == rate)%Q.
Proof.
  unfold Spec.rateInForce, orDefault. intros Hrate.
  destruct (p_taxRate params) as [v|].
  - destruct Hrate as [Hnz ->].
    destruct (Qeq_bool v 0) eqn:E; [|reflexivity].
    apply Qeq_bool_eq in E. contradiction.
  - subst rate. reflexivity.
Qed.

(** Whole amounts of up to 2^49 units at the default rate: no step of
    [calculatePricing] rounds, and the tax is the exact 12% rounded half
    up. *)
Lemma calculatePricing_whole params p d :
  (p_pricePerNight params == inject_Z p)%Q ->
  (orDefault (p_discountAmount params) 0 == inject_Z d)%Q ->
  p_taxRate params = None ->
  let n := calculateNights (checkInDate params) (checkOutDate params) in
  Z.abs (p * n) <= 2 ^ 49 -> Z.abs (p * n - d) <= 2 ^ 49 ->
  let r := calculatePricing params in
  (basePrice r == inject_Z (p * n))%Q
  /\ taxAmount r = (12 * (p * n - d) + 50) / 100
  /\ (totalPrice r == inject_Z (p * n - d + (12 * (p * n - d) + 50) / 100))%Q.
Proof.
  intros Hp Hd Hrate n Hbase Hafter r.
  assert (Eb : (basePrice r == inject_Z (p * n))%Q).
  { subst r. cbn [calculatePricing basePrice]. fold n. unfold JsNumber.mul.
    rewrite (double_comp _ (inject_Z (p * n)))
      by (rewrite Hp, inject_Z_mult; reflexivity).
    apply double_whole. lia. }
  assert (Ea : (JsNumber.sub (basePrice r) (orDefault (p_discountAmount params) 0)
                == inject_Z (p * n - d))%Q).
  { unfold JsNumber.sub.
    rewrite (double_comp _ (inject_Z (p * n - d))).
    - apply double_whole. lia.
    - rewrite Eb, Hd. unfold Qminus.
      rewrite <- inject_Z_opp, <- inject_Z_plus. reflexivity. }
  assert (Et : taxAmount r = (12 * (p * n - d) + 50) / 100).
  { subst r. cbn [calculatePricing taxAmount basePrice] in *. fold n in Ea |- *.
    rewrite Hrate. cbn [orDefault].
    rewrite <- (Math_round_default_rate (p * n - d)) by exact Hafter.
    apply Math_round_comp, mul_comp; [exact Ea | reflexivity]. }
  split; [exact Eb|]. split; [exact Et|].
  transitivity (JsNumber.add
                  (JsNumber.sub (basePrice r) (orDefault (p_discountAmount params) 0))
                  (inject_Z (taxAmount r))); [reflexivity|].
  rewrite Et. unfold JsNumber.add.
  set (t := (12 * (p * n - d) + 50) / 100).
  rewrite (double_comp _ (inject_Z (p * n - d + t)))
    by (rewrite Ea, <- inject_Z_plus; reflexivity).
  apply double_whole.
  assert (- 2 ^ 49 <= p * n - d <= 2 ^ 49) by lia.
  assert (Ht : (12 * (- 2 ^ 49) + 50) / 100 <= t <= (12 * 2 ^ 49 + 50) / 100).
  { subst t. split; apply Z.div_le_mono; lia. }
  change ((12 * - 2 ^ 49 + 50) / 100) with (-67553994410557) in Ht.
  change ((12 * 2 ^ 49 + 50) / 100) with 67553994410557 in Ht.
  change (2 ^ 49) with 562949953421312 in *.
  change (2 ^ 53) with 9007199254740992. lia.
Qed.

End PricingFacts.

(** C4. For [checkOut > checkIn], [calculateNights] is the ceiling of
    the elapsed time over one day, that is the least number of whole days
    that span it; it is at least 1, also for a span shorter than 24
    hours, and it is exactly 1 for a span of exactly 24 hours. *)
Theorem calculateNights_ceiling (checkIn checkOut : Z) :
  checkIn < checkOut ->
  let n := Pricing.calculateNights checkIn checkOut in
  (n - 1) * JsDate.MS_PER_DAY < checkOut - checkIn <= n * JsDate.MS_PER_DAY
  /\ 1 <= n
  /\ (checkOut - checkIn = JsDate.MS_PER_DAY -> n = 1).
Proof.
  intros Hlt n. subst n. rewrite calculateNights_div.
  pose proof MS_PER_DAY_pos as Hd.
  pose proof (Z.div_mod (checkIn - checkOut) JsDate.MS_PER_DAY ltac:(lia)) as Hdm.
  pose proof (Z.mod_pos_bound (checkIn - checkOut) JsDate.MS_PER_DAY Hd) as Hb.
  set (q := (checkIn - checkOut) / JsDate.MS_PER_DAY) in *.
  split; [nia|]. split; [nia|]. intros He. nia.
Qed.

Lemma calculateNights_ceiling_witness :
  JsDate.midnight Deluxe.march1 < JsDate.midnight Deluxe.march1 + 3 * JsDate.MS_PER_HOUR
  /\ 1 <= Pricing.calculateNights (JsDate.midnight Deluxe.march1)
            (JsDate.midnight Deluxe.march1 + 3 * JsDate.MS_PER_HOUR).
Proof.
  split; [reflexivity|].
  destruct (calculateNights_ceiling (JsDate.midnight Deluxe.march1)
              (JsDate.midnight Deluxe.march1 + 3 * JsDate.MS_PER_HOUR) eq_refl)
    as (_ & H & _).
  exact H.
Defined.

(** C3, as the code has it. For every input whose tax rate is absent
    (the default 0.12 applies) or supplied and not zero, the calculation
    runs in double arithmetic: base is perNight x nights, afterDiscount
    is base - discount (the discount defaulting to 0 and never clamped)
    and total is afterDiscount + tax, each the exact result rounded to the
    nearest double and so within half a unit in the last place of it; tax
    is the double product afterDiscount x rate rounded to the nearest
    whole unit, a half going up. For a whole rate and a whole discount
    with base and afterDiscount of at most 2^49 units, at the default
    rate, no step rounds: base, afterDiscount and total are exact and tax
    is the exact 12% rounded half up. The result is a function of the
    input alone. *)
Theorem calculatePricing_breakdown (params : Pricing.PricingParams) (rate : Q) :
  Spec.rateInForce params rate ->
  let r := Pricing.calculatePricing params in
  let base := (Pricing.p_pricePerNight params * inject_Z (Pricing.nights r))%Q in
  let difference := (Pricing.basePrice r - Spec.suppliedDiscount params)%Q in
  let afterDiscount := JsNumber.sub (Pricing.basePrice r) (Spec.suppliedDiscount params) in
  let product := JsNumber.mul afterDiscount rate in
  let sum := (afterDiscount + inject_Z (Pricing.taxAmount r))%Q in
  Pricing.nights r
    = Pricing.calculateNights (Pricing.checkInDate params) (Pricing.checkOutDate params)
  /\ (Pricing.basePrice r == JsNumber.double base
      /\ Qabs (Pricing.basePrice r - base) <= (1 # 2) * JsNumber.ulp base)%Q
  /\ (Pricing.discountAmount r == Spec.suppliedDiscount params)%Q
  /\ (afterDiscount == JsNumber.double difference
      /\ Qabs (afterDiscount - difference) <= (1 # 2) * JsNumber.ulp difference)%Q
  /\ (product == JsNumber.double (afterDiscount * rate)
      /\ Qabs (product - afterDiscount * rate)
         <= (1 # 2) * JsNumber.ulp (afterDiscount * rate))%Q
  /\ (inject_Z (Pricing.taxAmount r) <= product + (1 # 2)
      < inject_Z (Pricing.taxAmount r) + 1)%Q
  /\ (Pricing.totalPrice r == JsNumber.double sum
      /\ Qabs (Pricing.totalPrice r - sum) <= (1 # 2) * JsNumber.ulp sum)%Q
  /\ (forall p d : Z,
        (Pricing.p_pricePerNight params == inject_Z p)%Q ->
        (Spec.suppliedDiscount params == inject_Z d)%Q ->
        Pricing.p_taxRate params = None ->
        Z.abs (p * Pricing.nights r) <= 2 ^ 49 ->
        Z.abs (p * Pricing.nights r - d) <= 2 ^ 49 ->
        (Pricing.basePrice r == inject_Z (p * Pricing.nights r))%Q
        /\ (afterDiscount == inject_Z (p * Pricing.nights r - d))%Q
        /\ Pricing.taxAmount r
           = JsNumber.Math_round (inject_Z (p * Pricing.nights r - d) * (12 # 100))%Q
        /\ (Pricing.totalPrice r
            == inject_Z (p * Pricing.nights r - d) + inject_Z (Pricing.taxAmount r))%Q).
Proof.
  intros Hrate r base difference afterDiscount product sum.
  assert (Hd : (Pricing.orDefault (Pricing.p_discountAmount params) 0
                == Spec.suppliedDiscount params)%Q) by apply orDefault_zero.
  pose proof (orDefault_rate _ _ Hrate) as Hr.
  assert (Ea : (JsNumber.sub (Pricing.basePrice r)
                  (Pricing.orDefault (Pricing.p_discountAmount params) 0)
                == afterDiscount)%Q)
    by (apply sub_comp; [reflexivity | exact Hd]).
  assert (Et : Pricing.taxAmount r = JsNumber.Math_round product).
  { subst r product. cbn [Pricing.calculatePricing Pricing.taxAmount Pricing.basePrice] in *.
    apply Math_round_comp, mul_comp; [exact Ea | exact Hr]. }
  split; [reflexivity|].
  split; [split; [reflexivity | apply double_near]|].
  split; [exact Hd|].
  split; [split; [reflexivity | apply double_near]|].
  split; [split; [reflexivity | apply double_near]|].
  split; [rewrite Et; apply Math_round_half_up|].
  assert (Es : (Pricing.totalPrice r == JsNumber.double sum)%Q).
  { subst r sum. cbn [Pricing.calculatePricing Pricing.totalPrice Pricing.taxAmount
                      Pricing.basePrice] in *.
    apply add_comp; [exact Ea | reflexivity]. }
  split; [split; [exact Es|]|].
  { assert (En : (Pricing.totalPrice r - sum == JsNumber.double sum - sum)%Q)
      by (rewrite Es; reflexivity).
    rewrite En. apply double_near. }
  intros p d Hp Hsd Hnone Hb Ha.
  assert (Hd' : (Pricing.orDefault (Pricing.p_discountAmount params) 0 == inject_Z d)%Q)
    by (rewrite Hd; exact Hsd).
  destruct (calculatePricing_whole params p d Hp Hd' Hnone Hb Ha) as (Eb & Ex & Etot).
  fold r in Eb, Ex, Etot.
  split; [exact Eb|]. split.
  { unfold afterDiscount, JsNumber.sub.
    rewrite (double_comp _ (inject_Z (p * Pricing.nights r - d))).
    - apply double_whole. change (2 ^ 53) with 9007199254740992.
      change (2 ^ 49) with 562949953421312 in Ha. lia.
    - rewrite Eb, Hsd. unfold Qminus.
      rewrite <- inject_Z_opp, <- inject_Z_plus. reflexivity. }
  split; [rewrite Math_round_percent; exact Ex|].
  rewrite Etot, Ex, inject_Z_plus. reflexivity.
Qed.

(** The spec's scenario: 2 nights at 3500, no discount, the default
    rate. *)
Lemma calculatePricing_breakdown_witness :
  Spec.rateInForce (Deluxe.stay None) Pricing.DEFAULT_TAX_RATE
  /\ (Pricing.basePrice (Pricing.calculatePricing (Deluxe.stay None))
      == JsNumber.double (3500 * inject_Z 2))%Q
  /\ (inject_Z (Pricing.taxAmount (Pricing.calculatePricing (Deluxe.stay None)))
      <= JsNumber.mul
           (JsNumber.sub (Pricing.basePrice (Pricing.calculatePricing (Deluxe.stay None)))
              0)
           Pricing.DEFAULT_TAX_RATE + (1 # 2))%Q.
Proof.
  split; [reflexivity|].
  destruct (calculatePricing_breakdown (Deluxe.stay None) Pricing.DEFAULT_TAX_RATE eq_refl)
    as (_ & (Hb & _) & _ & _ & _ & (Ht & _) & _ & _).
  split; [exact Hb | exact Ht].
Defined.

Example deluxe_stay_priced :
  let r := Pricing.calculatePricing (Deluxe.stay None) in
  Pricing.nights r = 2 /\ (Pricing.basePrice r == 7000)%Q
  /\ Pricing.taxAmount r = 840 /\ (Pricing.totalPrice r == 7840)%Q.
Proof. vm_compute. repeat split. Qed.

(** The discount is not clamped: the amount after discount, and the
    total, can be negative. *)
Example discount_not_clamped :
  let r := Pricing.calculatePricing
             {| Pricing.checkInDate := JsDate.midnight Deluxe.march1;
                Pricing.checkOutDate := JsDate.midnight (Deluxe.march1 + 1);
                Pricing.p_pricePerNight := 3500;
                Pricing.p_discountAmount := Some 4000%Q;
                Pricing.p_taxRate := None |} in
  Pricing.taxAmount r = - 60 /\ (Pricing.totalPrice r == - 560)%Q.
Proof. vm_compute. repeat split. Qed.

(** C3, as stated, fails on three counts.
    - A supplied tax rate of zero is replaced by the default rate: 2
      nights at 3500 with [taxRate: 0] carry a tax of 840, not 0.
    - The product under [Math.round] is a double: 1 night at 3 with
      [taxRate: 1/6] gives the product 0.5 and the tax 1, while the exact
      product of the same two numbers is below one half and rounds to 0;
      1 night at 100 with [taxRate: 0.145] gives the product
      14.499999999999998 and the tax 14, while 100 x 0.145 rounded half up
      is 15.
    - Base and total are doubles: 3 nights at [0.1] have the base
      0.30000000000000004, which is neither 3 x 0.1 nor 3 times the number
      that [0.1] denotes. *)
Lemma stated_breakdown_fails :
  (let r := Pricing.calculatePricing (Deluxe.stay (Some 0%Q)) in
   Pricing.taxAmount r = 840
   /\ JsNumber.Math_round
        ((Pricing.basePrice r - Spec.suppliedDiscount (Deluxe.stay (Some 0%Q))) * 0)%Q = 0)
  /\ (let params := Deluxe.priced 3 1 (Some (JsNumber.double (1 # 6))) in
      let r := Pricing.calculatePricing params in
      Pricing.taxAmount r = 1
      /\ JsNumber.Math_round
           ((Pricing.basePrice r - Spec.suppliedDiscount params)
            * JsNumber.double (1 # 6))%Q = 0)
  /\ (let params := Deluxe.priced 100 1 (Some (JsNumber.double (145 # 1000))) in
      let r := Pricing.calculatePricing params in
      Pricing.taxAmount r = 14 /\ (Pricing.totalPrice r == 114)%Q
      /\ JsNumber.Math_round
           ((Pricing.basePrice r - Spec.suppliedDiscount params) * (145 # 1000))%Q = 15)
  /\ (let params := Deluxe.priced (JsNumber.double (1 # 10)) 3 None in
      let r := Pricing.calculatePricing params in
      (Pricing.basePrice r == 1351079888211149 # 4503599627370496)%Q
      /\ ~ (Pricing.basePrice r == JsNumber.double (1 # 10) * 3)%Q
      /\ ~ (Pricing.basePrice r == (1 # 10) * 3)%Q).
Proof.
  vm_compute. repeat split; discriminate.
Qed.

(** ** Occupancy accounting *)

Section OccupancyFacts.
Import JsDate Store Http Occupancy Spec.

Lemma stayDays_step cur out :
  cur < out -> stayDays cur out = S (stayDays (addDays cur 1) out).
Proof.
  intros H. unfold stayDays, addDays.
  replace (out - cur + MS_PER_DAY - 1)
    with ((out - (cur + 1 * MS_PER_DAY) + MS_PER_DAY - 1) + 1 * MS_PER_DAY) by lia.
  rewrite Z.div_add by discriminate.
  rewrite Z2Nat.inj_add; [simpl; lia | | lia].
  apply Z.div_pos; [lia | reflexivity].
Qed.

Lemma stayDays_done cur out : ~ cur < out -> stayDays cur out = 0%nat.
Proof.
  intros H. unfold stayDays.
  assert ((out - cur + MS_PER_DAY - 1) / MS_PER_DAY <= 0); [|lia].
  assert ((out - cur + MS_PER_DAY - 1) / MS_PER_DAY < 1); [|lia].
  apply Z.div_lt_upper_bound; [reflexivity | lia].
Qed.

(** The loop ends within [stayDays] turns: once they are run the loop
    condition is false. *)
Lemma stayDays_exit cur out :
  ~ addDays cur (Z.of_nat (stayDays cur out)) < out.
Proof.
  remember (stayDays cur out) as n eqn:Hn. revert cur Hn.
  induction n as [|n IH]; intros cur Hn.
  - unfold addDays. destruct (decide (cur < out)) as [Hlt|Hge]; [|lia].
    rewrite (stayDays_step _ _ Hlt) in Hn. discriminate.
  - destruct (decide (cur < out)) as [Hlt|Hge].
    + rewrite (stayDays_step _ _ Hlt) in Hn. injection Hn as Hn.
      specialize (IH _ Hn). unfold addDays in *. lia.
    + rewrite (stayDays_done _ _ Hge) in Hn. discriminate.
Qed.

(** What the loop leaves under each date: the days of the stay are
    incremented once, the others are untouched. *)
Lemma markDays_lookup fuel : forall cur out rooms (m : gmap Z Z) k,
  (stayDays cur out <= fuel)%nat ->
  markDays fuel cur out rooms m !! k
  = if bool_decide (isoDate cur <= k < isoDate cur + Z.of_nat (stayDays cur out))
    then Some (default 0 (m !! k) + rooms)
    else m !! k.
Proof.
  induction fuel as [|fuel IH]; intros cur out rooms m k Hfuel.
  - assert (stayDays cur out = 0%nat) as -> by lia. simpl.
    rewrite bool_decide_eq_false_2 by lia. reflexivity.
  - simpl. case_bool_decide as Hlt.
    + rewrite (stayDays_step _ _ Hlt) in *.
      rewrite IH by lia. rewrite isoDate_addDays.
      destruct (decide (k = isoDate cur)) as [->|Hne].
      * rewrite bool_decide_eq_false_2 by lia.
        rewrite bool_decide_eq_true_2 by lia.
        apply lookup_insert_eq.
      * rewrite lookup_insert_ne by congruence.
        repeat case_bool_decide; try reflexivity; lia.
    + rewrite (stayDays_done _ _ Hlt).
      rewrite bool_decide_eq_false_2 by lia. reflexivity.
Qed.

(** More fuel than [stayDays] changes nothing: the model of the loop is
    the loop. *)
Lemma markDays_fuel fuel cur out rooms (m : gmap Z Z) :
  (stayDays cur out <= fuel)%nat ->
  markDays fuel cur out rooms m = markDays (stayDays cur out) cur out rooms m.
Proof.
  intros H. apply map_eq. intros k.
  rewrite !markDays_lookup by lia. reflexivity.
Qed.

Lemma stayDays_midnight a b : Z.of_nat (stayDays (midnight a) (midnight b)) = Z.max 0 (b - a).
Proof.
  unfold stayDays, midnight.
  replace (b * MS_PER_DAY - a * MS_PER_DAY + MS_PER_DAY - 1)
    with ((MS_PER_DAY - 1) + (b - a) * MS_PER_DAY) by lia.
  rewrite Z.div_add by discriminate.
  change ((MS_PER_DAY - 1) / MS_PER_DAY) with 0. lia.
Qed.

Lemma covers_spec b k :
  atMidnight (checkIn b) -> atMidnight (checkOut b) ->
  covers b k = true <-> isoDate (checkIn b) <= k < isoDate (checkOut b).
Proof.
  intros Hi Ho. unfold covers.
  rewrite andb_true_iff, !bool_decide_eq_true.
  rewrite (atMidnight_inv _ Hi) at 1. rewrite (atMidnight_inv _ Ho) at 1.
  rewrite midnight_le, midnight_lt. reflexivity.
Qed.

Lemma roomsBooked_wellFormed b : wellFormed b -> roomsBooked b = roomsRequested b.
Proof.
  intros (_ & _ & Hpos). unfold roomsBooked, roomsRequested in *.
  destruct (numberOfRooms b) as [n|]; simpl in *; [|reflexivity].
  destruct (n =? 0) eqn:E; [lia | reflexivity].
Qed.

Lemma roomsRequested_pos b : wellFormed b -> 1 <= roomsRequested b.
Proof.
  intros (_ & _ & Hpos). exact Hpos.
Qed.

Lemma addBooking_lookup (m : gmap Z Z) b k :
  wellFormed b ->
  addBooking m b !! k
  = if covers b k then Some (default 0 (m !! k) + roomsRequested b) else m !! k.
Proof.
  intros Hwf. pose proof Hwf as (Hi & Ho & _).
  unfold addBooking. rewrite markDays_lookup by lia.
  rewrite (roomsBooked_wellFormed _ Hwf).
  pose proof (covers_spec b k Hi Ho) as Hc.
  assert (Hs : Z.of_nat (stayDays (checkIn b) (checkOut b))
               = Z.max 0 (isoDate (checkOut b) - isoDate (checkIn b))).
  { rewrite <- stayDays_midnight.
    rewrite <- (atMidnight_inv _ Hi), <- (atMidnight_inv _ Ho). reflexivity. }
  rewrite Hs.
  destruct (covers b k); case_bool_decide; try reflexivity.
  - exfalso. destruct Hc as [Hc _]. specialize (Hc eq_refl). lia.
  - exfalso. destruct Hc as [_ Hc]. assert (true = false); [|discriminate].
    symmetry. apply Hc. lia.
Qed.

Lemma dayCounter_cons b l k :
  dayCounter (b :: l) k
  = (if covers b k then roomsRequested b else 0) + dayCounter l k.
Proof.
  unfold dayCounter. simpl. destruct (covers b k); reflexivity.
Qed.

Lemma dayCounter_none l k :
  existsb (fun b => covers b k) l = false -> dayCounter l k = 0.
Proof.
  induction l as [|b l IH]; [reflexivity|].
  simpl. intros H. apply orb_false_iff in H as [Hb Hl].
  rewrite dayCounter_cons, Hb, IH by exact Hl. reflexivity.
Qed.

Lemma dayCounter_nonneg l k : Forall wellFormed l -> 0 <= dayCounter l k.
Proof.
  induction 1 as [|b l Hb _ IH]; [reflexivity|].
  rewrite dayCounter_cons. pose proof (roomsRequested_pos _ Hb).
  destruct (covers b k); lia.
Qed.

(** The map built from the reservations holds, under each day that some
    reservation covers, the rooms requested by the reservations that cover
    it, and holds nothing under the other days. *)
Lemma fold_addBooking_lookup l : forall (m : gmap Z Z) k,
  Forall wellFormed l ->
  fold_left addBooking l m !! k
  = if existsb (fun b => covers b k) l
    then Some (default 0 (m !! k) + dayCounter l k)
    else m !! k.
Proof.
  induction l as [|b l IH]; intros m k Hwf; [reflexivity|].
  inversion Hwf as [|? ? Hb Hl]; subst.
  simpl fold_left. rewrite IH by exact Hl.
  rewrite addBooking_lookup by exact Hb.
  rewrite dayCounter_cons. simpl existsb.
  destruct (covers b k) eqn:Hc; simpl.
  - destruct (existsb _ l) eqn:He; simpl.
    + f_equal. lia.
    + rewrite (dayCounter_none _ _ He). f_equal. lia.
  - destruct (existsb _ l); reflexivity.
Qed.

Lemma bookingsPerDate_lookup l k :
  Forall wellFormed l ->
  bookingsPerDate l !! k
  = if existsb (fun b => covers b k) l then Some (dayCounter l k) else None.
Proof.
  intros Hwf. unfold bookingsPerDate. rewrite fold_addBooking_lookup by exact Hwf.
  rewrite lookup_empty. reflexivity.
Qed.

End OccupancyFacts.

Section PeakFacts.
Import JsDate Store Http Occupancy Spec.

Lemma fold_max_ge vs : forall v,
  v <= fold_left Z.max vs v /\ Forall (fun x => x <= fold_left Z.max vs v) vs.
Proof.
  induction vs as [|w vs IH]; intros v; simpl.
  - split; [lia | constructor].
  - destruct (IH (Z.max v w)) as [H1 H2]. split; [lia|].
    constructor; [lia | exact H2].
Qed.

Lemma fold_max_in vs : forall v,
  fold_left Z.max vs v = v \/ In (fold_left Z.max vs v) vs.
Proof.
  induction vs as [|w vs IH]; intros v; simpl; [left; reflexivity|].
  destruct (IH (Z.max v w)) as [H|H].
  - rewrite H. destruct (Z.max_spec v w) as [[_ E]|[_ E]]; rewrite E; auto.
  - auto.
Qed.

Lemma maxOf_ge l x : In x l -> x <= maxOf l.
Proof.
  destruct l as [|v vs]; [contradiction|]. simpl.
  destruct (fold_max_ge vs v) as [H1 H2].
  intros [<-|Hin]; [exact H1|].
  rewrite Forall_forall in H2. apply H2. apply list_elem_of_In. exact Hin.
Qed.

Lemma maxOf_in l : l <> [] -> In (maxOf l) l.
Proof.
  destruct l as [|v vs]; [congruence|]. intros _. simpl.
  destruct (fold_max_in vs v) as [->|H]; auto.
Qed.

Lemma maxBookedRooms_maxOf (m : gmap Z Z) :
  maxBookedRooms m = maxOf ((map_to_list m).*2).
Proof. reflexivity. Qed.

Lemma maxBookedRooms_ge (m : gmap Z Z) k v :
  m !! k = Some v -> v <= maxBookedRooms m.
Proof.
  intros H. rewrite maxBookedRooms_maxOf. apply maxOf_ge.
  apply list_elem_of_In. apply list_elem_of_fmap. exists (k, v).
  split; [reflexivity|]. apply elem_of_map_to_list. exact H.
Qed.

Lemma maxBookedRooms_cases (m : gmap Z Z) :
  (m = ∅ /\ maxBookedRooms m = 0) \/ exists k, m !! k = Some (maxBookedRooms m).
Proof.
  rewrite maxBookedRooms_maxOf.
  destruct (map_to_list m) as [|kv l] eqn:E.
  - left. split; [|reflexivity]. apply map_to_list_empty_iff. exact E.
  - right.
    assert (Hin : In (maxOf ((kv :: l).*2)) ((kv :: l).*2))
      by (apply maxOf_in; discriminate).
    apply list_elem_of_In, list_elem_of_fmap in Hin as [[k v] [Hv Hkv]].
    exists k. rewrite <- E in Hkv. apply elem_of_map_to_list in Hkv.
    rewrite Hv. exact Hkv.
Qed.

Lemma sumRooms_filter_mono (P Q : Booking -> bool) l :
  Forall (fun b => 0 <= roomsRequested b) l ->
  Forall (fun b => P b = true -> Q b = true) l ->
  sumRooms (List.filter P l) <= sumRooms (List.filter Q l).
Proof.
  induction 1 as [|b l Hb _ IH]; intros HPQ; [reflexivity|].
  inversion HPQ as [|? ? Hpq Hrest]; subst. specialize (IH Hrest).
  simpl. destruct (P b) eqn:EP.
  - rewrite (Hpq eq_refl). simpl. lia.
  - destruct (Q b); simpl; lia.
Qed.

(** Every reservation that overlaps the window and covers a day [p] also
    covers the day of the window nearest to [p]. *)
Lemma covers_nearest_window_day b f t p :
  wellFormed b -> f < t ->
  checkIn b < midnight t -> checkOut b > midnight f ->
  covers b p = true -> covers b (Z.max f (Z.min p (t - 1))) = true.
Proof.
  intros (Hi & Ho & _) Hft Hin Hout Hp.
  apply (covers_spec b _ Hi Ho). apply (covers_spec b _ Hi Ho) in Hp.
  rewrite (atMidnight_inv _ Hi) in Hin. rewrite (atMidnight_inv _ Ho) in Hout.
  apply (proj1 (midnight_lt _ _)) in Hin.
  apply Z.gt_lt, (proj1 (midnight_lt _ _)) in Hout. lia.
Qed.

Lemma dayCounter_nearest_window_day l f t p :
  Forall wellFormed l -> f < t ->
  Forall (fun b => checkIn b < midnight t /\ checkOut b > midnight f) l ->
  dayCounter l p <= dayCounter l (Z.max f (Z.min p (t - 1))).
Proof.
  intros Hwf Hft Hov. unfold dayCounter. apply sumRooms_filter_mono.
  - eapply Forall_impl; [exact Hwf|]. intros b Hb. simpl.
    pose proof (roomsRequested_pos _ Hb). lia.
  - rewrite Forall_forall in *. intros b Hb Hc.
    destruct (Hov b Hb) as [H1 H2].
    apply covers_nearest_window_day; auto.
Qed.

(** The maximum that the code takes over every day it counted is the
    maximum of the counter over the days of the requested window. *)
Lemma maxBookedRooms_peak l from to :
  Forall wellFormed l ->
  atMidnight from -> atMidnight to -> from < to ->
  Forall (fun b => checkIn b < to /\ checkOut b > from) l ->
  maxBookedRooms (bookingsPerDate l) = peakOccupancy l from to.
Proof.
  intros Hwf Hf Ht Hlt Hov.
  set (f := isoDate from). set (t := isoDate to).
  assert (Ef : from = midnight f) by (apply atMidnight_inv; exact Hf).
  assert (Et : to = midnight t) by (apply atMidnight_inv; exact Ht).
  assert (Hft : f < t) by (apply midnight_lt; rewrite <- Ef, <- Et; exact Hlt).
  rewrite Ef, Et in Hov.
  assert (Hwin : forall d, f <= d < t -> dayCounter l d <= peakOccupancy l from to).
  { intros d Hd. unfold peakOccupancy. apply maxOf_ge.
    apply list_elem_of_In, list_elem_of_fmap. exists d. split; [reflexivity|].
    unfold windowDays. apply elem_of_seqZ. fold f t. lia. }
  assert (Hcode : forall d, dayCounter l d <= maxBookedRooms (bookingsPerDate l)
                            \/ dayCounter l d = 0).
  { intros d. pose proof (bookingsPerDate_lookup l d Hwf) as Hl.
    destruct (existsb _ l) eqn:He.
    - left. eapply maxBookedRooms_ge. exact Hl.
    - right. apply dayCounter_none. exact He. }
  assert (Hnonneg : 0 <= maxBookedRooms (bookingsPerDate l)).
  { destruct (maxBookedRooms_cases (bookingsPerDate l)) as [[_ ->]|[k Hk]]; [lia|].
    rewrite bookingsPerDate_lookup in Hk by exact Hwf.
    destruct (existsb _ l); [|discriminate]. injection Hk as <-.
    apply dayCounter_nonneg. exact Hwf. }
  apply Z.le_antisymm.
  - destruct (maxBookedRooms_cases (bookingsPerDate l)) as [[_ ->]|[k Hk]].
    + etransitivity; [|apply (Hwin f); lia]. apply dayCounter_nonneg. exact Hwf.
    + rewrite bookingsPerDate_lookup in Hk by exact Hwf.
      destruct (existsb _ l); [|discriminate]. injection Hk as <-.
      etransitivity; [apply (dayCounter_nearest_window_day l f t k Hwf Hft Hov)|].
      apply Hwin. lia.
  - unfold peakOccupancy.
    assert (Hne : dayCounter l <$> windowDays from to <> []).
    { unfold windowDays. fold f t.
      intros E. apply fmap_nil_inv in E.
      assert (Hin : f ∈ seqZ f (t - f)) by (apply elem_of_seqZ; lia).
      rewrite E in Hin. inversion Hin. }
    apply maxOf_in in Hne.
    apply list_elem_of_In, list_elem_of_fmap in Hne as [d [Hd _]].
    rewrite Hd.
    destruct (Hcode d) as [H|H]; lia.
Qed.

End PeakFacts.

(** ** The creation controllers *)

Section ControllerFacts.
Import JsDate Store Http Absent BookingValidationService Occupancy Spec.

Lemma report_valid r : isValid r = true -> report r = None.
Proof. unfold report. intros ->. reflexivity. Qed.

Lemma report_invalid r : isValid r = false -> report r = Some (sendValidationError r).
Proof. unfold report. intros ->. reflexivity. Qed.

Lemma validateRoom_valid st rid :
  isValid (fst (validateRoom st rid)) = true ->
  exists roomId room,
    rid = Some roomId /\ Room_findById st roomId = Some room
    /\ isAvailable room = true /\ validateRoom st rid = (valid, Some room).
Proof.
  unfold validateRoom. destruct rid as [roomId|]; simpl; [|discriminate].
  destruct (Room_findById st roomId) as [room|] eqn:E; simpl; [|discriminate].
  destruct (isAvailable room) eqn:Ea; simpl; [|discriminate].
  intros _. exists roomId, room. auto.
Qed.

Lemma validateRoom_invalid st rid :
  isValid (fst (validateRoom st rid)) = false -> snd (validateRoom st rid) = None.
Proof.
  unfold validateRoom. destruct rid as [roomId|]; simpl; [|reflexivity].
  destruct (Room_findById st roomId) as [room|]; simpl; [|reflexivity].
  destruct (isAvailable room); simpl; [discriminate | reflexivity].
Qed.

Lemma report_when (c : bool) v :
  (if c then report v else None) = report (if c then v else valid).
Proof. destruct c; reflexivity. Qed.

(** One rule of a controller: either it passes and the proof goes on, or
    it fails and the failing branch is closed by [tac]. *)
Ltac rule v tac :=
  let E := fresh "E" in
  destruct (isValid v) eqn:E;
  [rewrite (report_valid _ E); cbn [negb]
  |rewrite (report_invalid _ E); cbn [negb firstFailure]; tac].

(** The later controller answers with the first failure among its rules,
    taken in its order, and leaves the store as it is. *)
Lemma createBooking_later_fails env st req r :
  firstFailure (laterRules env st req) = Some r ->
  CreateBookingLater.createBooking env st req = (r, st).
Proof.
  unfold laterRules, CreateBookingLater.createBooking. cbn [firstFailure].
  rewrite report_when.
  rule (validateGuestName env (q_guestName req)) congruence.
  rule (validatePhoneNumber env (q_guestPhone req)) congruence.
  rule (validateChildren env (default 0 (q_children req)) (q_guests req)) congruence.
  rule (if truthyS (q_specialRequests req)
        then validateSpecialRequests env (default EmptyString (q_specialRequests req))
        else valid) congruence.
  rule (fst (validateRoom st (q_room req))) congruence.
  destruct (validateRoom_valid _ _ E3) as (roomId & room & Hr & _ & _ & Hv).
  rewrite Hv, Hr. cbn [snd].
  rule (validateGuestCapacityByRoomType env (q_guests req) (name room)) congruence.
  rule (validateNumberOfRoomsByType env (q_numberOfRooms req) (name room)) congruence.
  destruct (js_lt (q_numberOfRooms req) _); [congruence|].
  destruct (truthyZ _ && js_gt _ _); [congruence | discriminate].
Qed.

(** When no rule fails the controller reaches the admission step. *)
Lemma createBooking_later_passes env st req :
  firstFailure (laterRules env st req) = None ->
  exists roomId room,
    q_room req = Some roomId /\ Room_findById st roomId = Some room
    /\ isAvailable room = true
    /\ CreateBookingLater.createBooking env st req
       = match parseDate (q_checkIn req), parseDate (q_checkOut req) with
         | Some checkInDate, Some checkOutDate =>
             let existingBookings :=
               Booking_find st (overlapQuery roomId checkInDate checkOutDate None) in
             if js_lt (Some (availableRooms room existingBookings)) (q_numberOfRooms req)
             then (NotEnoughRooms (availableRooms room existingBookings)
                     (q_numberOfRooms req) (head existingBookings), st)
             else BookingService.respond st
                    (BookingService.createBooking env st
                       (CreateBookingLater.bookingData req roomId checkInDate checkOutDate))
         | _, _ => (ServerError, st)
         end.
Proof.
  unfold laterRules, CreateBookingLater.createBooking. cbn [firstFailure].
  rewrite report_when.
  rule (validateGuestName env (q_guestName req)) discriminate.
  rule (validatePhoneNumber env (q_guestPhone req)) discriminate.
  rule (validateChildren env (default 0 (q_children req)) (q_guests req)) discriminate.
  rule (if truthyS (q_specialRequests req)
        then validateSpecialRequests env (default EmptyString (q_specialRequests req))
        else valid) discriminate.
  rule (fst (validateRoom st (q_room req))) discriminate.
  destruct (validateRoom_valid _ _ E3) as (roomId & room & Hr & Hf & Ha & Hv).
  rewrite Hv, Hr. cbn [snd].
  rule (validateGuestCapacityByRoomType env (q_guests req) (name room)) discriminate.
  rule (validateNumberOfRoomsByType env (q_numberOfRooms req) (name room)) discriminate.
  destruct (js_lt (q_numberOfRooms req) _); [discriminate|].
  destruct (truthyZ _ && js_gt _ _); [discriminate|].
  intros _. exists roomId, room. repeat split; auto.
Qed.

Lemma firstFailure_In l r : firstFailure l = Some r -> In (Some r) l.
Proof.
  induction l as [|[x|] l IH]; simpl; intros H; [discriminate | | auto].
  left. exact H.
Qed.

Lemma rule_failure_not_confirmed env st req r b :
  firstFailure (laterRules env st req) = Some r -> r <> BookingConfirmed b.
Proof.
  intros H ->. apply firstFailure_In in H.
  unfold laterRules in H. cbn [In] in H.
  repeat (destruct H as [H|H];
          [unfold report, sendValidationError in H; repeat case_match; discriminate|]).
  exact H.
Qed.

End ControllerFacts.

Section AdmissionFacts.
Import JsDate Store Http Absent Occupancy Spec.

Lemma Booking_find_In st q b : In b (Booking_find st q) <-> In b (bookings st) /\ q b = true.
Proof. unfold Booking_find. apply filter_In. Qed.

Lemma overlapQuery_true roomId from to excl b :
  overlapQuery roomId from to excl b = true <->
  room b = roomId /\ isActive b = true /\ checkIn b < to /\ checkOut b > from
  /\ (forall id, excl = Some id -> b_id b <> id).
Proof.
  unfold overlapQuery. rewrite !andb_true_iff, !bool_decide_eq_true.
  destruct excl as [id|].
  - rewrite negb_true_iff, bool_decide_eq_false. split.
    + intros ((((? & ?) & ?) & ?) & ?). repeat split; auto; congruence.
    + intros (? & ? & ? & ? & H). repeat split; auto.
  - split.
    + intros ((((? & ?) & ?) & ?) & ?). repeat split; auto; discriminate.
    + intros (? & ? & ? & ? & H). repeat split; auto.
Qed.

Lemma existing_wellFormed st q :
  Forall wellFormed (bookings st) -> Forall wellFormed (Booking_find st q).
Proof.
  rewrite !Forall_forall. intros H b Hb.
  apply list_elem_of_In, Booking_find_In in Hb as [Hb _].
  apply H. apply list_elem_of_In. exact Hb.
Qed.

Lemma existing_overlap st roomId from to excl :
  Forall (fun b => checkIn b < to /\ checkOut b > from)
    (Booking_find st (overlapQuery roomId from to excl)).
Proof.
  rewrite Forall_forall. intros b Hb.
  apply list_elem_of_In, Booking_find_In in Hb as [_ Hq].
  apply overlapQuery_true in Hq as (_ & _ & H1 & H2 & _). auto.
Qed.

End AdmissionFacts.

(** Admission on calendar days. For a request that passed the field and
    policy rules, with a window [[from, to)] of calendar days and over a
    store of reservations dated at midnight UTC: the counter the
    controller keeps under each day is the
    sum of the rooms requested by the overlapping pending and confirmed
    reservations that cover the day; the peak it computes is the maximum
    of that counter over the days of the window;
    availableRooms = totalRooms - peak; the request goes on to be booked
    if and only if requestedRooms <= availableRooms, and is otherwise
    rejected with the available count. *)
Theorem admission_by_peak_occupancy
    (env : Absent.Env) (st : Store.State) (req : Http.Request)
    (roomId : nat) (room : Store.Room) (from to n : Z) :
  Forall Spec.wellFormed (Store.bookings st) ->
  Spec.firstFailure (Spec.laterRules env st req) = None ->
  Http.q_room req = Some roomId ->
  Store.Room_findById st roomId = Some room ->
  Http.parseDate (Http.q_checkIn req) = Some from ->
  Http.parseDate (Http.q_checkOut req) = Some to ->
  JsDate.atMidnight from -> JsDate.atMidnight to -> from < to ->
  Http.q_numberOfRooms req = Some n ->
  let existing := Store.Booking_find st (Store.overlapQuery roomId from to None) in
  let peak := Spec.peakOccupancy existing from to in
  let available := Store.totalRooms room - peak in
  (forall d, default 0 (Occupancy.bookingsPerDate existing !! d)
             = Spec.dayCounter existing d)
  /\ Occupancy.maxBookedRooms (Occupancy.bookingsPerDate existing) = peak
  /\ Occupancy.availableRooms room existing = available
  /\ (available < n ->
      CreateBookingLater.createBooking env st req
      = (Http.NotEnoughRooms available (Some n) (head existing), st))
  /\ (n <= available ->
      CreateBookingLater.createBooking env st req
      = BookingService.respond st
          (BookingService.createBooking env st
             (CreateBookingLater.bookingData req roomId from to))).
Proof.
  intros Hwf Hrules Hroom Hfind Hin Hout Hf Ht Hlt Hn existing peak available.
  assert (Hpeak : Occupancy.maxBookedRooms (Occupancy.bookingsPerDate existing) = peak).
  { apply maxBookedRooms_peak; auto.
    - apply existing_wellFormed. exact Hwf.
    - apply existing_overlap. }
  assert (Hav : Occupancy.availableRooms room existing = available).
  { unfold Occupancy.availableRooms. rewrite Hpeak. reflexivity. }
  destruct (createBooking_later_passes env st req Hrules)
    as (roomId' & room' & Hr' & Hf' & _ & Hc).
  rewrite Hroom in Hr'. injection Hr' as <-.
  rewrite Hfind in Hf'. injection Hf' as <-.
  rewrite Hin, Hout, Hn in Hc. cbv zeta in Hc. fold existing in Hc.
  rewrite Hav in Hc. unfold Http.js_lt in Hc.
  split.
  { intros d. rewrite bookingsPerDate_lookup by (apply existing_wellFormed; exact Hwf).
    destruct (existsb _ existing) eqn:He; [reflexivity|].
    symmetry. apply dayCounter_none. exact He. }
  split; [exact Hpeak|]. split; [exact Hav|]. split; intros Hcmp.
  - rewrite bool_decide_eq_true_2 in Hc by exact Hcmp. exact Hc.
  - rewrite bool_decide_eq_false_2 in Hc by lia. exact Hc.
Qed.

(** The spec's scenario: with A booked, B (2 rooms, overlapping the night
    of 03-02) is rejected with availableRooms = 1. *)
Lemma admission_by_peak_occupancy_witness :
  CreateBookingLater.createBooking Deluxe.env Deluxe.withA Deluxe.requestB
  = (Http.NotEnoughRooms 1 (Some 2) (head (Store.bookings Deluxe.withA)), Deluxe.withA).
Proof.
  assert (Hwf : Forall Spec.wellFormed (Store.bookings Deluxe.withA)).
  { let l := eval vm_compute in (Store.bookings Deluxe.withA) in
    change (Forall Spec.wellFormed l).
    constructor; [|constructor].
    repeat split; vm_compute; first [reflexivity | discriminate]. }
  destruct (admission_by_peak_occupancy Deluxe.env Deluxe.withA Deluxe.requestB
              1%nat Deluxe.deluxe
              (JsDate.midnight (Deluxe.march1 + 1)) (JsDate.midnight (Deluxe.march1 + 3)) 2
              Hwf eq_refl eq_refl eq_refl eq_refl eq_refl eq_refl eq_refl eq_refl eq_refl)
    as (_ & _ & _ & H & _).
  rewrite H by (vm_compute; reflexivity).
  vm_compute. reflexivity.
Defined.

(** C2 at a failing input. The later controller stores the instants it
    is sent, and its loop marks the calendar day of each instant it steps
    through, one step being 24 hours from the check-in instant. With 2
    Deluxe rooms, a stay of 1 room from 03-02 14:00 to 03-03 10:00 and a
    stay of 1 room for the night of 03-03 are admitted. A further request
    for 1 room on the night of 03-03 finds both as overlapping; the first
    holds its room on 03-03 until 10:00, so the counter of 03-03 is 2, the
    peak is 2 and no room is left. The loop marks only 03-02 for the first
    stay: the controller counts 1 on 03-03, finds 1 room available and
    confirms the request, and the night of 03-03 carries 3 rooms against a
    total of 2. *)
Theorem admission_misses_partial_day :
  let from := JsDate.midnight (Deluxe.march1 + 2) in
  let to := JsDate.midnight (Deluxe.march1 + 3) in
  let existing :=
    Store.Booking_find Deluxe.withAfternoon (Store.overlapQuery 1 from to None) in
  Lifecycle.reachable Deluxe.env Deluxe.catalog Deluxe.withAfternoon
  /\ Http.parseDate (Http.q_checkIn Deluxe.requestNight) = Some from
  /\ Http.parseDate (Http.q_checkOut Deluxe.requestNight) = Some to
  /\ Http.q_numberOfRooms Deluxe.requestNight = Some 1
  /\ existing = Store.bookings Deluxe.withAfternoon
  /\ length existing = 2%nat
  /\ Spec.dayCounter existing (Deluxe.march1 + 2) = 2
  /\ Spec.peakOccupancy existing from to = 2
  /\ Store.totalRooms Deluxe.deluxe - Spec.peakOccupancy existing from to = 0
  /\ default 0 (Occupancy.bookingsPerDate existing !! (Deluxe.march1 + 1)) = 1
  /\ default 0 (Occupancy.bookingsPerDate existing !! (Deluxe.march1 + 2)) = 1
  /\ Occupancy.availableRooms Deluxe.deluxe existing = 1
  /\ exists b st',
       CreateBookingLater.createBooking Deluxe.env Deluxe.withAfternoon Deluxe.requestNight
       = (Http.BookingConfirmed b, st')
       /\ Spec.nightLoad st' 1 (Deluxe.march1 + 2) = 3
       /\ ~ Spec.inventoryInvariant st'.
Proof.
  cbv zeta.
  split; [eexists; reflexivity|].
  do 11 (split; [vm_compute; reflexivity|]).
  eexists _, _. split; [vm_compute; reflexivity|].
  split; [vm_compute; reflexivity|].
  intros Hinv. specialize (Hinv Deluxe.deluxe (Deluxe.march1 + 2) (or_introl eq_refl)).
  vm_compute in Hinv. apply Hinv. reflexivity.
Qed.

(** ** Conflict check *)

Section ConflictFacts.
Import JsDate Store Http Absent BookingValidationService Occupancy Spec.

Lemma find_is_Some {A} (q : A -> bool) (l : list A) :
  is_Some (List.find q l) <-> exists x, In x l /\ q x = true.
Proof.
  split.
  - intros [x Hx]. exists x. apply find_some in Hx. exact Hx.
  - intros (x & Hin & Hq). destruct (List.find q l) as [y|] eqn:E; [eauto|].
    exfalso. pose proof (find_none _ _ E x Hin) as Hn. congruence.
Qed.

Lemma filter_nil_none {A} (q : A -> bool) (l : list A) :
  (forall x, In x l -> q x = false) -> List.filter q l = [].
Proof.
  induction l as [|x l IH]; intros H; [reflexivity|].
  simpl. rewrite (H x (or_introl eq_refl)). apply IH.
  intros y Hy. apply H. right. exact Hy.
Qed.

Lemma availableRooms_nil room : availableRooms room [] = totalRooms room.
Proof.
  unfold availableRooms, bookingsPerDate, maxBookedRooms. simpl.
  rewrite map_to_list_empty. simpl. lia.
Qed.

(** The conflict check finds a reservation exactly when one of the room,
    pending or confirmed and not excluded, overlaps the window. *)
Lemma checkBookingConflict_is_Some st roomId from to excl :
  is_Some (checkBookingConflict st roomId from to excl)
  <-> exists b,
        In b (bookings st) /\ room b = roomId /\ isActive b = true
        /\ (forall id, excl = Some id -> b_id b <> id)
        /\ checkIn b < to /\ checkOut b > from.
Proof.
  unfold checkBookingConflict, Booking_findOne. rewrite find_is_Some. split.
  - intros (b & Hin & Hq). apply overlapQuery_true in Hq. exists b. tauto.
  - intros (b & Hin & H). exists b. split; [exact Hin|].
    apply overlapQuery_true. tauto.
Qed.

End ConflictFacts.

(** C5. A pending or confirmed reservation of the room matches the
    conflict query exactly when [checkIn < to] and [checkOut > from]; the
    conflict check reports a conflict exactly when some such reservation
    matches; a window that starts on a reservation's check-out date does
    not overlap it. When every pending or confirmed reservation of the
    room ends by the start of the window or begins at its end or later,
    a request for that window is admitted: the later controller confirms
    it when it passes the field and policy rules, asks for no more rooms
    than the type has and carries the three strings the service trims,
    and the earlier controller confirms it when it passes the required
    fields, the room check and the date check; either stores the
    reservation for that room and window, the stored document passing the
    schema. *)
Theorem conflict_iff_overlap
    (st : Store.State) (roomId : nat) (from to : Z) (excl : option nat) :
  (forall b,
     Store.room b = roomId -> Store.isActive b = true ->
     (forall id, excl = Some id -> Store.b_id b <> id) ->
     (Store.overlapQuery roomId from to excl b = true
      <-> Store.checkIn b < to /\ Store.checkOut b > from))
  /\ (is_Some (BookingValidationService.checkBookingConflict st roomId from to excl)
      <-> exists b,
            In b (Store.bookings st) /\ Store.room b = roomId
            /\ Store.isActive b = true
            /\ (forall id, excl = Some id -> Store.b_id b <> id)
            /\ Store.checkIn b < to /\ Store.checkOut b > from)
  /\ (forall b, Store.checkOut b = from ->
        Store.overlapQuery roomId from to excl b = false)
  /\ ((forall b, In b (Store.bookings st) -> Store.room b = roomId ->
         Store.isActive b = true -> Store.checkOut b <= from \/ to <= Store.checkIn b) ->
      BookingValidationService.checkBookingConflict st roomId from to excl = None
      /\ (forall room,
            Occupancy.availableRooms room
              (Store.Booking_find st (Store.overlapQuery roomId from to excl))
            = Store.totalRooms room)
      /\ (forall (env : Absent.Env) (req : Http.Request) (room : Store.Room) (n : Z),
            Spec.firstFailure (Spec.laterRules env st req) = None ->
            Http.q_room req = Some roomId ->
            Store.Room_findById st roomId = Some room ->
            Http.parseDate (Http.q_checkIn req) = Some from ->
            Http.parseDate (Http.q_checkOut req) = Some to ->
            Http.q_numberOfRooms req = Some n -> n <= Store.totalRooms room ->
            is_Some (Http.q_guestName req) -> is_Some (Http.q_guestEmail req) ->
            is_Some (Http.q_guestPhone req) ->
            (forall b, Store.room b = roomId -> Store.checkIn b = from ->
                       Store.checkOut b = to -> Absent.schemaAccepts env b = true) ->
            exists b,
              CreateBookingLater.createBooking env st req
              = (Http.BookingConfirmed b,
                 {| Store.rooms := Store.rooms st;
                    Store.bookings := Store.bookings st ++ [b];
                    Store.nextId := S (Store.nextId st) |})
              /\ Store.room b = roomId /\ Store.checkIn b = from
              /\ Store.checkOut b = to /\ Store.status b = Store.confirmed
              /\ Store.numberOfRooms b = Some n)
      /\ (forall (env : Absent.Env) (now : Z) (req : Http.Request),
            Http.isValid (BookingValidationService.validateRequiredFields req) = true ->
            Http.q_room req = Some roomId ->
            Http.isValid (fst (BookingValidationService.validateRoom st (Http.q_room req)))
            = true ->
            BookingValidationService.validateDates now
              (Http.q_checkIn req) (Http.q_checkOut req)
            = (Http.valid, Some from, Some to) ->
            (forall b, Store.room b = roomId -> Store.checkIn b = from ->
                       Store.checkOut b = to -> Absent.schemaAccepts env b = true) ->
            exists b,
              CreateBookingEarlier.createBooking env now st req
              = (Http.BookingConfirmed b,
                 {| Store.rooms := Store.rooms st;
                    Store.bookings := Store.bookings st ++ [b];
                    Store.nextId := S (Store.nextId st) |})
              /\ Store.room b = roomId /\ Store.checkIn b = from
              /\ Store.checkOut b = to /\ Store.status b = Store.confirmed)).
Proof.
  split; [|split; [|split]].
  - intros b Hr Ha He. rewrite overlapQuery_true. tauto.
  - apply checkBookingConflict_is_Some.
  - intros b Hb. apply not_true_is_false. intros Hq.
    apply overlapQuery_true in Hq. lia.
  - intros Hall.
    assert (Hnone : forall excl' b, In b (Store.bookings st) ->
                      Store.overlapQuery roomId from to excl' b = false).
    { intros excl' b Hin. apply not_true_is_false. intros Hq.
      apply overlapQuery_true in Hq as (Hr & Ha & Hi & Ho & _).
      specialize (Hall b Hin Hr Ha). lia. }
    assert (Hfree : forall excl',
              BookingValidationService.checkBookingConflict st roomId from to excl' = None).
    { intros excl'.
      unfold BookingValidationService.checkBookingConflict, Store.Booking_findOne.
      destruct (List.find _ _) as [b|] eqn:E; [|reflexivity].
      apply find_some in E as [Hin Hq]. rewrite (Hnone _ b Hin) in Hq. discriminate. }
    assert (Hrooms : forall excl' room,
              Occupancy.availableRooms room
                (Store.Booking_find st (Store.overlapQuery roomId from to excl'))
              = Store.totalRooms room).
    { intros excl' room. unfold Store.Booking_find.
      rewrite (filter_nil_none _ _ (Hnone excl')). apply availableRooms_nil. }
    split; [apply Hfree|]. split; [apply Hrooms|]. split.
    + intros env req room n Hrules Hroom Hfind Hin Hout Hn Hle
        [nm Hnm] [email Hemail] [phone Hphone] Hschema.
      destruct (createBooking_later_passes env st req Hrules)
        as (roomId' & room' & Hr' & Hf' & _ & Hc).
      rewrite Hroom in Hr'. injection Hr' as <-.
      rewrite Hfind in Hf'. injection Hf' as <-.
      rewrite Hin, Hout, Hn in Hc. cbv zeta in Hc. rewrite Hrooms in Hc.
      unfold Http.js_lt in Hc. rewrite bool_decide_eq_false_2 in Hc by lia.
      rewrite Hc.
      unfold BookingService.createBooking, CreateBookingLater.bookingData.
      cbn [BookingService.d_guestName BookingService.d_guestEmail
           BookingService.d_guestPhone].
      rewrite Hnm, Hemail, Hphone. unfold BookingService.Booking_create.
      rewrite Hschema by reflexivity.
      eexists. split; [reflexivity|]. cbn. rewrite Hn. repeat split.
    + intros env now req Hfields Hroom Hvalid Hdates Hschema.
      assert (Hstr : is_Some (Http.q_guestName req) /\ is_Some (Http.q_guestEmail req)
                     /\ is_Some (Http.q_guestPhone req)).
      { revert Hfields.
        unfold BookingValidationService.validateRequiredFields,
          BookingValidationService.missingFields, Http.truthyS.
        destruct (Http.q_guestName req) as [[|]|], (Http.q_guestEmail req) as [[|]|],
          (Http.q_guestPhone req) as [[|]|];
          destruct (Http.given (Http.q_room req)), (Http.given (Http.q_checkIn req)),
            (Http.given (Http.q_checkOut req)), (Http.truthyZ (Http.q_guests req));
          simpl; intros H; try discriminate; repeat split; eauto. }
      destruct Hstr as ([nm Hnm] & [email Hemail] & [phone Hphone]).
      unfold CreateBookingEarlier.createBooking.
      rewrite Hfields, Hvalid, Hdates, Hroom. cbn [negb fst snd Http.isValid Http.valid].
      rewrite Hfree.
      unfold BookingService.createBooking_earlier, CreateBookingEarlier.bookingData.
      cbn [BookingService.d_guestName BookingService.d_guestEmail
           BookingService.d_guestPhone].
      rewrite Hnm, Hemail, Hphone. unfold BookingService.Booking_create.
      rewrite Hschema by reflexivity.
      eexists. split; [reflexivity|]. cbn. repeat split.
Qed.

(** The spec's scenario: with A booked until 03-03, C (1 room from 03-03)
    meets no conflict and is confirmed by the later controller. *)
Lemma conflict_iff_overlap_witness :
  exists b,
    CreateBookingLater.createBooking Deluxe.env Deluxe.withA Deluxe.requestC
    = (Http.BookingConfirmed b,
       {| Store.rooms := Store.rooms Deluxe.withA;
          Store.bookings := Store.bookings Deluxe.withA ++ [b];
          Store.nextId := S (Store.nextId Deluxe.withA) |})
    /\ Store.checkIn b = JsDate.midnight (Deluxe.march1 + 2)
    /\ Store.checkOut b = JsDate.midnight (Deluxe.march1 + 4).
Proof.
  destruct (conflict_iff_overlap Deluxe.withA 1
              (JsDate.midnight (Deluxe.march1 + 2))
              (JsDate.midnight (Deluxe.march1 + 4)) None) as (_ & _ & _ & H).
  destruct H as (_ & _ & Hlater & _).
  - intros b Hin _ _. vm_compute in Hin. destruct Hin as [<-|[]].
    left. vm_compute. discriminate.
  - destruct (Hlater Deluxe.env Deluxe.requestC Deluxe.deluxe 1)
      as (b & Hc & _ & Hi & Ho & _);
      try reflexivity; try (eexists; reflexivity); try (vm_compute; discriminate).
    exists b. split; [exact Hc|]. split; [exact Hi | exact Ho].
Defined.

Example reservation_C_is_confirmed :
  exists b st',
    CreateBookingLater.createBooking Deluxe.env Deluxe.withA Deluxe.requestC
    = (Http.BookingConfirmed b, st')
    /\ Store.checkIn b = JsDate.midnight (Deluxe.march1 + 2)
    /\ length (Store.bookings st') = 2%nat.
Proof. eexists _, _. vm_compute. repeat split. Qed.

(** ** Cancellation *)

Section CancelFacts.
Import JsDate Store Http Absent BookingValidationService Spec.

Lemma Booking_findById_Some st id b :
  Booking_findById st id = Some b -> In b (bookings st) /\ b_id b = id.
Proof.
  unfold Booking_findById. intros H. apply find_some in H as [Hin Hid].
  apply bool_decide_eq_true in Hid. auto.
Qed.

Lemma filter_other_ids id l :
  (forall y, In y l -> b_id y <> id) ->
  List.filter (fun b => negb (bool_decide (b_id b = id))) l = l.
Proof.
  induction l as [|x l IH]; intros H; [reflexivity|].
  simpl. rewrite bool_decide_eq_false_2 by (apply H; left; reflexivity).
  simpl. f_equal. apply IH. intros y Hy. apply H. right. exact Hy.
Qed.

Lemma NoDup_ids_tail x l :
  NoDup (List.map b_id (x :: l)) ->
  NoDup (List.map b_id l) /\ forall y, In y l -> b_id y <> b_id x.
Proof.
  simpl. intros H. inversion H as [|? ? Hnin Hnd]; subst. split; [exact Hnd|].
  intros y Hy E. apply Hnin. apply list_elem_of_In. rewrite <- E.
  apply in_map. exact Hy.
Qed.

(** A query that does not match the replacement sees the store as if the
    replaced document were deleted. *)
Lemma filter_replaceById q id b' l :
  NoDup (List.map b_id l) -> q b' = false ->
  List.filter q (replaceById id (fun _ => b') l)
  = List.filter q (List.filter (fun b => negb (bool_decide (b_id b = id))) l).
Proof.
  intros Hnd Hq. induction l as [|x l IH]; [reflexivity|].
  destruct (NoDup_ids_tail _ _ Hnd) as [Hnd' Hother].
  simpl. case_bool_decide as Hid; simpl.
  - rewrite Hq. rewrite filter_other_ids; [reflexivity|].
    intros y Hy. rewrite <- Hid. apply Hother. exact Hy.
  - destruct (q x); [f_equal|]; apply IH; exact Hnd'.
Qed.

Lemma find_replaceById q id b' l :
  NoDup (List.map b_id l) -> q b' = false ->
  List.find q (replaceById id (fun _ => b') l)
  = List.find q (List.filter (fun b => negb (bool_decide (b_id b = id))) l).
Proof.
  intros Hnd Hq. induction l as [|x l IH]; [reflexivity|].
  destruct (NoDup_ids_tail _ _ Hnd) as [Hnd' Hother].
  simpl. case_bool_decide as Hid; simpl.
  - rewrite Hq. rewrite filter_other_ids; [reflexivity|].
    intros y Hy. rewrite <- Hid. apply Hother. exact Hy.
  - destruct (q x); [reflexivity|]. apply IH. exact Hnd'.
Qed.

Lemma findById_replaceById id b' l :
  (exists x, In x l /\ b_id x = id) -> b_id b' = id ->
  List.find (fun b => bool_decide (b_id b = id)) (replaceById id (fun _ => b') l)
  = Some b'.
Proof.
  intros (x & Hin & Hx) Hb'. induction l as [|y l IH]; [contradiction|].
  simpl. case_bool_decide as Hid; simpl.
  - rewrite bool_decide_eq_true_2 by exact Hb'. reflexivity.
  - rewrite bool_decide_eq_false_2 by exact Hid.
    apply IH. destruct Hin as [->|Hin]; [contradiction | exact Hin].
Qed.

Lemma In_replaceById_NoDup id b' l x :
  NoDup (List.map b_id l) ->
  In x (replaceById id (fun _ => b') l) -> x = b' \/ (In x l /\ b_id x <> id).
Proof.
  induction l as [|y l IH]; intros Hnd Hin; [contradiction|].
  destruct (NoDup_ids_tail _ _ Hnd) as [Hnd' Hother].
  simpl in Hin. case_bool_decide as Hid.
  - destruct Hin as [<-|Hin]; [left; reflexivity|].
    right. split; [right; exact Hin|]. rewrite <- Hid. apply Hother. exact Hin.
  - destruct Hin as [<-|Hin]; [right; split; [left; reflexivity | exact Hid]|].
    destruct (IH Hnd' Hin) as [->|[H1 H2]]; [left; reflexivity|].
    right. split; [right; exact H1 | exact H2].
Qed.

Lemma overlapQuery_cancelled roomId from to excl b :
  status b = cancelled -> overlapQuery roomId from to excl b = false.
Proof.
  intros Hs. unfold overlapQuery, isActive. rewrite Hs.
  rewrite andb_false_r. reflexivity.
Qed.

End CancelFacts.

(** ** Update *)

Section UpdateFacts.
Import JsDate Store Http Absent BookingValidationService Spec.

(** An update leaves the store as it was or commits the whole change:
    there is no state in between. *)
Lemma updateBooking_all_or_nothing env st id body :
  snd (UpdateBookingController.updateBooking env st id body) = st
  \/ exists b b',
       Booking_findById st id = Some b
       /\ BookingService.applyUpdate body b = Some b'
       /\ UpdateBookingController.updateBooking env st id body
          = (BookingUpdated (Some b'), Booking_save st b').
Proof.
  unfold UpdateBookingController.updateBooking, BookingService.updateBooking.
  destruct (Booking_findById st id) as [b|] eqn:Hf; [|left; reflexivity].
  destruct (BookingService.applyUpdate body b) as [b'|] eqn:Ha.
  - destruct (schemaAccepts env b') eqn:Hs.
    + destruct (given (u_checkIn body) || given (u_checkOut body)).
      * destruct (if given (u_checkIn body) then _ else _);
          [|left; reflexivity].
        destruct (if given (u_checkOut body) then _ else _);
          [|left; reflexivity].
        destruct (checkBookingConflict _ _ _ _ _); [left; reflexivity|].
        right. exists b, b'. auto.
      * right. exists b, b'. auto.
    + left. repeat case_match; reflexivity.
  - left. repeat case_match; reflexivity.
Qed.

End UpdateFacts.

(** What an update checks. An update that carries a new check-in or
    check-out date re-runs the conflict check of the validation service
    on the new window, the reservation itself excluded: any other pending
    or confirmed reservation of the same room that overlaps the new window
    refuses the update, whatever the room counts, and the store is left as
    it was; with no such reservation the change is committed. Every update
    either leaves the store unchanged or commits the whole change. *)
Lemma update_rechecks_conflict
    (env : Absent.Env) (st : Store.State) (id : nat) (body : Http.UpdateBody)
    (b : Store.Booking) :
  Store.Booking_findById st id = Some b ->
  (forall newCheckIn newCheckOut,
     Http.given (Http.u_checkIn body) || Http.given (Http.u_checkOut body) = true ->
     (if Http.given (Http.u_checkIn body) then Http.parseDay (Http.u_checkIn body)
      else Some (Store.checkIn b)) = Some newCheckIn ->
     (if Http.given (Http.u_checkOut body) then Http.parseDay (Http.u_checkOut body)
      else Some (Store.checkOut b)) = Some newCheckOut ->
     ((exists other,
         In other (Store.bookings st) /\ Store.b_id other <> id
         /\ Store.room other = Store.room b /\ Store.isActive other = true
         /\ Store.checkIn other < newCheckOut /\ Store.checkOut other > newCheckIn) ->
      UpdateBookingController.updateBooking env st id body = (Http.RoomNotAvailable, st))
     /\ ((forall other,
            In other (Store.bookings st) -> Store.b_id other <> id ->
            Store.room other = Store.room b -> Store.isActive other = true ->
            ~ (Store.checkIn other < newCheckOut /\ Store.checkOut other > newCheckIn)) ->
         forall b',
           BookingService.applyUpdate body b = Some b' ->
           Absent.schemaAccepts env b' = true ->
           UpdateBookingController.updateBooking env st id body
           = (Http.BookingUpdated (Some b'), Store.Booking_save st b')))
  /\ (snd (UpdateBookingController.updateBooking env st id body) = st
      \/ exists b',
           BookingService.applyUpdate body b = Some b'
           /\ UpdateBookingController.updateBooking env st id body
              = (Http.BookingUpdated (Some b'), Store.Booking_save st b')).
Proof.
  intros Hf.
  split.
  - intros newCheckIn newCheckOut Hdates Hci Hco. split.
    + intros (other & Hin & Hid & Hr & Ha & H1 & H2).
      unfold UpdateBookingController.updateBooking.
      rewrite Hf, Hdates, Hci, Hco.
      destruct (BookingValidationService.checkBookingConflict st (Store.room b)
                  newCheckIn newCheckOut (Some id)) as [c|] eqn:Hc; [reflexivity|].
      exfalso.
      assert (Hs : is_Some (BookingValidationService.checkBookingConflict st
                              (Store.room b) newCheckIn newCheckOut (Some id))).
      { apply checkBookingConflict_is_Some. exists other. repeat split; auto.
        intros id' [= <-]. exact Hid. }
      rewrite Hc in Hs. destruct Hs as [? Hs]. discriminate.
    + intros Hnone b' Happ Hschema.
      unfold UpdateBookingController.updateBooking.
      rewrite Hf, Hdates, Hci, Hco.
      destruct (BookingValidationService.checkBookingConflict st (Store.room b)
                  newCheckIn newCheckOut (Some id)) as [c|] eqn:Hc.
      * exfalso.
        assert (Hs : is_Some (BookingValidationService.checkBookingConflict st
                                (Store.room b) newCheckIn newCheckOut (Some id)))
          by (rewrite Hc; eauto).
        apply checkBookingConflict_is_Some in Hs
          as (other & Hin & Hr & Ha & Hid & H1 & H2).
        apply (Hnone other Hin (Hid id eq_refl) Hr Ha). auto.
      * unfold BookingService.updateBooking. rewrite Hf, Happ, Hschema. reflexivity.
  - destruct (updateBooking_all_or_nothing env st id body)
      as [H|(b0 & b' & Hf0 & Ha & Hu)]; [left; exact H|].
    right. rewrite Hf in Hf0. injection Hf0 as <-. eauto.
Qed.

(** With A (03-01 to 03-03) and D (03-05 to 03-07) booked: moving D onto
    03-02 to 03-04 is refused because A overlaps. *)
Example moving_D_onto_A_is_refused :
  UpdateBookingController.updateBooking Deluxe.env Deluxe.withAD 1
    (Deluxe.moveTo (Deluxe.march1 + 1) (Deluxe.march1 + 3))
  = (Http.RoomNotAvailable, Deluxe.withAD).
Proof.
  destruct (Store.Booking_findById Deluxe.withAD 1) as [b|] eqn:Hf;
    [|vm_compute in Hf; discriminate].
  destruct (update_rechecks_conflict Deluxe.env Deluxe.withAD 1
              (Deluxe.moveTo (Deluxe.march1 + 1) (Deluxe.march1 + 3)) b Hf)
    as [H _].
  destruct (H (JsDate.midnight (Deluxe.march1 + 1)) (JsDate.midnight (Deluxe.march1 + 3))
              eq_refl eq_refl eq_refl) as [Hrefuse _].
  apply Hrefuse.
  destruct (Store.Booking_findById Deluxe.withAD 0) as [a|] eqn:Ha;
    [|vm_compute in Ha; discriminate].
  exists a. vm_compute in Hf. injection Hf as <-.
  vm_compute in Ha. injection Ha as <-.
  split; [vm_compute; auto|]. split; [discriminate|].
  split; [reflexivity|]. split; [reflexivity|]. split; reflexivity.
Qed.

(** The spec's scenario: A, alone in the store, is given a second room for
    the same window. *)
Example reservation_A_gets_second_room :
  exists b' st',
    UpdateBookingController.updateBooking Deluxe.env Deluxe.withA 0 (Deluxe.setRooms 2)
    = (Http.BookingUpdated (Some b'), st')
    /\ Store.numberOfRooms b' = Some 2
    /\ Store.bookings st' = [b'].
Proof. eexists _, _. vm_compute. repeat split. Qed.

(** C7 at two failing inputs. The admission check of the later
    [createBooking], run for an update with the reservation's own
    occupancy excluded, would compare the requested count with the rooms
    left by the other reservations; [updateBooking] runs the conflict
    check instead, and only when the body carries a date.
    - With A booked twice (1 room each, 03-01 to 03-03, both of the
      2 rooms taken), [PUT /api/bookings/0] with [{ numberOfRooms: 2 }]
      fails the admission check: with reservation 0 excluded the other A
      leaves 1 room. No check is run, the change is committed, and the
      night of 03-01 carries 3 rooms.
    - With A and D (1 room, 03-05 to 03-07) booked, moving D onto 03-02 to
      03-04 passes the admission check: with D excluded A leaves 1 room on
      every night. The update is refused because A overlaps. *)
Theorem update_skips_admission_check :
  let window := (JsDate.midnight Deluxe.march1, JsDate.midnight (Deluxe.march1 + 2)) in
  let others :=
    Store.Booking_find Deluxe.withAA
      (Store.overlapQuery 1 (fst window) (snd window) (Some 0%nat)) in
  let moved := (JsDate.midnight (Deluxe.march1 + 1), JsDate.midnight (Deluxe.march1 + 3)) in
  let othersOfD :=
    Store.Booking_find Deluxe.withAD
      (Store.overlapQuery 1 (fst moved) (snd moved) (Some 1%nat)) in
  (Lifecycle.reachable Deluxe.env Deluxe.catalog Deluxe.withAA
   /\ Spec.inventoryInvariant Deluxe.withAA
   /\ Spec.peakOccupancy others (fst window) (snd window) = 1
   /\ Occupancy.availableRooms Deluxe.deluxe others = 1
   /\ Http.js_lt (Some (Occupancy.availableRooms Deluxe.deluxe others)) (Some 2) = true
   /\ (exists u,
         UpdateBookingController.updateBooking Deluxe.env Deluxe.withAA 0 (Deluxe.setRooms 2)
         = (Http.BookingUpdated (Some u), Deluxe.oversold)
         /\ Store.numberOfRooms u = Some 2)
   /\ Spec.nightLoad Deluxe.oversold 1 Deluxe.march1 = 3
   /\ Store.totalRooms Deluxe.deluxe = 2)
  /\ (Lifecycle.reachable Deluxe.env Deluxe.catalog Deluxe.withAD
      /\ Spec.peakOccupancy othersOfD (fst moved) (snd moved) = 1
      /\ Occupancy.availableRooms Deluxe.deluxe othersOfD = 1
      /\ Http.js_lt (Some (Occupancy.availableRooms Deluxe.deluxe othersOfD)) (Some 1) = false
      /\ UpdateBookingController.updateBooking Deluxe.env Deluxe.withAD 1
           (Deluxe.moveTo (Deluxe.march1 + 1) (Deluxe.march1 + 3))
         = (Http.RoomNotAvailable, Deluxe.withAD)).
Proof.
  cbv zeta. split.
  - split; [eexists; reflexivity|].
    split.
    { assert (Hrooms : Store.rooms Deluxe.withAA = [Deluxe.deluxe])
        by (vm_compute; reflexivity).
      assert (Hbookings : exists l, Store.bookings Deluxe.withAA = l /\ length l = 2%nat
                                    /\ Forall (fun b => Spec.roomsRequested b = 1) l).
      { eexists. split; [vm_compute; reflexivity|].
        split; [reflexivity | repeat constructor]. }
      destruct Hbookings as (l & Hl & Hlen & Hone).
      intros r d Hin. rewrite Hrooms in Hin. destruct Hin as [<-|[]].
      unfold Spec.nightLoad. rewrite Hl. clear Hl.
      destruct l as [|x [|y [|z l]]]; try discriminate Hlen.
      apply Forall_cons in Hone as [Hx Hone]. apply Forall_cons in Hone as [Hy _].
      change (Store.totalRooms Deluxe.deluxe) with 2.
      cbn [List.filter]. repeat case_match; cbn [Spec.sumRooms foldr]; lia. }
    split; [vm_compute; reflexivity|].
    split; [vm_compute; reflexivity|].
    split; [vm_compute; reflexivity|].
    split; [eexists; vm_compute; split; reflexivity|].
    split; vm_compute; reflexivity.
  - split; [eexists; reflexivity|].
    split; [vm_compute; reflexivity|].
    split; [vm_compute; reflexivity|].
    split; vm_compute; reflexivity.
Qed.

(** ** Validation order *)

Section ValidationOrderFacts.
Import JsDate Store Http Absent BookingValidationService Spec.

(** The earlier controller answers with the first failure among its
    rules, taken in its order, and leaves the store as it is. *)
Lemma createBooking_earlier_fails env now st req r :
  firstFailure (earlierRules now st req) = Some r ->
  CreateBookingEarlier.createBooking env now st req = (r, st).
Proof.
  unfold earlierRules, CreateBookingEarlier.createBooking. cbn [firstFailure].
  destruct (isValid (validateRequiredFields req)) eqn:E1;
    [rewrite (report_valid _ E1) | rewrite (report_invalid _ E1); simpl; congruence].
  destruct (isValid (fst (validateRoom st (q_room req)))) eqn:E2;
    [rewrite (report_valid _ E2) | rewrite (report_invalid _ E2); simpl; congruence].
  destruct (isValid (fst (fst (validateDates now (q_checkIn req) (q_checkOut req)))))
    eqn:E3;
    [rewrite (report_valid _ E3) | rewrite (report_invalid _ E3); simpl; congruence].
  discriminate.
Qed.

(** A request that fails no rule of a controller is never answered with
    a rule's failure. *)
Lemma createBooking_later_passed env st req :
  firstFailure (laterRules env st req) = None ->
  match fst (CreateBookingLater.createBooking env st req) with
  | NotEnoughRooms _ _ _ | BookingConfirmed _ | MongooseValidationError | ServerError => True
  | _ => False
  end.
Proof.
  intros H. destruct (createBooking_later_passes env st req H)
    as (roomId & room & _ & _ & _ & ->).
  destruct (parseDate (q_checkIn req)); [|exact I].
  destruct (parseDate (q_checkOut req)); [|exact I].
  cbv zeta. destruct (js_lt _ _); [exact I|].
  unfold BookingService.respond.
  destruct (BookingService.createBooking _ _ _) as [[]|[? ?]]; exact I.
Qed.

Lemma createBooking_earlier_passed env now st req :
  firstFailure (earlierRules now st req) = None ->
  match fst (CreateBookingEarlier.createBooking env now st req) with
  | DatesNotAvailable _ | BookingConfirmed _ | MongooseValidationError | ServerError => True
  | _ => False
  end.
Proof.
  unfold earlierRules, CreateBookingEarlier.createBooking. cbn [firstFailure].
  destruct (isValid (validateRequiredFields req)) eqn:E1;
    [rewrite (report_valid _ E1) | rewrite (report_invalid _ E1); discriminate].
  destruct (isValid (fst (validateRoom st (q_room req)))) eqn:E2;
    [rewrite (report_valid _ E2) | rewrite (report_invalid _ E2); discriminate].
  destruct (isValid (fst (fst (validateDates now (q_checkIn req) (q_checkOut req)))))
    eqn:E3;
    [rewrite (report_valid _ E3) | rewrite (report_invalid _ E3); discriminate].
  intros _. cbn [negb].
  destruct (q_room req); [|exact I].
  destruct (snd (fst (validateDates now (q_checkIn req) (q_checkOut req)))); [|exact I].
  destruct (snd (validateDates now (q_checkIn req) (q_checkOut req))); [|exact I].
  destruct (checkBookingConflict _ _ _ _ _); [exact I|].
  unfold BookingService.respond.
  destruct (BookingService.createBooking_earlier _ _ _) as [[]|[? ?]]; exact I.
Qed.

End ValidationOrderFacts.

(** C8, as the code has it. The later controller evaluates, in this
    order, guest name, phone, children count (0 when absent), special
    requests (when present), the room lookup, guest capacity by room type,
    room count by room type, room count sufficient for the guests at 3
    guests per room, and the maximum room count of the type; the earlier
    controller evaluates required fields, the room lookup and the dates.
    Each stops at its first failing rule, answers with exactly that
    failure and leaves the store unchanged; a request that fails none of
    the rules is answered by the admission step. *)
Theorem creation_rules_in_code_order
    (env : Absent.Env) (now : Z) (st : Store.State) (req : Http.Request) :
  (forall r, Spec.firstFailure (Spec.laterRules env st req) = Some r ->
     CreateBookingLater.createBooking env st req = (r, st))
  /\ (Spec.firstFailure (Spec.laterRules env st req) = None ->
      match fst (CreateBookingLater.createBooking env st req) with
      | Http.NotEnoughRooms _ _ _ | Http.BookingConfirmed _
      | Http.MongooseValidationError | Http.ServerError => True
      | _ => False
      end)
  /\ (forall r, Spec.firstFailure (Spec.earlierRules now st req) = Some r ->
       CreateBookingEarlier.createBooking env now st req = (r, st))
  /\ (Spec.firstFailure (Spec.earlierRules now st req) = None ->
      match fst (CreateBookingEarlier.createBooking env now st req) with
      | Http.DatesNotAvailable _ | Http.BookingConfirmed _
      | Http.MongooseValidationError | Http.ServerError => True
      | _ => False
      end).
Proof.
  split; [|split; [|split]].
  - intros r. apply createBooking_later_fails.
  - apply createBooking_later_passed.
  - intros r. apply createBooking_earlier_fails.
  - apply createBooking_earlier_passed.
Qed.

(** C8, as stated, fails for both controllers. A request with no e-mail
    address and a digit in the name fails rule 1 of the nine, but the
    later controller, which has no required-field rule, reports the name.
    A request with a digit in the name fails rule 2, but the earlier
    controller, which has no name rule, confirms the booking. A request
    whose check-out precedes its check-in fails rule 6, but the later
    controller, which has no date rule, confirms the booking. *)
Lemma nine_rule_order_not_followed :
  (exists r,
     Spec.firstFailure
       (Spec.nineRules Deluxe.env (JsDate.midnight Deluxe.march1)
          (Lifecycle.initial Deluxe.catalog) Deluxe.requestNoEmail) = Some r
     /\ r = Http.ValidationError 400 (Some "Missing required fields: guestEmail"%string)
     /\ fst (CreateBookingLater.createBooking Deluxe.env
               (Lifecycle.initial Deluxe.catalog) Deluxe.requestNoEmail)
        = Http.ValidationError 400 (Some "invalid_format: guest name"%string)
     /\ fst (CreateBookingLater.createBooking Deluxe.env
               (Lifecycle.initial Deluxe.catalog) Deluxe.requestNoEmail) <> r)
  /\ (exists r b,
       Spec.firstFailure
         (Spec.nineRules Deluxe.env (JsDate.midnight Deluxe.march1)
            (Lifecycle.initial Deluxe.catalog) Deluxe.requestDigitName) = Some r
       /\ fst (CreateBookingEarlier.createBooking Deluxe.env
                 (JsDate.midnight Deluxe.march1)
                 (Lifecycle.initial Deluxe.catalog) Deluxe.requestDigitName)
          = Http.BookingConfirmed b
       /\ Http.BookingConfirmed b <> r)
  /\ (exists r b,
       Spec.firstFailure
         (Spec.nineRules Deluxe.env (JsDate.midnight Deluxe.march1)
            (Lifecycle.initial Deluxe.catalog) Deluxe.requestBackwards) = Some r
       /\ fst (CreateBookingLater.createBooking Deluxe.env
                 (Lifecycle.initial Deluxe.catalog) Deluxe.requestBackwards)
          = Http.BookingConfirmed b
       /\ Http.BookingConfirmed b <> r).
Proof.
  split; [|split].
  - eexists. split; [vm_compute; reflexivity|].
    split; [reflexivity|]. split; [vm_compute; reflexivity|].
    vm_compute. discriminate.
  - eexists _, _. split; [vm_compute; reflexivity|].
    split; [vm_compute; reflexivity|]. discriminate.
  - eexists _, _. split; [vm_compute; reflexivity|].
    split; [vm_compute; reflexivity|]. discriminate.
Qed.

Lemma creation_rules_in_code_order_witness :
  CreateBookingLater.createBooking Deluxe.env (Lifecycle.initial Deluxe.catalog)
    Deluxe.requestNoEmail
  = (Http.ValidationError 400 (Some "invalid_format: guest name"%string),
     Lifecycle.initial Deluxe.catalog).
Proof.
  destruct (creation_rules_in_code_order Deluxe.env 0
              (Lifecycle.initial Deluxe.catalog) Deluxe.requestNoEmail) as [H _].
  apply H. vm_compute. reflexivity.
Defined.

(** ** Pricing snapshot *)

Section SnapshotFacts.
Import JsDate Store Http Absent BookingValidationService Spec.

Lemma numberOrZero_absent : numberOrZero None = Some 0%Q.
Proof. reflexivity. Qed.




End SnapshotFacts.



(** ** Availability calendar *)

Section CalendarFacts.
Import JsDate Store Http Occupancy Spec RoomController.

Lemma startOfDay_midnight t : startOfDay t = midnight (isoDate t).
Proof.
  unfold startOfDay, midnight, isoDate.
  pose proof (Z.div_mod t MS_PER_DAY ltac:(discriminate)). lia.
Qed.

Lemma markBooked_elem fuel : forall cur out (s : gset Z) k,
  (stayDays cur out <= fuel)%nat ->
  k ∈ markBooked fuel cur out s
  <-> k ∈ s \/ isoDate cur <= k < isoDate cur + Z.of_nat (stayDays cur out).
Proof.
  induction fuel as [|fuel IH]; intros cur out s k Hfuel.
  - assert (stayDays cur out = 0%nat) as -> by lia. simpl. intuition lia.
  - simpl. case_bool_decide as Hlt.
    + rewrite (stayDays_step _ _ Hlt) in *.
      rewrite IH by lia. rewrite isoDate_addDays.
      rewrite elem_of_union, elem_of_singleton. split.
      * intros [[->|H]|H]; [right; lia | left; exact H | right; lia].
      * intros [H|H]; [left; right; exact H|].
        destruct (decide (k = isoDate cur)) as [->|Hne];
          [left; left; reflexivity | right; lia].
    + rewrite (stayDays_done _ _ Hlt). intuition lia.
Qed.

Lemma addBooked_elem (s : gset Z) b k :
  atMidnight (checkIn b) -> atMidnight (checkOut b) ->
  k ∈ addBooked s b <-> k ∈ s \/ covers b k = true.
Proof.
  intros Hi Ho. unfold addBooked. rewrite markBooked_elem by lia.
  rewrite (covers_spec b k Hi Ho).
  assert (Hs : Z.of_nat (stayDays (checkIn b) (checkOut b))
               = Z.max 0 (isoDate (checkOut b) - isoDate (checkIn b))).
  { rewrite <- stayDays_midnight.
    rewrite <- (atMidnight_inv _ Hi), <- (atMidnight_inv _ Ho). reflexivity. }
  rewrite Hs. intuition lia.
Qed.

Lemma fold_addBooked_elem l : forall (s : gset Z) k,
  Forall (fun b => atMidnight (checkIn b) /\ atMidnight (checkOut b)) l ->
  k ∈ fold_left addBooked l s <-> k ∈ s \/ exists b, In b l /\ covers b k = true.
Proof.
  induction l as [|b l IH]; intros s k Hal.
  - simpl. split; [auto | intros [H|(b & [] & _)]; exact H].
  - inversion Hal as [|? ? [Hi Ho] Hl]; subst.
    simpl fold_left. rewrite IH by exact Hl.
    rewrite (addBooked_elem s b k Hi Ho). split.
    + intros [[H|H]|(b' & Hin & Hc)]; [auto | right; exists b; simpl; auto |].
      right. exists b'. simpl. auto.
    + intros [H|(b' & [<-|Hin] & Hc)]; [auto | auto |]. right. exists b'. auto.
Qed.

(** The calendar loop, run for a span of [n] days with [n + 1] turns of
    fuel, yields the [n + 1] days from the start on: the fuel is what the
    loop needs. *)
Lemma calendarDays_span n : forall d (s : gset Z),
  calendarDays (S n) d (addDays d (Z.of_nat n)) s
  = (fun k => {| date := k; available := negb (bool_decide (k ∈ s)) |})
      <$> seqZ (isoDate d) (Z.of_nat (S n)).
Proof.
  induction n as [|n IH]; intros d s.
  - simpl. rewrite bool_decide_eq_true_2 by (unfold addDays; lia). reflexivity.
  - change (calendarDays (S (S n)) d (addDays d (Z.of_nat (S n))) s)
      with (if bool_decide (d <= addDays d (Z.of_nat (S n)))
            then {| date := isoDate d;
                    available := negb (bool_decide (isoDate d ∈ s)) |}
                 :: calendarDays (S n) (addDays d 1) (addDays d (Z.of_nat (S n))) s
            else []).
    rewrite bool_decide_eq_true_2
      by (unfold addDays; pose proof MS_PER_DAY_pos; nia).
    replace (addDays d (Z.of_nat (S n))) with (addDays (addDays d 1) (Z.of_nat n))
      by (unfold addDays; lia).
    rewrite IH. rewrite isoDate_addDays.
    rewrite (seqZ_cons (isoDate d) (Z.of_nat (S (S n)))) by lia.
    rewrite fmap_cons. f_equal. f_equal. f_equal; lia.
Qed.

(** On a store of midnight-dated reservations the calendar has 31
    entries, and each of the first 30 is unavailable exactly when a
    pending or confirmed reservation of the room covers its night. *)
Lemma calendar_first_30_days now st roomId startDate room t :
  Forall (fun b => atMidnight (checkIn b) /\ atMidnight (checkOut b)) (bookings st) ->
  List.find (fun r => bool_decide (r_id r = roomId) && isAvailable r) (rooms st)
  = Some room ->
  (if given startDate then parseDate startDate else Some now) = Some t ->
  exists days,
    getRoomAvailability now st roomId startDate
    = Calendar (isoDate t) (isoDate t + 30) days
    /\ length days = 31%nat
    /\ forall i, 0 <= i < 30 ->
         exists day,
           days !! Z.to_nat i = Some day /\ date day = isoDate t + i
           /\ (available day = false
               <-> exists b,
                     In b (bookings st) /\ Store.room b = roomId
                     /\ isActive b = true /\ covers b (isoDate t + i) = true).
Proof.
  intros Hal Hroom Ht. unfold getRoomAvailability. rewrite Hroom, Ht.
  set (start := startOfDay t). set (end_ := addDays start 30).
  set (fetched := Booking_find st (overlapQuery roomId start end_ None)).
  set (booked := fold_left addBooked fetched ∅).
  assert (Hfuel : Z.to_nat ((end_ - start) / MS_PER_DAY + 1) = 31%nat).
  { unfold end_, addDays. replace (start + 30 * MS_PER_DAY - start)
      with (30 * MS_PER_DAY) by lia.
    rewrite Z.div_mul by discriminate. reflexivity. }
  assert (Hstart : isoDate start = isoDate t).
  { unfold start. rewrite startOfDay_midnight. apply isoDate_midnight. }
  rewrite Hfuel. change 30 with (Z.of_nat 30) in end_.
  unfold end_ at 2. rewrite calendarDays_span, Hstart.
  eexists. split; [unfold end_; rewrite isoDate_addDays, Hstart; reflexivity|].
  split; [rewrite length_fmap, length_seqZ; reflexivity|].
  intros i Hi.
  eexists. split.
  { rewrite list_lookup_fmap.
    rewrite (lookup_seqZ_lt (isoDate t) (Z.of_nat 31) (Z.to_nat i)) by lia.
    simpl. reflexivity. }
  cbn [date available]. rewrite Z2Nat.id by lia. split; [reflexivity|].
  rewrite negb_false_iff, bool_decide_eq_true.
  assert (Hfal : Forall (fun b => atMidnight (checkIn b) /\ atMidnight (checkOut b))
                   fetched).
  { rewrite Forall_forall in *. intros b Hb.
    apply list_elem_of_In, Booking_find_In in Hb as [Hb _].
    apply Hal, list_elem_of_In. exact Hb. }
  unfold booked. rewrite (fold_addBooked_elem fetched ∅ _ Hfal).
  split.
  - intros [H|(b & Hin & Hc)]; [set_solver|].
    apply Booking_find_In in Hin as [Hin Hq].
    apply overlapQuery_true in Hq as (Hr & Ha & _). eauto.
  - intros (b & Hin & Hr & Ha & Hc). right. exists b. split; [|exact Hc].
    apply Booking_find_In. split; [exact Hin|].
    apply overlapQuery_true. split; [exact Hr|]. split; [exact Ha|].
    unfold covers in Hc. apply andb_true_iff in Hc as [H1 H2].
    apply bool_decide_eq_true in H1, H2.
    assert (Hs : start = midnight (isoDate t)) by apply startOfDay_midnight.
    unfold end_, addDays. rewrite Hs. unfold midnight in *.
    pose proof MS_PER_DAY_pos. split; [nia|]. split; [nia|]. discriminate.
Qed.

End CalendarFacts.

(** C9 at a failing input. The calendar asked from 2025-03-01 has 31
    entries, 03-01 to 03-31. A confirmed reservation that begins on 03-31
    covers that night, but the query reads only reservations with
    [checkIn < end], so the last entry reports the day as available. A
    reservation that begins a day earlier and covers the same night does
    make that entry unavailable. *)
Theorem calendar_last_day_misses_reservation :
  (exists days,
     RoomController.getRoomAvailability 0 Deluxe.withLate 1
       (Some (Http.IsoDay Deluxe.march1))
     = RoomController.Calendar Deluxe.march1 (Deluxe.march1 + 30) days
     /\ length days = 31%nat
     /\ last days
        = Some {| RoomController.date := Deluxe.march1 + 30;
                  RoomController.available := true |}
     /\ Spec.nightLoad Deluxe.withLate 1 (Deluxe.march1 + 30) = 1)
  /\ (exists days,
       RoomController.getRoomAvailability 0 Deluxe.withLateEve 1
         (Some (Http.IsoDay Deluxe.march1))
       = RoomController.Calendar Deluxe.march1 (Deluxe.march1 + 30) days
       /\ last days
          = Some {| RoomController.date := Deluxe.march1 + 30;
                    RoomController.available := false |}
       /\ Spec.nightLoad Deluxe.withLateEve 1 (Deluxe.march1 + 30) = 1).
Proof.
  split; eexists; (split; [vm_compute; reflexivity|]); repeat split.
Qed.

(** ** The inventory invariant *)

(** Identifiers in reachable stores. *)

Section IdentifierFacts.
Import JsDate Store Http Absent Lifecycle.

Lemma map_id_replaceById id b' l :
  b_id b' = id ->
  List.map b_id (replaceById id (fun _ => b') l) = List.map b_id l.
Proof.
  intros Hb. induction l as [|x l IH]; [reflexivity|].
  simpl. case_bool_decide as Hx; simpl; congruence.
Qed.

Lemma In_replaceById id b' l x :
  In x (replaceById id (fun _ => b') l) -> x = b' \/ In x l.
Proof.
  induction l as [|y l IH]; [contradiction|].
  simpl. case_bool_decide; simpl; intuition.
Qed.

Lemma idsFresh_save st b b' :
  Booking_findById st (b_id b') = Some b ->
  idsFresh st -> idsFresh (Booking_save st b').
Proof.
  intros Hf [Hnd Hlt]. unfold idsFresh, Booking_save. cbn [bookings nextId].
  split.
  - rewrite map_id_replaceById by reflexivity. exact Hnd.
  - rewrite Forall_forall in *. intros x Hx.
    apply list_elem_of_In, In_replaceById in Hx as [->|Hx].
    + apply Booking_findById_Some in Hf as [Hin Hid]. rewrite <- Hid.
      apply Hlt, list_elem_of_In. exact Hin.
    + apply Hlt, list_elem_of_In. exact Hx.
Qed.

Lemma idsFresh_delete st id :
  idsFresh st -> idsFresh (Booking_deleteOne st id).
Proof.
  intros [Hnd Hlt]. unfold idsFresh, Booking_deleteOne. cbn [bookings nextId].
  split.
  - induction (bookings st) as [|x l IH]; [constructor|].
    inversion Hlt; subst. simpl in Hnd. inversion Hnd as [|? ? Hnin Hnd']; subst.
    simpl. destruct (negb _); [|auto].
    simpl. constructor; [|auto].
    intros Hin. apply Hnin.
    apply list_elem_of_In, in_map_iff in Hin as (y & Hy & Hyin).
    apply filter_In in Hyin as [Hyin _].
    apply list_elem_of_In. rewrite <- Hy. apply in_map. exact Hyin.
  - rewrite Forall_forall in *. intros b Hb.
    apply list_elem_of_In, filter_In in Hb as [Hb _].
    apply Hlt, list_elem_of_In. exact Hb.
Qed.

Lemma idsFresh_create env st doc b st' :
  (forall id, b_id (doc id) = id) ->
  BookingService.Booking_create env st doc = inr (b, st') ->
  idsFresh st -> idsFresh st'.
Proof.
  unfold BookingService.Booking_create. intros Hdoc H [Hnd Hlt].
  destruct (schemaAccepts env _); [|discriminate].
  injection H as <- <-. unfold idsFresh. cbn [bookings nextId].
  split.
  - rewrite map_app. simpl. rewrite Hdoc.
    apply NoDup_app. split; [exact Hnd|]. split; [|apply NoDup_singleton].
    intros i Hi Hi'. apply list_elem_of_In in Hi'. destruct Hi' as [<-|[]].
    apply list_elem_of_In, in_map_iff in Hi as (x & Hx & Hin).
    rewrite Forall_forall in Hlt. apply list_elem_of_In, Hlt in Hin. lia.
  - apply Forall_app. split.
    + eapply Forall_impl; [exact Hlt|]. intros x Hx. simpl in *. lia.
    + constructor; [|constructor]. rewrite Hdoc. lia.
Qed.

Lemma idsFresh_serve env st op :
  idsFresh st -> idsFresh (snd (serve env st op)).
Proof.
  intros Hst. destruct op as [req|id body|now id userId reason|id]; simpl.
  - destruct (Spec.firstFailure (Spec.laterRules env st req)) as [r|] eqn:Hrules.
    + rewrite (createBooking_later_fails _ _ _ _ Hrules). exact Hst.
    + destruct (createBooking_later_passes env st req Hrules)
        as (roomId & room & _ & _ & _ & ->).
      destruct (parseDate (q_checkIn req)); [|exact Hst].
      destruct (parseDate (q_checkOut req)); [|exact Hst].
      cbv zeta. destruct (js_lt _ _); [exact Hst|].
      unfold BookingService.respond.
      destruct (BookingService.createBooking _ _ _) as [e|[b st']] eqn:Hs;
        [destruct e; exact Hst|].
      simpl. unfold BookingService.createBooking in Hs.
      repeat case_match; try discriminate.
      eapply idsFresh_create; [|exact Hs|exact Hst]. reflexivity.
  - destruct (updateBooking_all_or_nothing env st id body)
      as [->|(b & b' & Hf & Ha & ->)]; [exact Hst|].
    apply (idsFresh_save st b); [|exact Hst].
    assert (Hid : b_id b' = b_id b).
    { unfold BookingService.applyUpdate in Ha.
      repeat case_match; simplify_eq; reflexivity. }
    rewrite Hid. destruct (Booking_findById_Some _ _ _ Hf) as [_ ->]. exact Hf.
  - unfold UpdateBookingController.cancelBooking, BookingService.cancelBooking.
    destruct (Booking_findById st id) as [b|] eqn:Hf; [|exact Hst].
    destruct (canBeCancelled env now b); [|exact Hst]. cbn [negb].
    destruct (schemaAccepts env _); [|exact Hst].
    apply (idsFresh_save st b); [|exact Hst].
    cbn [b_id]. destruct (Booking_findById_Some _ _ _ Hf) as [_ ->]. exact Hf.
  - unfold UpdateBookingController.deleteBooking, BookingService.deleteBooking.
    destruct (Booking_findById st id); [|exact Hst].
    apply idsFresh_delete. exact Hst.
Qed.

(** In every reachable store the [_id]s are unique. *)
Lemma reachable_ids_unique env catalog st :
  reachable env catalog st -> NoDup (List.map b_id (bookings st)).
Proof.
  intros [ops <-].
  assert (H : forall s, idsFresh s -> idsFresh (run env s ops)).
  { induction ops as [|op ops IH]; intros s Hs; [exact Hs|].
    simpl. apply IH. apply idsFresh_serve. exact Hs. }
  apply H. split; constructor.
Qed.

End IdentifierFacts.

(** ** Cancellation and what follows it *)

Section RetiredFacts.
Import JsDate Store Http Absent Lifecycle History.

(** A query that no cancelled document satisfies reads a store in which
    [id] is retired as if [id] were deleted. *)
Lemma retired_filter q id st :
  (forall x, status x = cancelled -> q x = false) ->
  retired id st ->
  List.filter q (bookings st) = List.filter q (bookings (Booking_deleteOne st id)).
Proof.
  intros Hq [_ Hc]. unfold Booking_deleteOne. cbn [bookings].
  induction (bookings st) as [|x l IH]; [reflexivity|].
  simpl. case_bool_decide as Hid; simpl.
  - rewrite (Hq x) by (apply Hc; [left; reflexivity | exact Hid]).
    apply IH. intros y Hy. apply Hc. right. exact Hy.
  - destruct (q x); [f_equal|]; apply IH; intros y Hy; apply Hc; right; exact Hy.
Qed.

Lemma retired_find q id st :
  (forall x, status x = cancelled -> q x = false) ->
  retired id st ->
  List.find q (bookings st) = List.find q (bookings (Booking_deleteOne st id)).
Proof.
  intros Hq [_ Hc]. unfold Booking_deleteOne. cbn [bookings].
  induction (bookings st) as [|x l IH]; [reflexivity|].
  simpl. case_bool_decide as Hid; simpl.
  - rewrite (Hq x) by (apply Hc; [left; reflexivity | exact Hid]).
    apply IH. intros y Hy. apply Hc. right. exact Hy.
  - destruct (q x); [reflexivity|]. apply IH. intros y Hy. apply Hc. right. exact Hy.
Qed.

(** No request brings a retired reservation back, unless it is an update
    that writes a status to it. *)
Lemma retired_serve env id st op :
  idsFresh st -> retired id st -> writesNoStatus id op ->
  retired id (snd (serve env st op)).
Proof.
  intros Hids [Hlt Hc] Hop.
  destruct op as [req|i body|now i userId reason|i]; simpl.
  - destruct (Spec.firstFailure (Spec.laterRules env st req)) as [r|] eqn:Hrules.
    { rewrite (createBooking_later_fails _ _ _ _ Hrules). split; assumption. }
    destruct (createBooking_later_passes env st req Hrules)
      as (roomId & room & _ & _ & _ & ->).
    destruct (parseDate (q_checkIn req)); [|split; assumption].
    destruct (parseDate (q_checkOut req)); [|split; assumption].
    cbv zeta. destruct (js_lt _ _); [split; assumption|].
    unfold BookingService.respond.
    destruct (BookingService.createBooking _ _ _) as [e|[b st']] eqn:Hs;
      [destruct e; split; assumption|].
    simpl. unfold BookingService.createBooking in Hs.
    destruct (BookingService.d_guestName _); [|discriminate].
    destruct (BookingService.d_guestEmail _); [|discriminate].
    destruct (BookingService.d_guestPhone _); [|discriminate].
    unfold BookingService.Booking_create in Hs.
    destruct (schemaAccepts env _); [|discriminate].
    injection Hs as <- <-. split; cbn [nextId bookings]; [lia|].
    intros x Hx Hid. apply in_app_or in Hx as [Hx|[<-|[]]]; [exact (Hc x Hx Hid)|].
    cbn [b_id] in Hid. lia.
  - destruct (updateBooking_all_or_nothing env st i body)
      as [->|(b & b' & Hf & Ha & ->)]; [split; assumption|].
    cbn [snd]. split; [exact Hlt|].
    destruct (Booking_findById_Some _ _ _ Hf) as [Hin Hi].
    assert (Hb' : b_id b' = b_id b /\ status b' = default (status b) (u_status body)).
    { unfold BookingService.applyUpdate in Ha.
      repeat case_match; simplify_eq; split; reflexivity. }
    destruct Hb' as [Hid' Hst'].
    unfold Booking_save. cbn [bookings]. intros x Hx Hxid.
    apply In_replaceById in Hx as [->|Hx]; [|exact (Hc x Hx Hxid)].
    rewrite Hst'. rewrite Hop by congruence. cbn.
    apply Hc; [exact Hin | congruence].
  - unfold UpdateBookingController.cancelBooking, BookingService.cancelBooking.
    destruct (Booking_findById st i) as [b|] eqn:Hf; [|split; assumption].
    destruct (canBeCancelled env now b); [|split; assumption]. cbn [negb].
    destruct (schemaAccepts env _); [|split; assumption].
    cbn [snd]. split; [exact Hlt|].
    unfold Booking_save. cbn [bookings b_id]. intros x Hx Hxid.
    apply In_replaceById in Hx as [->|Hx]; [reflexivity | exact (Hc x Hx Hxid)].
  - unfold UpdateBookingController.deleteBooking, BookingService.deleteBooking.
    destruct (Booking_findById st i); [|split; assumption].
    cbn [snd]. split; [exact Hlt|].
    unfold Booking_deleteOne. cbn [bookings]. intros x Hx Hxid.
    apply filter_In in Hx as [Hx _]. exact (Hc x Hx Hxid).
Qed.

Lemma retired_run env id ops :
  Forall (writesNoStatus id) ops ->
  forall st, idsFresh st -> retired id st ->
  idsFresh (run env st ops) /\ retired id (run env st ops).
Proof.
  induction ops as [|op ops IH]; intros Hops st Hids Hret; [split; assumption|].
  apply Forall_cons in Hops as [Hop Hops]. simpl. apply IH; [exact Hops | |].
  - apply idsFresh_serve. exact Hids.
  - apply retired_serve; assumption.
Qed.

Lemma nightLoad_cancelled roomId d x :
  status x = cancelled ->
  bool_decide (room x = roomId) && isActive x && Spec.covers x d = false.
Proof.
  intros Hs. unfold isActive. rewrite Hs, andb_false_r. reflexivity.
Qed.

End RetiredFacts.

(** C6, with [canBeCancelled] as the specification describes it.
    Cancelling a reservation whose check-in is less than 24 hours ahead is
    refused as not cancellable and the store is unchanged. Cancelling one
    whose check-in is at least 24 hours ahead succeeds when the schema
    accepts the cancelled document, and stores it with status cancelled.
    From then on, after any further sequence of creations, cancellations,
    deletions and updates that write no status to it, the reservation is
    still cancelled if it is still there, and every read of the
    reservations that count for occupancy or conflict, and the load of
    every night, is what it would be were the reservation deleted. *)
Theorem cancel_cutoff
    (env : Absent.Env) (now : Z) (st : Store.State) (id : nat) (b : Store.Booking)
    (userId : option nat) (reason : option string) :
  (forall t x, Absent.canBeCancelled env t x = SpecModel.cancellable t x) ->
  Lifecycle.idsFresh st ->
  Store.Booking_findById st id = Some b ->
  (Store.checkIn b - now < 24 * JsDate.MS_PER_HOUR ->
     UpdateBookingController.cancelBooking env now st id userId reason
     = (Http.NotCancellable, st))
  /\ (24 * JsDate.MS_PER_HOUR <= Store.checkIn b - now ->
      (forall x, Store.b_id x = id -> Store.status x = Store.cancelled ->
                 Absent.schemaAccepts env x = true) ->
      exists b' st',
        UpdateBookingController.cancelBooking env now st id userId reason
        = (Http.BookingCancelled b', st')
        /\ Store.status b' = Store.cancelled
        /\ Store.cancelledAt b' = Some now
        /\ Store.Booking_findById st' id = Some b'
        /\ forall ops,
             Forall (History.writesNoStatus id) ops ->
             let later := Lifecycle.run env st' ops in
             (forall x, Store.Booking_findById later id = Some x ->
                        Store.status x = Store.cancelled)
             /\ forall roomId from to excl d,
                  Store.Booking_find later (Store.overlapQuery roomId from to excl)
                  = Store.Booking_find (Store.Booking_deleteOne later id)
                      (Store.overlapQuery roomId from to excl)
                  /\ BookingValidationService.checkBookingConflict later roomId from to excl
                     = BookingValidationService.checkBookingConflict
                         (Store.Booking_deleteOne later id) roomId from to excl
                  /\ Spec.nightLoad later roomId d
                     = Spec.nightLoad (Store.Booking_deleteOne later id) roomId d).
Proof.
  intros Hcan Hids Hfind.
  unfold UpdateBookingController.cancelBooking, BookingService.cancelBooking.
  rewrite Hfind, Hcan. unfold SpecModel.cancellable.
  split; intros Hcut.
  - rewrite bool_decide_eq_false_2 by lia. reflexivity.
  - intros Hschema. rewrite bool_decide_eq_true_2 by lia. cbn [negb].
    destruct (Booking_findById_Some _ _ _ Hfind) as [Hin Hid].
    rewrite Hschema by (cbn [Store.b_id Store.status]; auto).
    eexists _, _. split; [reflexivity|].
    split; [reflexivity|]. split; [reflexivity|]. split.
    { unfold Store.Booking_findById, Store.Booking_save. cbn [Store.bookings Store.b_id].
      rewrite Hid. apply findById_replaceById; [eauto | reflexivity]. }
    set (b' := {| Store.b_id := Store.b_id b |}).
    assert (Hids' : Lifecycle.idsFresh (Store.Booking_save st b')).
    { apply (idsFresh_save st b); [|exact Hids]. cbn [Store.b_id b']. rewrite Hid.
      exact Hfind. }
    assert (Hret : History.retired id (Store.Booking_save st b')).
    { destruct Hids as [Hnd Hlt]. split.
      - cbn [Store.nextId Store.Booking_save]. rewrite Forall_forall in Hlt.
        rewrite <- Hid. apply Hlt, list_elem_of_In. exact Hin.
      - unfold Store.Booking_save. cbn [Store.bookings]. intros x Hx Hxid.
        apply In_replaceById_NoDup in Hx as [->|[_ Hne]]; [reflexivity | | exact Hnd].
        exfalso. apply Hne. cbn [Store.b_id b']. congruence. }
    intros ops Hops. set (later := Lifecycle.run env _ ops).
    destruct (retired_run env id ops Hops _ Hids' Hret) as [_ Hlater].
    fold later in Hlater. split.
    { intros x Hx. apply Booking_findById_Some in Hx as [Hx Hxid].
      destruct Hlater as [_ Hc]. exact (Hc x Hx Hxid). }
    intros roomId from to excl d.
    unfold Store.Booking_find, BookingValidationService.checkBookingConflict,
      Store.Booking_findOne, Spec.nightLoad.
    split; [|split].
    + apply retired_filter; [|exact Hlater].
      intros x Hx. apply overlapQuery_cancelled. exact Hx.
    + apply retired_find; [|exact Hlater].
      intros x Hx. apply overlapQuery_cancelled. exact Hx.
    + f_equal. apply (retired_filter _ id later); [|exact Hlater].
      intros x Hx. apply nightLoad_cancelled. exact Hx.
Qed.

(** With A booked from 2025-03-01: cancelling 23 hours before check-in is
    refused; cancelling 24 hours before succeeds, and once reservation C
    is booked afterwards the night of 03-01 carries no room. *)
Lemma cancel_cutoff_witness :
  UpdateBookingController.cancelBooking Deluxe.env
    (JsDate.midnight Deluxe.march1 - 23 * JsDate.MS_PER_HOUR) Deluxe.withA 0 None None
  = (Http.NotCancellable, Deluxe.withA)
  /\ exists b' st',
       UpdateBookingController.cancelBooking Deluxe.env
         (JsDate.midnight Deluxe.march1 - 24 * JsDate.MS_PER_HOUR) Deluxe.withA 0 None None
       = (Http.BookingCancelled b', st')
       /\ Store.status b' = Store.cancelled
       /\ Spec.nightLoad
            (Lifecycle.run Deluxe.env st' [Lifecycle.Create Deluxe.requestC]) 1
            Deluxe.march1
          = Spec.nightLoad
              (Store.Booking_deleteOne
                 (Lifecycle.run Deluxe.env st' [Lifecycle.Create Deluxe.requestC]) 0) 1
              Deluxe.march1.
Proof.
  destruct (Store.Booking_findById Deluxe.withA 0) as [b|] eqn:Hf;
    [|vm_compute in Hf; discriminate].
  assert (Hids : Lifecycle.idsFresh Deluxe.withA).
  { split.
    - let l := eval vm_compute in (List.map Store.b_id (Store.bookings Deluxe.withA)) in
      change (NoDup l).
      repeat constructor. intros H. inversion H.
    - let l := eval vm_compute in (Store.bookings Deluxe.withA) in
      change (Forall (fun x => (Store.b_id x < 1)%nat) l).
      repeat constructor. }
  assert (Hin : Store.checkIn b = JsDate.midnight Deluxe.march1).
  { vm_compute in Hf. injection Hf as <-. reflexivity. }
  split.
  - destruct (cancel_cutoff Deluxe.env
                (JsDate.midnight Deluxe.march1 - 23 * JsDate.MS_PER_HOUR)
                Deluxe.withA 0 b None None (fun _ _ => eq_refl) Hids Hf) as [H _].
    apply H. rewrite Hin. reflexivity.
  - destruct (cancel_cutoff Deluxe.env
                (JsDate.midnight Deluxe.march1 - 24 * JsDate.MS_PER_HOUR)
                Deluxe.withA 0 b None None (fun _ _ => eq_refl) Hids Hf) as [_ H].
    destruct H as (b' & st' & H1 & H2 & _ & _ & Hlater).
    + rewrite Hin. vm_compute. discriminate.
    + intros x _ _. reflexivity.
    + exists b', st'. split; [exact H1|]. split; [exact H2|].
      destruct (Hlater [Lifecycle.Create Deluxe.requestC]) as [_ Hread].
      { constructor; [exact I | constructor]. }
      exact (proj2 (proj2 (Hread 1%nat 0 0 None Deluxe.march1))).
Defined.

(** C6, as stated, fails: "thereafter" does not survive an update that
    writes a status. A is cancelled 24 hours before its check-in and no
    longer counts; [PUT /api/bookings/0] with [{ status: 'confirmed' }] is
    committed, and A is found by the conflict check and counted on the
    night of 03-01 again. *)
Lemma cancelled_stay_counted_again :
  (exists b,
     UpdateBookingController.cancelBooking Deluxe.env
       (JsDate.midnight Deluxe.march1 - 24 * JsDate.MS_PER_HOUR) Deluxe.withA 0 None None
     = (Http.BookingCancelled b, Deluxe.cancelledA)
     /\ Store.status b = Store.cancelled)
  /\ BookingValidationService.checkBookingConflict Deluxe.cancelledA 1
       (JsDate.midnight Deluxe.march1) (JsDate.midnight (Deluxe.march1 + 2)) None = None
  /\ Spec.nightLoad Deluxe.cancelledA 1 Deluxe.march1 = 0
  /\ (exists u,
        UpdateBookingController.updateBooking Deluxe.env Deluxe.cancelledA 0
          (Deluxe.setStatus Store.confirmed)
        = (Http.BookingUpdated (Some u), Deluxe.reactivatedA)
        /\ Store.status u = Store.confirmed)
  /\ is_Some (BookingValidationService.checkBookingConflict Deluxe.reactivatedA 1
                (JsDate.midnight Deluxe.march1) (JsDate.midnight (Deluxe.march1 + 2)) None)
  /\ Spec.nightLoad Deluxe.reactivatedA 1 Deluxe.march1 = 1
  /\ Spec.nightLoad (Store.Booking_deleteOne Deluxe.reactivatedA 0) 1 Deluxe.march1 = 0.
Proof.
  split; [eexists; vm_compute; split; reflexivity|].
  split; [vm_compute; reflexivity|].
  split; [vm_compute; reflexivity|].
  split; [eexists; vm_compute; split; reflexivity|].
  split; [vm_compute; eexists; reflexivity|].
  split; vm_compute; reflexivity.
Qed.

(** Creation keeps the inventory invariant. *)

Section CreatePreservesFacts.
Import JsDate Store Http Absent Occupancy Spec.

Lemma sumRooms_app l1 l2 : sumRooms (l1 ++ l2) = sumRooms l1 + sumRooms l2.
Proof.
  induction l1 as [|b l1 IH]; simpl; [reflexivity|].
  unfold sumRooms in *. simpl. rewrite IH. lia.
Qed.

Lemma dayCounter_le_peak l from to d :
  from <= midnight d < to -> atMidnight from -> atMidnight to ->
  dayCounter l d <= peakOccupancy l from to.
Proof.
  intros Hd Hf Ht. unfold peakOccupancy. apply maxOf_ge.
  apply list_elem_of_In, list_elem_of_fmap. exists d. split; [reflexivity|].
  unfold windowDays. apply elem_of_seqZ.
  rewrite (atMidnight_inv _ Hf), (atMidnight_inv _ Ht) in Hd.
  destruct Hd as [H1 H2].
  apply (proj1 (midnight_le _ _)) in H1. apply (proj1 (midnight_lt _ _)) in H2. lia.
Qed.

(** On a night of the window, the load of the room is the counter of the
    reservations read by the admission query. *)
Lemma nightLoad_in_window st roomId from to d :
  from <= midnight d < to ->
  nightLoad st roomId d
  = dayCounter (Booking_find st (overlapQuery roomId from to None)) d.
Proof.
  intros Hd. unfold nightLoad, dayCounter, Booking_find.
  induction (bookings st) as [|b l IH]; [reflexivity|].
  simpl. destruct (covers b d) eqn:Hc.
  - unfold covers in Hc. apply andb_true_iff in Hc as [H1 H2].
    apply bool_decide_eq_true in H1, H2.
    unfold overlapQuery.
    rewrite (bool_decide_eq_true_2 (checkIn b < to)) by lia.
    rewrite (bool_decide_eq_true_2 (checkOut b > from)) by lia.
    rewrite !andb_true_r.
    destruct (bool_decide (room b = roomId) && isActive b); simpl.
    + unfold covers. rewrite !bool_decide_eq_true_2 by lia. simpl.
      f_equal. exact IH.
    + exact IH.
  - rewrite andb_false_r. simpl.
    destruct (overlapQuery roomId from to None b); simpl; [rewrite Hc|]; exact IH.
Qed.

Lemma Room_findById_unique st roomId room r :
  NoDup (List.map r_id (rooms st)) ->
  Room_findById st roomId = Some room ->
  In r (rooms st) -> r_id r = roomId -> r = room.
Proof.
  unfold Room_findById. intros Hnd Hf Hin Hid.
  induction (rooms st) as [|x l IH]; [contradiction|].
  simpl in Hnd. inversion Hnd as [|? ? Hnin Hnd']; subst.
  simpl in Hf. case_bool_decide as Hx.
  - injection Hf as <-. destruct Hin as [->|Hin]; [reflexivity|].
    exfalso. apply Hnin. apply list_elem_of_In. rewrite Hx.
    apply in_map. exact Hin.
  - destruct Hin as [->|Hin]; [contradiction|]. apply IH; assumption.
Qed.

(** What the service stores when it succeeds: the stay and the count. *)
Lemma createBooking_service_stay env st data b st' :
  BookingService.createBooking env st data = inr (b, st') ->
  room b = BookingService.d_room data
  /\ checkIn b = BookingService.d_checkIn data
  /\ checkOut b = BookingService.d_checkOut data
  /\ numberOfRooms b = BookingService.d_numberOfRooms data
  /\ rooms st' = rooms st
  /\ bookings st' = bookings st ++ [b].
Proof.
  unfold BookingService.createBooking, BookingService.Booking_create.
  intros H. repeat case_match; simplify_eq. repeat split.
Qed.

(** The admission of the later controller keeps the invariant: when a
    request for a room count and a window of calendar days is confirmed
    over a store that satisfies the invariant, the new store satisfies
    it. *)
Lemma create_preserves_inventory env st req b st' from to n :
  q_numberOfRooms req = Some n ->
  Forall wellFormed (bookings st) ->
  NoDup (List.map r_id (rooms st)) ->
  inventoryInvariant st ->
  parseDate (q_checkIn req) = Some from -> parseDate (q_checkOut req) = Some to ->
  atMidnight from -> atMidnight to -> from < to ->
  CreateBookingLater.createBooking env st req = (BookingConfirmed b, st') ->
  inventoryInvariant st'.
Proof.
  intros Hn Hwf Hnd Hinv Hci Hco Hf Ht Hlt Hc.
  destruct (firstFailure (laterRules env st req)) as [r|] eqn:Hrules.
  { rewrite (createBooking_later_fails _ _ _ _ Hrules) in Hc.
    injection Hc as Hr _. exfalso.
    exact (rule_failure_not_confirmed _ _ _ _ b Hrules Hr). }
  destruct (createBooking_later_passes env st req Hrules)
    as (roomId & room & Hroom & Hfind & _ & Hc').
  rewrite Hc, Hci, Hco in Hc'. cbv zeta in Hc'.
  set (existing := Booking_find st (overlapQuery roomId from to None)) in *.
  destruct (js_lt (Some (availableRooms room existing)) (q_numberOfRooms req)) eqn:Hadm;
    [discriminate|].
  unfold BookingService.respond in Hc'.
  destruct (BookingService.createBooking env st
              (CreateBookingLater.bookingData req roomId from to))
    as [[]|[b0 st0]] eqn:Hs; try discriminate.
  injection Hc' as <- <-.
  destruct (createBooking_service_stay _ _ _ _ _ Hs)
    as (Hbr & Hbi & Hbo & Hbn & Hrooms & Hbookings).
  cbn [CreateBookingLater.bookingData BookingService.d_room BookingService.d_checkIn
       BookingService.d_checkOut BookingService.d_numberOfRooms] in *.
  assert (Hpeak : maxBookedRooms (bookingsPerDate existing) = peakOccupancy existing from to).
  { apply maxBookedRooms_peak; auto.
    - apply existing_wellFormed. exact Hwf.
    - apply existing_overlap. }
  intros r d Hr. rewrite Hrooms in Hr. specialize (Hinv r d Hr).
  unfold nightLoad in *. rewrite Hbookings, List.filter_app, sumRooms_app.
  simpl List.filter.
  destruct (bool_decide (Store.room b = r_id r) && isActive b && covers b d) eqn:Hnew;
    [|simpl; lia].
  apply andb_true_iff in Hnew as [Hnew Hcov].
  apply andb_true_iff in Hnew as [Hrid _]. apply bool_decide_eq_true in Hrid.
  assert (r = room) as ->.
  { eapply Room_findById_unique; eauto. congruence. }
  assert (Hd : from <= midnight d < to).
  { unfold covers in Hcov. apply andb_true_iff in Hcov as [H1 H2].
    apply bool_decide_eq_true in H1, H2. lia. }
  fold (nightLoad st (r_id room) d) in Hinv |- *.
  assert (Hid : r_id room = roomId) by congruence.
  rewrite Hid, (nightLoad_in_window st roomId from to d Hd) in Hinv |- *.
  fold existing in Hinv |- *.
  pose proof (dayCounter_le_peak existing from to d Hd Hf Ht) as Hle.
  unfold availableRooms in Hadm. rewrite Hpeak in Hadm.
  unfold sumRooms. simpl. unfold roomsRequested. rewrite Hbn.
  assert (Hnn : 0 <= dayCounter existing d)
    by (apply dayCounter_nonneg, existing_wellFormed; exact Hwf).
  clear Hpeak.
  set (peak := peakOccupancy existing from to) in *.
  set (load := dayCounter existing d) in *.
  clearbody peak load.
  rewrite Hn in *. simpl in *.
  apply bool_decide_eq_false in Hadm. lia.
Qed.

End CreatePreservesFacts.

(** The three requests that lead to the oversold store are all served
    successfully. *)
Example oversold_trace :
  exists a b u,
    fst (Lifecycle.serve Deluxe.env (Lifecycle.initial Deluxe.catalog)
           (Lifecycle.Create Deluxe.requestA)) = Http.BookingConfirmed a
    /\ fst (Lifecycle.serve Deluxe.env Deluxe.withA
              (Lifecycle.Create Deluxe.requestA)) = Http.BookingConfirmed b
    /\ fst (Lifecycle.serve Deluxe.env
              (Lifecycle.run Deluxe.env (Lifecycle.initial Deluxe.catalog)
                 [Lifecycle.Create Deluxe.requestA; Lifecycle.Create Deluxe.requestA])
              (Lifecycle.Update 0 (Deluxe.setRooms 2)))
       = Http.BookingUpdated (Some u)
    /\ Store.numberOfRooms u = Some 2.
Proof. eexists _, _, _. vm_compute. repeat split. Qed.

(** C1 at a failing input. With 2 Deluxe rooms, A is booked twice for 1
    room on 03-01 to 03-03, both admitted; an update then gives the first
    of them 2 rooms. No check is run on the room count, and the night of
    03-01 carries 3 rooms against a total of 2. *)
Theorem oversell_by_update :
  Lifecycle.reachable Deluxe.env Deluxe.catalog Deluxe.oversold
  /\ In Deluxe.deluxe (Store.rooms Deluxe.oversold)
  /\ Spec.nightLoad Deluxe.oversold (Store.r_id Deluxe.deluxe) Deluxe.march1 = 3
  /\ Store.totalRooms Deluxe.deluxe = 2
  /\ ~ Spec.inventoryInvariant Deluxe.oversold.
Proof.
  assert (Hload : Spec.nightLoad Deluxe.oversold (Store.r_id Deluxe.deluxe) Deluxe.march1 = 3)
    by (vm_compute; reflexivity).
  assert (Hin : In Deluxe.deluxe (Store.rooms Deluxe.oversold))
    by (vm_compute; auto).
  split; [eexists; reflexivity|].
  split; [exact Hin|]. split; [exact Hload|]. split; [reflexivity|].
  intros Hinv. specialize (Hinv Deluxe.deluxe Deluxe.march1 Hin).
  rewrite Hload in Hinv. vm_compute in Hinv. apply Hinv. reflexivity.
Qed.

(** * Further properties of the code *)

(** ** Nights and prices *)

(** X1. For two calendar dates at midnight UTC, [calculateNights] is the
    difference of the day numbers, whatever their order: the function has
    no guard, so equal dates give 0 and reversed dates a negative
    count. *)
Theorem nights_of_calendar_days (a b : Z) :
  Pricing.calculateNights (JsDate.midnight a) (JsDate.midnight b) = b - a.
Proof.
  rewrite calculateNights_div. unfold JsDate.midnight.
  replace (a * JsDate.MS_PER_DAY - b * JsDate.MS_PER_DAY)
    with ((a - b) * JsDate.MS_PER_DAY) by lia.
  rewrite Z.div_mul by discriminate. lia.
Qed.

(** X2. [calculateNights] is at least 1 exactly when check-out is after
    check-in; for check-out at or before check-in it answers 0 or a
    negative count instead of failing. *)
Theorem nights_positive_iff (checkIn checkOut : Z) :
  1 <= Pricing.calculateNights checkIn checkOut <-> checkIn < checkOut.
Proof.
  rewrite calculateNights_div.
  pose proof MS_PER_DAY_pos as Hd.
  pose proof (Z.div_mod (checkIn - checkOut) JsDate.MS_PER_DAY ltac:(lia)) as Hdm.
  pose proof (Z.mod_pos_bound (checkIn - checkOut) JsDate.MS_PER_DAY Hd) as Hb.
  set (q := (checkIn - checkOut) / JsDate.MS_PER_DAY) in *.
  split; intros H; nia.
Qed.

(** X3. With a whole nightly rate [p], a whole discount [d] (0 when
    absent) and no tax rate supplied, [calculatePricing] stays in whole
    currency units as long as p n and p n - d do not exceed 2^49 in
    magnitude: over [n] nights no step rounds, the tax is the integer
    quotient (12 (p n - d) + 50) / 100 and the total is p n - d plus that
    tax. *)
Theorem pricing_in_whole_units (checkIn checkOut p : Z) (discount : option Z) :
  let n := Pricing.calculateNights checkIn checkOut in
  let d := default 0 discount in
  Z.abs (p * n) <= 2 ^ 49 -> Z.abs (p * n - d) <= 2 ^ 49 ->
  let r := Pricing.calculatePricing
             {| Pricing.checkInDate := checkIn;
                Pricing.checkOutDate := checkOut;
                Pricing.p_pricePerNight := inject_Z p;
                Pricing.p_discountAmount := inject_Z <$> discount;
                Pricing.p_taxRate := None |} in
  Pricing.nights r = n
  /\ (Pricing.basePrice r == inject_Z (p * n))%Q
  /\ Pricing.taxAmount r = (12 * (p * n - d) + 50) / 100
  /\ (Pricing.totalPrice r == inject_Z (p * n - d + (12 * (p * n - d) + 50) / 100))%Q.
Proof.
  intros n d Hbase Hafter r.
  split; [reflexivity|].
  apply (calculatePricing_whole
           {| Pricing.checkInDate := checkIn;
              Pricing.checkOutDate := checkOut;
              Pricing.p_pricePerNight := inject_Z p;
              Pricing.p_discountAmount := inject_Z <$> discount;
              Pricing.p_taxRate := None |} p d);
    [reflexivity | | reflexivity | exact Hbase | exact Hafter].
  cbn [Pricing.p_discountAmount]. rewrite orDefault_zero.
  subst d. destruct discount; reflexivity.
Qed.

(** 2 nights at 3500 with 500 off: tax (12 x 6500 + 50) / 100 = 780. *)
Lemma pricing_in_whole_units_witness :
  Pricing.taxAmount
    (Pricing.calculatePricing
       {| Pricing.checkInDate := JsDate.midnight Deluxe.march1;
          Pricing.checkOutDate := JsDate.midnight (Deluxe.march1 + 2);
          Pricing.p_pricePerNight := inject_Z 3500;
          Pricing.p_discountAmount := inject_Z <$> Some 500;
          Pricing.p_taxRate := None |}) = 780.
Proof.
  refine (proj1 (proj2 (proj2
    (pricing_in_whole_units (JsDate.midnight Deluxe.march1)
       (JsDate.midnight (Deluxe.march1 + 2)) 3500 (Some 500) _ _))));
    vm_compute; discriminate.
Defined.

(** Past 2^53 the whole amounts are no longer all doubles: one night at
    2^53 + 1 has the base 2^53. *)
Example whole_units_bounded :
  let r := Pricing.calculatePricing (Deluxe.priced (inject_Z (2 ^ 53 + 1)) 1 None) in
  (Pricing.basePrice r == inject_Z (2 ^ 53))%Q
  /\ ~ (Pricing.basePrice r == inject_Z ((2 ^ 53 + 1) * 1))%Q.
Proof. vm_compute. split; [reflexivity | discriminate]. Qed.

(** ** Field and date validation *)

(** X4. [validateRequiredFields] accepts a body exactly when all seven
    required keys hold a truthy value; a guest count of 0 and an empty
    name, e-mail or phone count as missing. A rejection carries status
    400. *)
Theorem required_fields_all_truthy (data : Http.Request) :
  (Http.isValid (BookingValidationService.validateRequiredFields data) = true
   <-> Http.given (Http.q_room data) = true
       /\ Http.given (Http.q_checkIn data) = true
       /\ Http.given (Http.q_checkOut data) = true
       /\ Http.truthyZ (Http.q_guests data) = true
       /\ Http.truthyS (Http.q_guestName data) = true
       /\ Http.truthyS (Http.q_guestEmail data) = true
       /\ Http.truthyS (Http.q_guestPhone data) = true)
  /\ (Http.isValid (BookingValidationService.validateRequiredFields data) = false ->
      Http.statusCode (BookingValidationService.validateRequiredFields data) = Some 400)
  /\ (Http.q_guests data = Some 0 ->
      Http.isValid (BookingValidationService.validateRequiredFields data) = false).
Proof.
  unfold BookingValidationService.validateRequiredFields,
    BookingValidationService.missingFields.
  split; [|split].
  - destruct (Http.given (Http.q_room data)), (Http.given (Http.q_checkIn data)),
      (Http.given (Http.q_checkOut data)), (Http.truthyZ (Http.q_guests data)),
      (Http.truthyS (Http.q_guestName data)), (Http.truthyS (Http.q_guestEmail data)),
      (Http.truthyS (Http.q_guestPhone data)); simpl; intuition discriminate.
  - case_bool_decide; [reflexivity | discriminate].
  - intros ->. simpl.
    destruct (Http.given (Http.q_room data)), (Http.given (Http.q_checkIn data)),
      (Http.given (Http.q_checkOut data)); reflexivity.
Qed.

(** X5. On two calendar days, [validateDates] accepts exactly when
    check-out is after check-in and check-in is not before the day of the
    clock: a check-in today passes at any hour. The order is tested
    first: a reversed range is reported as such even when it lies in the
    past. An accepted pair is handed back as the two midnights. *)
Theorem validateDates_calendar_days (now a b : Z) :
  let r := BookingValidationService.validateDates now
             (Some (Http.IsoDay a)) (Some (Http.IsoDay b)) in
  (Http.isValid (fst (fst r)) = true <-> a < b /\ JsDate.isoDate now <= a)
  /\ (Http.isValid (fst (fst r)) = true ->
      snd (fst r) = Some (JsDate.midnight a) /\ snd r = Some (JsDate.midnight b))
  /\ (b <= a ->
      fst (fst r)
      = Http.invalid "Check-out date must be after check-in date" 400)
  /\ (a < b -> a < JsDate.isoDate now ->
      fst (fst r) = Http.invalid "Check-in date cannot be in the past" 400).
Proof.
  intros r. subst r.
  unfold BookingValidationService.validateDates. cbn [Http.parseDay].
  rewrite startOfDay_midnight.
  destruct (decide (b <= a)) as [Hba|Hba].
  - rewrite bool_decide_eq_true_2 by (apply midnight_le; exact Hba). simpl.
    repeat split; try discriminate; try tauto; lia.
  - rewrite bool_decide_eq_false_2 by (rewrite midnight_le; exact Hba).
    destruct (decide (a < JsDate.isoDate now)) as [Hpast|Hpast].
    + rewrite bool_decide_eq_true_2 by (apply midnight_lt; exact Hpast). simpl.
      repeat split; try discriminate; try tauto; lia.
    + rewrite bool_decide_eq_false_2 by (rewrite midnight_lt; exact Hpast). simpl.
      repeat split; try tauto; lia.
Qed.

(** X6. The earlier [createBooking] does not report a check-in that is
    no calendar day as a validation failure: every comparison with the
    invalid date is false, the date rule passes, the conflict query then
    throws, and the caller gets the 500 of the catch block with the store
    unchanged. *)
Theorem unparsable_checkIn_is_server_error
    (env : Absent.Env) (now : Z) (st : Store.State) (req : Http.Request) :
  Http.isValid (BookingValidationService.validateRequiredFields req) = true ->
  Http.isValid (fst (BookingValidationService.validateRoom st (Http.q_room req))) = true ->
  Http.parseDay (Http.q_checkIn req) = None ->
  Http.isValid
    (fst (fst (BookingValidationService.validateDates now
                 (Http.q_checkIn req) (Http.q_checkOut req)))) = true
  /\ CreateBookingEarlier.createBooking env now st req = (Http.ServerError, st).
Proof.
  intros Hreq Hroom Hparse.
  unfold CreateBookingEarlier.createBooking, BookingValidationService.validateDates.
  rewrite Hreq, Hroom, Hparse. cbn [negb].
  destruct (Http.parseDay (Http.q_checkOut req)); cbn; split; try reflexivity;
    destruct (Http.q_room req); reflexivity.
Qed.

Lemma unparsable_checkIn_is_server_error_witness :
  CreateBookingEarlier.createBooking Deluxe.env (JsDate.midnight Deluxe.march1)
    (Lifecycle.initial Deluxe.catalog) Deluxe.requestGarbledDate
  = (Http.ServerError, Lifecycle.initial Deluxe.catalog).
Proof.
  destruct (unparsable_checkIn_is_server_error Deluxe.env (JsDate.midnight Deluxe.march1)
              (Lifecycle.initial Deluxe.catalog) Deluxe.requestGarbledDate
              eq_refl eq_refl eq_refl) as [_ H].
  exact H.
Defined.

(** ** The availability probe *)

Section ProbeFacts.
Import JsDate Store Http BookingValidationService CheckAvailabilityController.

Lemma parseDay_Some s t :
  parseDay s = Some t -> exists d, s = Some (IsoDay d) /\ t = midnight d.
Proof.
  destruct s as [[d| |]|]; simpl; try discriminate.
  intros [= <-]. eauto.
Qed.

(** What an "available" answer of the probe went through. *)
Lemma checkAvailability_Available now st body room pricing ci co :
  checkAvailability now st body = Available room pricing ci co ->
  exists roomId,
    a_roomId body = Some roomId /\ Room_findById st roomId = Some room
    /\ isAvailable room = true
    /\ a_checkIn body = Some (IsoDay ci) /\ a_checkOut body = Some (IsoDay co)
    /\ ci < co /\ isoDate now <= ci
    /\ checkBookingConflict st roomId (midnight ci) (midnight co) None = None
    /\ pricing
       = Pricing.calculatePricing
           {| Pricing.checkInDate := midnight ci;
              Pricing.checkOutDate := midnight co;
              Pricing.p_pricePerNight := price room;
              Pricing.p_discountAmount := None;
              Pricing.p_taxRate := None |}.
Proof.
  unfold checkAvailability.
  destruct (negb (given (a_roomId body)) || _ || _); [discriminate|].
  destruct (isValid (fst (validateRoom st (a_roomId body)))) eqn:Er; cbn [negb];
    [|destruct (bool_decide _); discriminate].
  destruct (validateRoom_valid _ _ Er) as (roomId & room0 & Hr & Hf & Ha & Hv).
  rewrite Hv, Hr. cbn [snd].
  destruct (isValid (if truthyZ (a_guests body) then _ else valid)); cbn [negb];
    [|discriminate].
  destruct (isValid (fst (fst (validateDates now (a_checkIn body) (a_checkOut body)))))
    eqn:Ed; cbn [negb]; [|discriminate].
  destruct (snd (fst (validateDates now (a_checkIn body) (a_checkOut body))))
    as [ci'|] eqn:Eci; [|discriminate].
  destruct (snd (validateDates now (a_checkIn body) (a_checkOut body)))
    as [co'|] eqn:Eco; [|discriminate].
  assert (Hdays : exists a b,
            a_checkIn body = Some (IsoDay a) /\ a_checkOut body = Some (IsoDay b)
            /\ ci' = midnight a /\ co' = midnight b /\ a < b /\ isoDate now <= a).
  { unfold validateDates in Ed, Eci, Eco.
    destruct (parseDay (a_checkIn body)) as [t1|] eqn:P1;
      [|repeat case_match; simpl in *; discriminate].
    destruct (parseDay (a_checkOut body)) as [t2|] eqn:P2;
      [|repeat case_match; simpl in *; discriminate].
    apply parseDay_Some in P1 as (a & Ha1 & ->).
    apply parseDay_Some in P2 as (b & Hb1 & ->).
    exists a, b. rewrite startOfDay_midnight in *.
    repeat case_bool_decide; simpl in *; try discriminate.
    injection Eci as <-. injection Eco as <-.
    repeat split; auto.
    - apply midnight_lt. lia.
    - apply midnight_le. lia. }
  destruct Hdays as (a & b & Hci & Hco & -> & -> & Hab & Hnow).
  destruct (checkBookingConflict st roomId (midnight a) (midnight b) None) eqn:Ec;
    [discriminate|].
  intros [= <- <- <- <-]. rewrite !isoDate_midnight.
  exists roomId. repeat split; auto.
Qed.

Lemma checkBookingConflict_None st roomId from to excl :
  checkBookingConflict st roomId from to excl = None ->
  Booking_find st (overlapQuery roomId from to excl) = [].
Proof.
  unfold checkBookingConflict, Booking_findOne, Booking_find. intros H.
  apply filter_nil_none. intros b Hb. exact (find_none _ _ H b Hb).
Qed.

End ProbeFacts.

(** X7. When [checkAvailability] answers that a room is available, the
    room exists and is enabled, the two dates are calendar days with
    check-out after check-in and check-in not before today, no pending or
    confirmed reservation of the room overlaps them, and the quote is the
    room's own rate over the number of days between them, in double
    arithmetic: the base is the product rounded to the nearest double,
    there is no discount, the tax is [Math.round] of the double product of
    base and 0.12, and the total is the double sum of base and tax. For a
    whole rate with a base of at most 2^49 the quote is exact, the tax
    being the integer quotient (12 base + 50) / 100. *)
Theorem probe_quotes_room_rate
    (now : Z) (st : Store.State) (body : CheckAvailabilityController.ProbeBody)
    (room : Store.Room) (pricing : Pricing.PricingCalculation) (ci co : Z) :
  CheckAvailabilityController.checkAvailability now st body
  = CheckAvailabilityController.Available room pricing ci co ->
  CheckAvailabilityController.a_checkIn body = Some (Http.IsoDay ci)
  /\ CheckAvailabilityController.a_checkOut body = Some (Http.IsoDay co)
  /\ ci < co /\ JsDate.isoDate now <= ci
  /\ In room (Store.rooms st)
  /\ CheckAvailabilityController.a_roomId body = Some (Store.r_id room)
  /\ Store.isAvailable room = true
  /\ BookingValidationService.checkBookingConflict st (Store.r_id room)
       (JsDate.midnight ci) (JsDate.midnight co) None = None
  /\ Pricing.nights pricing = co - ci
  /\ Pricing.pricePerNight pricing = Store.price room
  /\ (Pricing.basePrice pricing
      == JsNumber.double (Store.price room * inject_Z (co - ci)))%Q
  /\ (Pricing.discountAmount pricing == 0)%Q
  /\ Pricing.taxAmount pricing
     = JsNumber.Math_round (JsNumber.mul (Pricing.basePrice pricing) Pricing.DEFAULT_TAX_RATE)
  /\ (Pricing.totalPrice pricing
      == JsNumber.add (Pricing.basePrice pricing) (inject_Z (Pricing.taxAmount pricing)))%Q
  /\ (forall p : Z,
        (Store.price room == inject_Z p)%Q -> Z.abs (p * (co - ci)) <= 2 ^ 49 ->
        (Pricing.basePrice pricing == inject_Z (p * (co - ci)))%Q
        /\ Pricing.taxAmount pricing = (12 * (p * (co - ci)) + 50) / 100
        /\ (Pricing.totalPrice pricing
            == inject_Z (p * (co - ci) + (12 * (p * (co - ci)) + 50) / 100))%Q).
Proof.
  intros H.
  destruct (checkAvailability_Available _ _ _ _ _ _ _ H)
    as (roomId & Hr & Hf & Ha & Hci & Hco & Hlt & Hnow & Hc & ->).
  unfold Store.Room_findById in Hf. apply find_some in Hf as [Hin Hid].
  apply bool_decide_eq_true in Hid. subst roomId.
  assert (Hn : Pricing.calculateNights (JsDate.midnight ci) (JsDate.midnight co) = co - ci).
  { rewrite calculateNights_div. unfold JsDate.midnight.
    replace (ci * JsDate.MS_PER_DAY - co * JsDate.MS_PER_DAY)
      with ((ci - co) * JsDate.MS_PER_DAY) by lia.
    rewrite Z.div_mul by discriminate. lia. }
  repeat (split; [assumption|]).
  set (params := {| Pricing.checkInDate := JsDate.midnight ci |}).
  assert (Hafter : (JsNumber.sub (Pricing.basePrice (Pricing.calculatePricing params)) 0
                    == Pricing.basePrice (Pricing.calculatePricing params))%Q).
  { cbn [Pricing.calculatePricing Pricing.basePrice]. unfold JsNumber.sub, JsNumber.mul.
    set (x := (Pricing.p_pricePerNight params * _)%Q).
    rewrite (double_comp (JsNumber.double x - 0) (JsNumber.double x)) by ring.
    apply double_idem. }
  split; [reflexivity|].
  split.
  { cbn [Pricing.calculatePricing Pricing.basePrice]. subst params.
    cbn [Pricing.checkInDate Pricing.checkOutDate Pricing.p_pricePerNight].
    rewrite Hn. reflexivity. }
  split; [reflexivity|].
  split.
  { cbn [Pricing.calculatePricing Pricing.taxAmount Pricing.basePrice] in *.
    apply Math_round_comp, mul_comp; [exact Hafter | reflexivity]. }
  split.
  { cbn [Pricing.calculatePricing Pricing.totalPrice Pricing.taxAmount
         Pricing.basePrice] in *.
    apply add_comp; [exact Hafter | reflexivity]. }
  intros p Hp Hb.
  pose proof (calculatePricing_whole params p 0 Hp (Qeq_refl _) eq_refl) as Hw.
  cbv zeta in Hw. subst params.
  cbn [Pricing.checkInDate Pricing.checkOutDate] in Hw. rewrite Hn in Hw.
  rewrite Z.sub_0_r in Hw. exact (Hw Hb Hb).
Qed.

(** With A booked until 03-03, the probe for 03-03 to 03-05 answers
    available and quotes 2 nights at 3500. *)
Lemma probe_quotes_room_rate_witness :
  exists room pricing,
    CheckAvailabilityController.checkAvailability (JsDate.midnight Deluxe.march1)
      Deluxe.withA (Deluxe.probe (Deluxe.march1 + 2) (Deluxe.march1 + 4))
    = CheckAvailabilityController.Available room pricing
        (Deluxe.march1 + 2) (Deluxe.march1 + 4)
    /\ Pricing.nights pricing = 2
    /\ Pricing.pricePerNight pricing = Store.price room.
Proof.
  destruct (CheckAvailabilityController.checkAvailability (JsDate.midnight Deluxe.march1)
              Deluxe.withA (Deluxe.probe (Deluxe.march1 + 2) (Deluxe.march1 + 4)))
    as [| | | | | |room pricing ci co|] eqn:E;
    try (vm_compute in E; discriminate).
  assert (Hd : ci = Deluxe.march1 + 2 /\ co = Deluxe.march1 + 4).
  { vm_compute in E. injection E as _ _ <- <-. split; reflexivity. }
  destruct Hd as [-> ->].
  destruct (probe_quotes_room_rate _ _ _ _ _ _ _ E)
    as (_ & _ & _ & _ & _ & _ & _ & _ & Hn & Hp & _).
  exists room, pricing. split; [reflexivity|]. split; [|exact Hp].
  rewrite Hn. reflexivity.
Defined.

(** X8. The probe and the earlier [createBooking] run the same room, date
    and conflict steps: for a request with all required fields and the
    probe's room and dates, a probe that answers "available" means the
    request reaches the insertion with that room and those days, a probe
    that reports a conflicting reservation means the request is refused
    with the same reservation, and a probe that rejects the room or the
    dates means the request gets the same validation error; in the three
    refusals the store is left as it is. *)
Theorem probe_agrees_with_earlier_create
    (env : Absent.Env) (now : Z) (st : Store.State)
    (body : CheckAvailabilityController.ProbeBody) (req : Http.Request) :
  Http.q_room req = CheckAvailabilityController.a_roomId body ->
  Http.q_checkIn req = CheckAvailabilityController.a_checkIn body ->
  Http.q_checkOut req = CheckAvailabilityController.a_checkOut body ->
  Http.isValid (BookingValidationService.validateRequiredFields req) = true ->
  match CheckAvailabilityController.checkAvailability now st body with
  | CheckAvailabilityController.Available room _ ci co =>
      CreateBookingEarlier.createBooking env now st req
      = BookingService.respond st
          (BookingService.createBooking_earlier env st
             (CreateBookingEarlier.bookingData req (Store.r_id room)
                (JsDate.midnight ci) (JsDate.midnight co)))
  | CheckAvailabilityController.NotAvailable conflicting _ =>
      CreateBookingEarlier.createBooking env now st req
      = (Http.DatesNotAvailable conflicting, st)
  | CheckAvailabilityController.DatesRejected response =>
      CreateBookingEarlier.createBooking env now st req = (response, st)
  | CheckAvailabilityController.ProbeRoomNotFound _
  | CheckAvailabilityController.RoomDisabled =>
      CreateBookingEarlier.createBooking env now st req
      = (Http.sendValidationError
           (fst (BookingValidationService.validateRoom st (Http.q_room req))), st)
  | _ => True
  end.
Proof.
  intros Hroom Hin Hout Hfields.
  unfold CheckAvailabilityController.checkAvailability, CreateBookingEarlier.createBooking.
  rewrite Hfields, Hroom, Hin, Hout. cbn [negb].
  destruct (negb (Http.given (CheckAvailabilityController.a_roomId body)) || _ || _);
    [exact I|].
  destruct (Http.isValid (fst (BookingValidationService.validateRoom st
              (CheckAvailabilityController.a_roomId body)))) eqn:Er; cbn [negb];
    [|destruct (bool_decide _); reflexivity].
  destruct (validateRoom_valid _ _ Er) as (roomId & room & Hr & Hf & Ha & Hv).
  rewrite Hv, Hr. cbn [snd].
  destruct (Http.isValid (if Http.truthyZ _ then _ else Http.valid)); cbn [negb];
    [|exact I].
  set (dv := BookingValidationService.validateDates now
               (CheckAvailabilityController.a_checkIn body)
               (CheckAvailabilityController.a_checkOut body)).
  destruct (Http.isValid (fst (fst dv))) eqn:Ed; cbn [negb]; [|reflexivity].
  destruct (snd (fst dv)) as [ci|] eqn:Eci; [|exact I].
  destruct (snd dv) as [co|] eqn:Eco; [|exact I].
  destruct (BookingValidationService.checkBookingConflict st roomId ci co None);
    [reflexivity|].
  assert (Hid : Store.r_id room = roomId).
  { unfold Store.Room_findById in Hf. apply find_some in Hf as [_ Hid].
    apply bool_decide_eq_true in Hid. exact Hid. }
  assert (Hmid : ci = JsDate.midnight (JsDate.isoDate ci)
                 /\ co = JsDate.midnight (JsDate.isoDate co)).
  { subst dv. unfold BookingValidationService.validateDates in Eci, Eco.
    destruct (Http.parseDay (CheckAvailabilityController.a_checkIn body)) as [t1|] eqn:P1;
      [|repeat case_match; simpl in *; discriminate].
    destruct (Http.parseDay (CheckAvailabilityController.a_checkOut body)) as [t2|] eqn:P2;
      [|repeat case_match; simpl in *; discriminate].
    apply parseDay_Some in P1 as (a & _ & ->).
    apply parseDay_Some in P2 as (b & _ & ->).
    repeat case_bool_decide; simpl in *; try discriminate.
    injection Eci as <-. injection Eco as <-.
    rewrite !isoDate_midnight. split; reflexivity. }
  destruct Hmid as [<- <-]. rewrite Hid. reflexivity.
Qed.

(** With A booked until 03-03, the probe for 03-02 to 03-04 reports A, and
    the request for those days is refused with A. *)
Lemma probe_agrees_with_earlier_create_witness :
  exists conflicting,
    head (Store.bookings Deluxe.withA) = Some conflicting
    /\ CreateBookingEarlier.createBooking Deluxe.env (JsDate.midnight Deluxe.march1)
         Deluxe.withA Deluxe.requestB
       = (Http.DatesNotAvailable conflicting, Deluxe.withA).
Proof.
  pose proof (probe_agrees_with_earlier_create Deluxe.env (JsDate.midnight Deluxe.march1)
                Deluxe.withA (Deluxe.probe (Deluxe.march1 + 1) (Deluxe.march1 + 3))
                Deluxe.requestB eq_refl eq_refl eq_refl eq_refl) as H.
  destruct (CheckAvailabilityController.checkAvailability (JsDate.midnight Deluxe.march1)
              Deluxe.withA (Deluxe.probe (Deluxe.march1 + 1) (Deluxe.march1 + 3)))
    as [| | | | |conflicting room| |] eqn:E;
    try (vm_compute in E; discriminate).
  exists conflicting. split; [|exact H].
  vm_compute in E. injection E as <- _. vm_compute. reflexivity.
Defined.

(** X9. When the probe answers "available" there is no pending or
    confirmed reservation of the room over the window, so the later
    [createBooking] counts every room of the type as free, and a request
    for the same room and days that passes its rules and asks for at most
    [totalRooms] rooms goes on to the insertion. *)
Theorem probe_available_then_later_books
    (env : Absent.Env) (now : Z) (st : Store.State)
    (body : CheckAvailabilityController.ProbeBody) (req : Http.Request)
    (room : Store.Room) (pricing : Pricing.PricingCalculation) (ci co n : Z) :
  CheckAvailabilityController.checkAvailability now st body
  = CheckAvailabilityController.Available room pricing ci co ->
  Http.q_room req = CheckAvailabilityController.a_roomId body ->
  Http.q_checkIn req = CheckAvailabilityController.a_checkIn body ->
  Http.q_checkOut req = CheckAvailabilityController.a_checkOut body ->
  Spec.firstFailure (Spec.laterRules env st req) = None ->
  Http.q_numberOfRooms req = Some n ->
  n <= Store.totalRooms room ->
  Store.Booking_find st
    (Store.overlapQuery (Store.r_id room) (JsDate.midnight ci) (JsDate.midnight co) None)
  = []
  /\ Occupancy.availableRooms room
       (Store.Booking_find st
          (Store.overlapQuery (Store.r_id room) (JsDate.midnight ci) (JsDate.midnight co)
             None))
     = Store.totalRooms room
  /\ CreateBookingLater.createBooking env st req
     = BookingService.respond st
         (BookingService.createBooking env st
            (CreateBookingLater.bookingData req (Store.r_id room)
               (JsDate.midnight ci) (JsDate.midnight co))).
Proof.
  intros H Hroom Hin Hout Hrules Hn Hle.
  destruct (checkAvailability_Available _ _ _ _ _ _ _ H)
    as (roomId & Hr & Hf & Ha & Hci & Hco & Hlt & Hnow & Hc & _).
  assert (Hid : Store.r_id room = roomId).
  { unfold Store.Room_findById in Hf. apply find_some in Hf as [_ Hid].
    apply bool_decide_eq_true in Hid. exact Hid. }
  rewrite Hid.
  pose proof (checkBookingConflict_None _ _ _ _ _ Hc) as Hnil.
  rewrite Hnil. split; [reflexivity|].
  assert (Hav : Occupancy.availableRooms room [] = Store.totalRooms room).
  { apply availableRooms_nil. }
  split; [exact Hav|].
  destruct (createBooking_later_passes env st req Hrules)
    as (roomId' & room' & Hr' & Hf' & _ & Hcreate).
  rewrite Hroom, Hr in Hr'. injection Hr' as <-.
  rewrite Hf in Hf'. injection Hf' as <-.
  rewrite Hin, Hout, Hci, Hco, Hn in Hcreate. cbn [Http.parseDate] in Hcreate.
  cbv zeta in Hcreate. rewrite Hnil, Hav in Hcreate.
  unfold Http.js_lt in Hcreate.
  rewrite bool_decide_eq_false_2 in Hcreate by lia. exact Hcreate.
Qed.

(** With A booked until 03-03, the probe for 03-03 to 03-05 answers
    available and request C for those days is booked. *)
Lemma probe_available_then_later_books_witness :
  exists booking,
    fst (CreateBookingLater.createBooking Deluxe.env Deluxe.withA Deluxe.requestC)
    = Http.BookingConfirmed booking.
Proof.
  destruct (CheckAvailabilityController.checkAvailability (JsDate.midnight Deluxe.march1)
              Deluxe.withA (Deluxe.probe (Deluxe.march1 + 2) (Deluxe.march1 + 4)))
    as [| | | | | |room pricing ci co|] eqn:E;
    try (vm_compute in E; discriminate).
  assert (Hd : room = Deluxe.deluxe /\ ci = Deluxe.march1 + 2 /\ co = Deluxe.march1 + 4).
  { vm_compute in E. injection E as <- _ <- <-. repeat split; reflexivity. }
  destruct Hd as (-> & -> & ->).
  destruct (probe_available_then_later_books Deluxe.env _ _ _ Deluxe.requestC _ _ _ _ 1
              E eq_refl eq_refl eq_refl eq_refl eq_refl)
    as (_ & _ & Hc).
  { vm_compute. discriminate. }
  rewrite Hc. vm_compute. eexists. reflexivity.
Defined.

(** ** Lifecycle of a reservation *)

Section LifecycleFacts.
Import JsDate Store Http Absent BookingValidationService Occupancy Spec Lifecycle Exclusive.

Lemma sendValidationError_not_confirmed v b :
  sendValidationError v <> BookingConfirmed b.
Proof. unfold sendValidationError. discriminate. Qed.

Lemma respond_confirmed st result b st' :
  BookingService.respond st result = (BookingConfirmed b, st') -> result = inr (b, st').
Proof.
  unfold BookingService.respond.
  destruct result as [[]|[b0 st0]]; intros H; simplify_eq. reflexivity.
Qed.

Lemma Booking_create_inr env st doc b st' :
  BookingService.Booking_create env st doc = inr (b, st') ->
  b = doc (nextId st) /\ schemaAccepts env b = true
  /\ st' = {| rooms := rooms st; bookings := bookings st ++ [b];
              nextId := S (nextId st) |}.
Proof.
  unfold BookingService.Booking_create.
  destruct (schemaAccepts env (doc (nextId st))) eqn:E; [|discriminate].
  intros [= <- <-]. auto.
Qed.

Lemma createBooking_later_confirmed env st req b st' :
  CreateBookingLater.createBooking env st req = (BookingConfirmed b, st') ->
  exists roomId room ci co,
    q_room req = Some roomId /\ Room_findById st roomId = Some room
    /\ isAvailable room = true
    /\ parseDate (q_checkIn req) = Some ci /\ parseDate (q_checkOut req) = Some co
    /\ js_lt (Some (availableRooms room
                      (Booking_find st (overlapQuery roomId ci co None))))
         (q_numberOfRooms req) = false
    /\ BookingService.createBooking env st
         (CreateBookingLater.bookingData req roomId ci co) = inr (b, st').
Proof.
  intros Hc.
  destruct (firstFailure (laterRules env st req)) as [r|] eqn:Hrules.
  { rewrite (createBooking_later_fails _ _ _ _ Hrules) in Hc.
    injection Hc as Hr _. exfalso.
    exact (rule_failure_not_confirmed _ _ _ _ b Hrules Hr). }
  destruct (createBooking_later_passes env st req Hrules)
    as (roomId & room & Hroom & Hfind & Ha & Hc').
  rewrite Hc in Hc'.
  destruct (parseDate (q_checkIn req)) as [ci|]; [|discriminate].
  destruct (parseDate (q_checkOut req)) as [co|]; [|discriminate].
  cbv zeta in Hc'.
  destruct (js_lt _ _) eqn:Hadm; [discriminate|].
  symmetry in Hc'. apply respond_confirmed in Hc'.
  exists roomId, room, ci, co. repeat split; auto.
Qed.

Lemma createBooking_later_unconfirmed env st req :
  (forall b, fst (CreateBookingLater.createBooking env st req) <> BookingConfirmed b) ->
  snd (CreateBookingLater.createBooking env st req) = st.
Proof.
  intros H.
  destruct (firstFailure (laterRules env st req)) as [r|] eqn:Hrules.
  { rewrite (createBooking_later_fails _ _ _ _ Hrules). reflexivity. }
  destruct (createBooking_later_passes env st req Hrules)
    as (roomId & room & _ & _ & _ & Hc).
  rewrite Hc in H |- *. clear Hc.
  destruct (parseDate (q_checkIn req)) as [ci|]; [|reflexivity].
  destruct (parseDate (q_checkOut req)) as [co|]; [|reflexivity].
  cbv zeta in H |- *.
  destruct (js_lt _ _); [reflexivity|].
  unfold BookingService.respond in H |- *.
  destruct (BookingService.createBooking _ _ _) as [e|[b st']].
  - destruct e; reflexivity.
  - exfalso. apply (H b). reflexivity.
Qed.

Lemma createBooking_earlier_confirmed env now st req b st' :
  CreateBookingEarlier.createBooking env now st req = (BookingConfirmed b, st') ->
  exists roomId ci co,
    q_room req = Some roomId
    /\ validateDates now (q_checkIn req) (q_checkOut req) = (valid, Some ci, Some co)
    /\ checkBookingConflict st roomId ci co None = None
    /\ BookingService.createBooking_earlier env st
         (CreateBookingEarlier.bookingData req roomId ci co) = inr (b, st').
Proof.
  unfold CreateBookingEarlier.createBooking.
  destruct (isValid (validateRequiredFields req)); cbn [negb];
    [|intros H; injection H as H _;
      destruct (sendValidationError_not_confirmed _ _ H)].
  destruct (isValid (fst (validateRoom st (q_room req)))); cbn [negb];
    [|intros H; injection H as H _;
      destruct (sendValidationError_not_confirmed _ _ H)].
  destruct (validateDates now (q_checkIn req) (q_checkOut req))
    as [[v oci] oco] eqn:Ed. cbn [fst snd].
  destruct (isValid v) eqn:Ev; cbn [negb];
    [|intros H; injection H as H _;
      destruct (sendValidationError_not_confirmed _ _ H)].
  destruct (q_room req) as [roomId|]; [|discriminate].
  destruct oci as [ci|]; [|discriminate].
  destruct oco as [co|]; [|discriminate].
  destruct (checkBookingConflict st roomId ci co None) eqn:Hc; [discriminate|].
  intros H. apply respond_confirmed in H.
  exists roomId, ci, co. repeat split; auto.
  unfold validateDates in Ed.
  repeat case_match; simplify_eq; reflexivity.
Qed.




Lemma checkBookingConflict_None_no_overlap st roomId from to excl y :
  checkBookingConflict st roomId from to excl = None ->
  In y (bookings st) -> room y = roomId -> isActive y = true ->
  (forall id, excl = Some id -> b_id y <> id) ->
  ~ (checkIn y < to /\ checkOut y > from).
Proof.
  intros Hc Hin Hr Ha Hid [H1 H2].
  assert (Hs : is_Some (checkBookingConflict st roomId from to excl)).
  { apply checkBookingConflict_is_Some. exists y. repeat split; auto. }
  rewrite Hc in Hs. destruct Hs as [? Hs]. discriminate.
Qed.

Lemma sumRooms_cons b l : sumRooms (b :: l) = roomsRequested b + sumRooms l.
Proof. reflexivity. Qed.

Lemma sumRooms_filter_nonneg q l :
  Forall (fun b => 0 <= roomsRequested b) l -> 0 <= sumRooms (List.filter q l).
Proof.
  induction 1 as [|x l Hx Hl IH]; simpl; [unfold sumRooms; simpl; lia|].
  destruct (q x); [rewrite sumRooms_cons; lia | exact IH].
Qed.

Lemma sumRooms_filter_filter q p l :
  Forall (fun b => 0 <= roomsRequested b) l ->
  sumRooms (List.filter q (List.filter p l)) <= sumRooms (List.filter q l).
Proof.
  induction 1 as [|x l Hx Hl IH]; simpl; [lia|].
  destruct (p x); simpl; destruct (q x); rewrite ?sumRooms_cons; lia.
Qed.

Lemma sumRooms_filter_replaceById q id b' l :
  q b' = false ->
  Forall (fun b => 0 <= roomsRequested b) l ->
  sumRooms (List.filter q (replaceById id (fun _ => b') l))
  <= sumRooms (List.filter q l).
Proof.
  intros Hq. induction 1 as [|x l Hx Hl IH]; simpl; [lia|].
  case_bool_decide; simpl.
  - rewrite Hq. destruct (q x); rewrite ?sumRooms_cons; lia.
  - destruct (q x); rewrite ?sumRooms_cons; lia.
Qed.

(** A confirmation of the later controller keeps the inventory
    invariant and the form of the reservations, whatever the window. *)
Lemma create_step_keeps_inventory
    (env : Absent.Env) (st st' : Store.State) (req : Http.Request)
    (b : Store.Booking) (from to n : Z) :
  Http.q_numberOfRooms req = Some n -> 1 <= n ->
  Forall Spec.wellFormed (Store.bookings st) ->
  NoDup (List.map Store.r_id (Store.rooms st)) ->
  Spec.inventoryInvariant st ->
  Http.parseDate (Http.q_checkIn req) = Some from ->
  Http.parseDate (Http.q_checkOut req) = Some to ->
  JsDate.atMidnight from -> JsDate.atMidnight to ->
  CreateBookingLater.createBooking env st req = (Http.BookingConfirmed b, st') ->
  Spec.inventoryInvariant st'
  /\ Forall Spec.wellFormed (Store.bookings st')
  /\ NoDup (List.map Store.r_id (Store.rooms st')).
Proof.
  intros Hn Hpos Hwf Hnd Hinv Hci Hco Hf Ht Hc.
  destruct (createBooking_later_confirmed _ _ _ _ _ Hc)
    as (roomId & room & ci & co & _ & _ & _ & Hci' & Hco' & _ & Hs).
  rewrite Hci in Hci'. injection Hci' as <-.
  rewrite Hco in Hco'. injection Hco' as <-.
  destruct (createBooking_service_stay _ _ _ _ _ Hs)
    as (_ & Hbi & Hbo & Hbn & Hrooms & Hbookings).
  cbn [CreateBookingLater.bookingData BookingService.d_checkIn
       BookingService.d_checkOut BookingService.d_numberOfRooms] in *.
  split; [|split].
  - destruct (decide (from < to)) as [Hlt|Hge].
    + exact (create_preserves_inventory env st req b st' from to n
               Hn Hwf Hnd Hinv Hci Hco Hf Ht Hlt Hc).
    + intros r d Hr. rewrite Hrooms in Hr. specialize (Hinv r d Hr).
      unfold Spec.nightLoad in *. rewrite Hbookings, List.filter_app.
      assert (Hcov : Spec.covers b d = false).
      { unfold Spec.covers. rewrite Hbi, Hbo.
        destruct (decide (from <= JsDate.midnight d)).
        - rewrite (bool_decide_eq_false_2 (JsDate.midnight d < to)) by lia.
          apply andb_false_r.
        - rewrite (bool_decide_eq_false_2 (from <= JsDate.midnight d)) by assumption.
          reflexivity. }
      simpl List.filter. rewrite Hcov, andb_false_r, app_nil_r. exact Hinv.
  - rewrite Hbookings. apply Forall_app. split; [exact Hwf|].
    constructor; [|constructor].
    unfold Spec.wellFormed, Spec.roomsRequested.
    rewrite Hbi, Hbo, Hbn, Hn. simpl. auto.
  - rewrite Hrooms. exact Hnd.
Qed.

Lemma nonneg_of_wellFormed l :
  Forall wellFormed l -> Forall (fun b => 0 <= roomsRequested b) l.
Proof.
  intros H. eapply Forall_impl; [exact H|].
  intros b Hb. simpl. pose proof (roomsRequested_pos _ Hb). lia.
Qed.

Lemma cancel_step_load env now st id userId reason roomId d :
  Forall (fun b => 0 <= roomsRequested b) (bookings st) ->
  nightLoad (snd (UpdateBookingController.cancelBooking env now st id userId reason))
    roomId d
  <= nightLoad st roomId d.
Proof.
  intros Hnn.
  unfold UpdateBookingController.cancelBooking, BookingService.cancelBooking.
  destruct (Booking_findById st id) as [b|]; [|simpl; lia].
  destruct (canBeCancelled env now b); cbn [negb]; [|simpl; lia].
  destruct (schemaAccepts env _); [|simpl; lia].
  cbn [snd]. unfold nightLoad, Booking_save. cbn [bookings].
  apply sumRooms_filter_replaceById; [|exact Hnn].
  unfold isActive. cbn [status]. rewrite andb_false_r. reflexivity.
Qed.

Lemma delete_step_load st id roomId d :
  Forall (fun b => 0 <= roomsRequested b) (bookings st) ->
  nightLoad (snd (UpdateBookingController.deleteBooking st id)) roomId d
  <= nightLoad st roomId d.
Proof.
  intros Hnn.
  unfold UpdateBookingController.deleteBooking, BookingService.deleteBooking.
  destruct (Booking_findById st id) as [b|]; [|simpl; lia].
  cbn [snd]. unfold nightLoad, Booking_deleteOne. cbn [bookings].
  apply sumRooms_filter_filter. exact Hnn.
Qed.

Lemma cancel_step_rooms env now st id userId reason :
  rooms (snd (UpdateBookingController.cancelBooking env now st id userId reason))
  = rooms st.
Proof.
  unfold UpdateBookingController.cancelBooking, BookingService.cancelBooking.
  repeat case_match; simplify_eq; reflexivity.
Qed.

Lemma delete_step_rooms st id :
  rooms (snd (UpdateBookingController.deleteBooking st id)) = rooms st.
Proof.
  unfold UpdateBookingController.deleteBooking, BookingService.deleteBooking.
  repeat case_match; simplify_eq; reflexivity.
Qed.

Lemma Forall_replaceById (P : Booking -> Prop) id b' l :
  Forall P l -> P b' -> Forall P (replaceById id (fun _ => b') l).
Proof.
  intros Hl Hb. induction Hl as [|x l Hx Hl IH]; simpl; [constructor|].
  case_bool_decide; constructor; auto.
Qed.

Lemma cancel_step_wellFormed env now st id userId reason :
  Forall wellFormed (bookings st) ->
  Forall wellFormed
    (bookings (snd (UpdateBookingController.cancelBooking env now st id userId reason))).
Proof.
  intros Hwf.
  unfold UpdateBookingController.cancelBooking, BookingService.cancelBooking.
  destruct (Booking_findById st id) as [b|] eqn:Hf; [|exact Hwf].
  destruct (canBeCancelled env now b); cbn [negb]; [|exact Hwf].
  destruct (schemaAccepts env _); [|exact Hwf].
  cbn [snd]. unfold Booking_save. cbn [bookings].
  apply Forall_replaceById; [exact Hwf|].
  apply Booking_findById_Some in Hf as [Hin _].
  rewrite Forall_forall in Hwf. apply list_elem_of_In, Hwf in Hin.
  exact Hin.
Qed.

Lemma delete_step_wellFormed st id :
  Forall wellFormed (bookings st) ->
  Forall wellFormed (bookings (snd (UpdateBookingController.deleteBooking st id))).
Proof.
  intros Hwf.
  unfold UpdateBookingController.deleteBooking, BookingService.deleteBooking.
  destruct (Booking_findById st id) as [b|]; [|exact Hwf].
  cbn [snd]. unfold Booking_deleteOne. cbn [bookings].
  rewrite Forall_forall in *. intros x Hx.
  apply list_elem_of_In, filter_In in Hx as [Hx _].
  apply Hwf, list_elem_of_In. exact Hx.
Qed.

End LifecycleFacts.

(** X10. The later [createBooking] is all or nothing. Either it answers
    with something other than a confirmation and the store is left as it
    was, or it confirms a reservation and the store is the old one with
    that reservation appended: the reservation carries the fresh [_id],
    status confirmed, no cancellation mark, the room, the dates and the
    room count of the request, the room exists and is enabled, and the
    schema accepted the document. *)
Theorem later_create_all_or_nothing
    (env : Absent.Env) (st : Store.State) (req : Http.Request) :
  (snd (CreateBookingLater.createBooking env st req) = st
   /\ forall b, fst (CreateBookingLater.createBooking env st req)
                <> Http.BookingConfirmed b)
  \/ exists b,
       CreateBookingLater.createBooking env st req
       = (Http.BookingConfirmed b,
          {| Store.rooms := Store.rooms st;
             Store.bookings := Store.bookings st ++ [b];
             Store.nextId := S (Store.nextId st) |})
       /\ Store.b_id b = Store.nextId st
       /\ Store.status b = Store.confirmed
       /\ Store.cancelledAt b = None
       /\ Http.q_room req = Some (Store.room b)
       /\ Http.parseDate (Http.q_checkIn req) = Some (Store.checkIn b)
       /\ Http.parseDate (Http.q_checkOut req) = Some (Store.checkOut b)
       /\ Store.numberOfRooms b = Http.q_numberOfRooms req
       /\ (exists room,
             Store.Room_findById st (Store.room b) = Some room
             /\ Store.isAvailable room = true)
       /\ Absent.schemaAccepts env b = true.
Proof.
  destruct (CreateBookingLater.createBooking env st req) as [r st'] eqn:E.
  assert (Hcases : (forall b, r <> Http.BookingConfirmed b)
                   \/ exists b, r = Http.BookingConfirmed b).
  { destruct r; eauto; left; intros; discriminate. }
  destruct Hcases as [Hn|[b ->]].
  - left. split; [|exact Hn].
    pose proof (createBooking_later_unconfirmed env st req) as H.
    rewrite E in H. apply H. exact Hn.
  - right. exists b.
    destruct (createBooking_later_confirmed _ _ _ _ _ E)
      as (roomId & room & ci & co & Hroom & Hfind & Ha & Hci & Hco & _ & Hs).
    unfold BookingService.createBooking in Hs.
    destruct (BookingService.d_guestName _); [|discriminate].
    destruct (BookingService.d_guestEmail _); [|discriminate].
    destruct (BookingService.d_guestPhone _); [|discriminate].
    apply Booking_create_inr in Hs as (Hb & Hschema & ->).
    assert (Hfields : Store.b_id b = Store.nextId st
                      /\ Store.status b = Store.confirmed
                      /\ Store.cancelledAt b = None
                      /\ Store.room b = roomId
                      /\ Store.checkIn b = ci /\ Store.checkOut b = co
                      /\ Store.numberOfRooms b = Http.q_numberOfRooms req).
    { rewrite Hb. cbn. repeat split. }
    destruct Hfields as (H1 & H2 & H3 & H4 & H5 & H6 & H7).
    rewrite Hroom, Hci, Hco, H4, H5, H6.
    repeat (split; [first [reflexivity | assumption]|]).
    split; [|exact Hschema].
    exists room. auto.
Qed.

(** X11. The earlier [createBooking] keeps a room for one reservation at
    a time: over a store with distinct [_id]s in which no two pending or
    confirmed reservations of one room overlap, a confirmation leaves a
    store with the same two properties, and the confirmed window begins
    before it ends. *)
Theorem earlier_create_keeps_rooms_exclusive
    (env : Absent.Env) (now : Z) (st st' : Store.State) (req : Http.Request)
    (b : Store.Booking) :
  Lifecycle.idsFresh st ->
  Exclusive.noDoubleBooking st ->
  CreateBookingEarlier.createBooking env now st req = (Http.BookingConfirmed b, st') ->
  Exclusive.noDoubleBooking st' /\ Lifecycle.idsFresh st'
  /\ Store.checkIn b < Store.checkOut b.
Proof.
  intros Hids Hex Hc.
  destruct (createBooking_earlier_confirmed _ _ _ _ _ _ Hc)
    as (roomId & ci & co & _ & Hdates & Hconf & Hs).
  unfold BookingService.createBooking_earlier in Hs.
  destruct (BookingService.d_guestName _); [|discriminate].
  destruct (BookingService.d_guestEmail _); [|discriminate].
  destruct (BookingService.d_guestPhone _); [|discriminate].
  assert (Hids' : Lifecycle.idsFresh st').
  { eapply idsFresh_create; [|exact Hs|exact Hids]. reflexivity. }
  apply Booking_create_inr in Hs as (Hb & _ & ->).
  assert (Hfields : Store.b_id b = Store.nextId st /\ Store.room b = roomId
                    /\ Store.checkIn b = ci /\ Store.checkOut b = co
                    /\ Store.isActive b = true).
  { rewrite Hb. cbn. repeat split. }
  destruct Hfields as (Hid & Hr & Hi & Ho & Hact).
  assert (Hold : forall x, In x (Store.bookings st) -> Store.b_id x <> Store.b_id b).
  { intros x Hx. destruct Hids as [_ Hlt]. rewrite Forall_forall in Hlt.
    apply list_elem_of_In, Hlt in Hx. lia. }
  assert (Hfree : forall x, In x (Store.bookings st) -> Store.room x = Store.room b ->
                    Store.isActive x = true ->
                    ~ (Store.checkIn x < Store.checkOut b
                       /\ Store.checkOut x > Store.checkIn b)).
  { intros x Hx Hxr Hxa. rewrite Hi, Ho.
    apply (checkBookingConflict_None_no_overlap st roomId ci co None x Hconf Hx);
      [congruence | exact Hxa | discriminate]. }
  split; [|split; [exact Hids'|]].
  - intros x y Hx Hy Hne Hroom Hxa Hya [H1 H2]. cbn [Store.bookings] in Hx, Hy.
    apply in_app_or in Hx as [Hx|[<-|[]]]; apply in_app_or in Hy as [Hy|[<-|[]]].
    + exact (Hex x y Hx Hy Hne Hroom Hxa Hya (conj H1 H2)).
    + apply (Hfree x Hx Hroom Hxa). lia.
    + apply (Hfree y Hy (eq_sym Hroom) Hya). lia.
    + apply Hne. reflexivity.
  - rewrite Hi, Ho. clear Hb.
    unfold BookingValidationService.validateDates in Hdates.
    destruct (Http.parseDay (Http.q_checkIn req)) as [t1|];
      [|repeat case_match; discriminate].
    destruct (Http.parseDay (Http.q_checkOut req)) as [t2|];
      [|repeat case_match; discriminate].
    repeat case_bool_decide; simplify_eq. lia.
Qed.

(** With A (03-01 to 03-03) and D (03-05 to 03-07) booked, request C
    (03-03 to 03-05) sent on 2025-03-01 is confirmed between them, and no
    two of the three reservations overlap. *)
Lemma earlier_create_keeps_rooms_exclusive_witness :
  exists b st',
    CreateBookingEarlier.createBooking Deluxe.env (JsDate.midnight Deluxe.march1)
      Deluxe.withAD Deluxe.requestC
    = (Http.BookingConfirmed b, st')
    /\ length (Store.bookings st') = 3%nat
    /\ Exclusive.noDoubleBooking st'
    /\ Store.checkIn b < Store.checkOut b.
Proof.
  destruct (CreateBookingEarlier.createBooking Deluxe.env (JsDate.midnight Deluxe.march1)
              Deluxe.withAD Deluxe.requestC) as [r st'] eqn:E.
  destruct r; try (vm_compute in E; discriminate).
  assert (Hlen : length (Store.bookings st') = 3%nat).
  { vm_compute in E. injection E as _ <-. reflexivity. }
  assert (Hids : Lifecycle.idsFresh Deluxe.withAD).
  { split.
    - let l := eval vm_compute in (List.map Store.b_id (Store.bookings Deluxe.withAD)) in
      change (NoDup l).
      apply (bool_decide_unpack _). vm_compute. exact I.
    - let l := eval vm_compute in (Store.bookings Deluxe.withAD) in
      change (Forall (fun x => (Store.b_id x < 2)%nat) l).
      repeat constructor. }
  assert (Hex : Exclusive.noDoubleBooking Deluxe.withAD).
  { intros x y Hx Hy Hne _ _ _ [H1 H2].
    vm_compute in Hx, Hy.
    destruct Hx as [<-|[<-|[]]]; destruct Hy as [<-|[<-|[]]];
      try (apply Hne; reflexivity); vm_compute in H1, H2; discriminate. }
  destruct (earlier_create_keeps_rooms_exclusive Deluxe.env _ _ st' _ booking Hids Hex E)
    as (Hex' & _ & Hlt).
  exists booking, st'. repeat split; assumption.
Defined.



(** X13. Cancelling and deleting only release rooms: over a store whose
    reservations ask for no negative room count, after [cancelBooking] and
    after [deleteBooking] the rooms committed on any night of any room
    type are at most what they were, the rooms of the catalog are the
    same, and so the inventory invariant, if it held, still holds. *)
Theorem cancel_and_delete_release_rooms
    (env : Absent.Env) (now : Z) (st : Store.State) (id : nat)
    (userId : option nat) (reason : option string) :
  Forall (fun b => 0 <= Spec.roomsRequested b) (Store.bookings st) ->
  let cancelled :=
    snd (UpdateBookingController.cancelBooking env now st id userId reason) in
  let deleted := snd (UpdateBookingController.deleteBooking st id) in
  (forall roomId d, Spec.nightLoad cancelled roomId d <= Spec.nightLoad st roomId d)
  /\ (forall roomId d, Spec.nightLoad deleted roomId d <= Spec.nightLoad st roomId d)
  /\ Store.rooms cancelled = Store.rooms st
  /\ Store.rooms deleted = Store.rooms st
  /\ (Spec.inventoryInvariant st ->
      Spec.inventoryInvariant cancelled /\ Spec.inventoryInvariant deleted).
Proof.
  intros Hnn cancelled deleted.
  pose proof (fun roomId d =>
                cancel_step_load env now st id userId reason roomId d Hnn) as Hc.
  pose proof (fun roomId d => delete_step_load st id roomId d Hnn) as Hd.
  pose proof (cancel_step_rooms env now st id userId reason) as Hrc.
  pose proof (delete_step_rooms st id) as Hrd.
  fold cancelled in Hc, Hrc. fold deleted in Hd, Hrd.
  repeat (split; [assumption|]).
  intros Hinv. split; intros r d Hr.
  - rewrite Hrc in Hr. specialize (Hinv r d Hr). specialize (Hc (Store.r_id r) d). lia.
  - rewrite Hrd in Hr. specialize (Hinv r d Hr). specialize (Hd (Store.r_id r) d). lia.
Qed.

(** With A booked, deleting A frees the night of 03-01. *)
Lemma cancel_and_delete_release_rooms_witness :
  Spec.nightLoad (snd (UpdateBookingController.deleteBooking Deluxe.withA 0)) 1
    Deluxe.march1
  <= Spec.nightLoad Deluxe.withA 1 Deluxe.march1.
Proof.
  assert (Hnn : Forall (fun b => 0 <= Spec.roomsRequested b)
                  (Store.bookings Deluxe.withA)).
  { let l := eval vm_compute in (Store.bookings Deluxe.withA) in
    change (Forall (fun b => 0 <= Spec.roomsRequested b) l).
    repeat constructor. vm_compute. discriminate. }
  exact (proj1 (proj2 (cancel_and_delete_release_rooms Deluxe.env 0 Deluxe.withA 0
                         None None Hnn)) 1%nat Deluxe.march1).
Defined.

(** X14. [deleteBooking] removes the reservation with the given [_id] and
    nothing else. When no reservation has the id the answer is 404 and
    the store is left as it was. Otherwise the answer is 200, whatever
    the status and the dates of the reservation; the store keeps exactly
    the reservations with another id, in their order, the catalog and the
    source of ids are untouched, and a second deletion of the id answers
    404. *)
Theorem deleteBooking_removes_only_target (st : Store.State) (id : nat) :
  match Store.Booking_findById st id with
  | None => UpdateBookingController.deleteBooking st id = (Http.BookingNotFound, st)
  | Some _ =>
      exists st',
        UpdateBookingController.deleteBooking st id = (Http.BookingDeleted, st')
        /\ Store.rooms st' = Store.rooms st
        /\ Store.nextId st' = Store.nextId st
        /\ Store.bookings st'
           = List.filter (fun b => negb (bool_decide (Store.b_id b = id)))
               (Store.bookings st)
        /\ (forall b, In b (Store.bookings st')
                      <-> In b (Store.bookings st) /\ Store.b_id b <> id)
        /\ Store.Booking_findById st' id = None
        /\ UpdateBookingController.deleteBooking st' id = (Http.BookingNotFound, st')
  end.
Proof.
  unfold UpdateBookingController.deleteBooking, BookingService.deleteBooking.
  destruct (Store.Booking_findById st id) as [b|] eqn:Hf; [|reflexivity].
  eexists. split; [reflexivity|].
  split; [reflexivity|]. split; [reflexivity|]. split; [reflexivity|].
  assert (Hin : forall b0,
            In b0 (Store.bookings (Store.Booking_deleteOne st id))
            <-> In b0 (Store.bookings st) /\ Store.b_id b0 <> id).
  { intros b0. unfold Store.Booking_deleteOne. cbn [Store.bookings].
    rewrite filter_In, negb_true_iff, bool_decide_eq_false. reflexivity. }
  split; [exact Hin|].
  assert (Hnone : Store.Booking_findById (Store.Booking_deleteOne st id) id = None).
  { unfold Store.Booking_findById.
    destruct (List.find _ _) as [x|] eqn:Hx; [|reflexivity].
    apply find_some in Hx as [Hx Hid]. apply bool_decide_eq_true in Hid.
    apply Hin in Hx as [_ Hne]. contradiction. }
  split; [exact Hnone|]. rewrite Hnone. reflexivity.
Qed.

(** ** Rooms and the calendar *)

Section RoomFacts.
Import JsDate Store Http BookingValidationService Spec RoomController.

(** For a reservation dated at midnight, covering the night of day [k] is
    overlapping the one-night window that begins on day [k]. *)
Lemma covers_one_night b k :
  atMidnight (checkIn b) -> atMidnight (checkOut b) ->
  covers b k = true
  <-> checkIn b < midnight (k + 1) /\ checkOut b > midnight k.
Proof.
  intros Hi Ho. unfold covers.
  rewrite andb_true_iff, !bool_decide_eq_true.
  rewrite (atMidnight_inv _ Hi), (atMidnight_inv _ Ho).
  rewrite midnight_le. split.
  - intros [H1 H2]. split; [apply midnight_lt; lia | lia].
  - intros [H1 H2]. apply (proj1 (midnight_lt _ _)) in H1. split; lia.
Qed.

Lemma find_replaceRoom id room' l :
  (exists r, In r l /\ r_id r = id) -> r_id room' = id ->
  List.find (fun r => bool_decide (r_id r = id)) (replaceRoom id room' l) = Some room'.
Proof.
  intros (r & Hin & Hr) Hid. induction l as [|y l IH]; [contradiction|].
  simpl. case_bool_decide as Hy; simpl.
  - rewrite bool_decide_eq_true_2 by exact Hid. reflexivity.
  - rewrite bool_decide_eq_false_2 by exact Hy.
    apply IH. destruct Hin as [->|Hin]; [contradiction | exact Hin].
Qed.

Lemma NoDup_room_ids_tail x l :
  NoDup (List.map r_id (x :: l)) ->
  NoDup (List.map r_id l) /\ forall y, In y l -> r_id y <> r_id x.
Proof.
  simpl. intros H. inversion H as [|? ? Hnin Hnd]; subst. split; [exact Hnd|].
  intros y Hy E. apply Hnin. apply list_elem_of_In. rewrite <- E.
  apply in_map. exact Hy.
Qed.

(** With distinct ids, once the room with the id is replaced by a
    disabled one no enabled room has the id. *)
Lemma find_enabled_replaceRoom id room' l :
  NoDup (List.map r_id l) -> isAvailable room' = false ->
  List.find (fun r => bool_decide (r_id r = id) && isAvailable r)
    (replaceRoom id room' l) = None.
Proof.
  intros Hnd Hoff. induction l as [|y l IH]; [reflexivity|].
  destruct (NoDup_room_ids_tail _ _ Hnd) as [Hnd' Hother].
  simpl. case_bool_decide as Hy; simpl.
  - rewrite Hoff, andb_false_r.
    destruct (List.find _ l) as [z|] eqn:Hz; [|reflexivity].
    apply find_some in Hz as [Hz Hq]. apply andb_true_iff in Hq as [Hq _].
    apply bool_decide_eq_true in Hq. exfalso.
    apply (Hother z Hz). congruence.
  - rewrite bool_decide_eq_false_2 by exact Hy. simpl. apply IH. exact Hnd'.
Qed.

Lemma replaceRoom_back id room room' l :
  List.find (fun r => bool_decide (r_id r = id)) l = Some room ->
  r_id room' = id ->
  replaceRoom id room (replaceRoom id room' l) = l.
Proof.
  intros Hf Hid. induction l as [|y l IH]; [discriminate|].
  simpl in Hf |- *. case_bool_decide as Hy; simpl.
  - injection Hf as ->. rewrite bool_decide_eq_true_2 by exact Hid. reflexivity.
  - rewrite bool_decide_eq_false_2 by exact Hy. f_equal. apply IH. exact Hf.
Qed.

Lemma find_removed id (l : list Room) :
  List.find (fun r => bool_decide (r_id r = id))
    (List.filter (fun r => negb (bool_decide (r_id r = id))) l) = None.
Proof.
  destruct (List.find _ _) as [x|] eqn:Hx; [|reflexivity].
  apply find_some in Hx as [Hx Hid]. apply filter_In in Hx as [_ Hne].
  rewrite Hid in Hne. discriminate.
Qed.

Lemma find_enabled_none id (l : list Room) :
  List.find (fun r => bool_decide (r_id r = id)) l = None ->
  List.find (fun r => bool_decide (r_id r = id) && isAvailable r) l = None.
Proof.
  intros H. destruct (List.find (fun r => _ && _) l) as [x|] eqn:Hx; [|reflexivity].
  apply find_some in Hx as [Hx Hq]. apply andb_true_iff in Hq as [Hq _].
  pose proof (find_none _ _ H x Hx) as Hn. simpl in Hn. congruence.
Qed.

End RoomFacts.

(** X15. The calendar and the conflict check agree on the first 30 days.
    Over a store of reservations dated at midnight UTC, for an enabled
    room and a start date that parses, the calendar has 31 entries from
    the start day on, and each of the first 30 is marked unavailable
    exactly when [checkBookingConflict] finds a reservation for the one
    night that begins on that day. *)
Theorem calendar_agrees_with_conflict_check
    (now : Z) (st : Store.State) (roomId : nat) (startDate : option Http.DateInput)
    (room : Store.Room) (t : Z) :
  Forall (fun b => JsDate.atMidnight (Store.checkIn b)
                   /\ JsDate.atMidnight (Store.checkOut b)) (Store.bookings st) ->
  List.find (fun r => bool_decide (Store.r_id r = roomId) && Store.isAvailable r)
    (Store.rooms st) = Some room ->
  (if Http.given startDate then Http.parseDate startDate else Some now) = Some t ->
  exists days,
    RoomController.getRoomAvailability now st roomId startDate
    = RoomController.Calendar (JsDate.isoDate t) (JsDate.isoDate t + 30) days
    /\ length days = 31%nat
    /\ forall i, 0 <= i < 30 ->
         exists day,
           days !! Z.to_nat i = Some day
           /\ RoomController.date day = JsDate.isoDate t + i
           /\ (RoomController.available day = false
               <-> is_Some (BookingValidationService.checkBookingConflict st roomId
                              (JsDate.midnight (JsDate.isoDate t + i))
                              (JsDate.midnight (JsDate.isoDate t + i + 1)) None)).
Proof.
  intros Hal Hroom Ht.
  destruct (calendar_first_30_days now st roomId startDate room t Hal Hroom Ht)
    as (days & Hcal & Hlen & Hdays).
  exists days. split; [exact Hcal|]. split; [exact Hlen|].
  intros i Hi. destruct (Hdays i Hi) as (day & Hlook & Hdate & Hav).
  exists day. split; [exact Hlook|]. split; [exact Hdate|].
  rewrite Hav, checkBookingConflict_is_Some.
  rewrite Forall_forall in Hal.
  split; intros (b & Hin & H).
  - destruct H as (Hr & Ha & Hc).
    destruct (Hal b (proj2 (list_elem_of_In _ _) Hin)) as [Hbi Hbo].
    apply (covers_one_night b _ Hbi Hbo) in Hc as [H1 H2].
    exists b. repeat split; auto; discriminate.
  - destruct H as (Hr & Ha & _ & H1 & H2).
    destruct (Hal b (proj2 (list_elem_of_In _ _) Hin)) as [Hbi Hbo].
    exists b. repeat split; auto.
    apply (covers_one_night b _ Hbi Hbo). auto.
Qed.

(** With A booked (03-01 to 03-03), the calendar asked from 03-01. *)
Lemma calendar_agrees_with_conflict_check_witness :
  exists days,
    RoomController.getRoomAvailability 0 Deluxe.withA 1
      (Some (Http.IsoDay Deluxe.march1))
    = RoomController.Calendar Deluxe.march1 (Deluxe.march1 + 30) days
    /\ length days = 31%nat.
Proof.
  assert (Hal : Forall (fun b => JsDate.atMidnight (Store.checkIn b)
                                 /\ JsDate.atMidnight (Store.checkOut b))
                  (Store.bookings Deluxe.withA)).
  { let l := eval vm_compute in (Store.bookings Deluxe.withA) in
    change (Forall (fun b => JsDate.atMidnight (Store.checkIn b)
                             /\ JsDate.atMidnight (Store.checkOut b)) l).
    constructor; [|constructor]. split; vm_compute; reflexivity. }
  destruct (calendar_agrees_with_conflict_check 0 Deluxe.withA 1
              (Some (Http.IsoDay Deluxe.march1)) Deluxe.deluxe
              (JsDate.midnight Deluxe.march1) Hal eq_refl eq_refl)
    as (days & Hcal & Hlen & _).
  exists days. split; [|exact Hlen].
  rewrite Hcal. rewrite isoDate_midnight. reflexivity.
Defined.

(** X16. Disabling a room closes it to the public and keeps its
    reservations. Over a catalog with distinct room ids, toggling an
    enabled room whose new state the schema accepts answers with the
    disabled room; afterwards the public lookup and the calendar answer
    404, [validateRoom] refuses the room with status 400, the admin lookup
    still finds it, and the reservations are what they were; toggling
    once more, if the schema accepts, gives back the store as it was. *)
Theorem toggle_disables_room
    (accepts : Store.Room -> bool) (st : Store.State) (id : nat) (room : Store.Room) :
  NoDup (List.map Store.r_id (Store.rooms st)) ->
  Store.Room_findById st id = Some room ->
  Store.isAvailable room = true ->
  (forall r, Store.r_id r = id -> accepts r = true) ->
  exists room' st',
    RoomController.toggleRoomAvailability accepts st id
    = (RoomController.RoomToggled room', st')
    /\ Store.isAvailable room' = false
    /\ Store.r_id room' = id
    /\ Store.bookings st' = Store.bookings st
    /\ RoomController.getRoomById st' id = RoomController.RoomMissing
    /\ RoomController.getRoomByIdAdmin st' id = RoomController.RoomFound room'
    /\ (forall now startDate,
          RoomController.getRoomAvailability now st' id startDate
          = RoomController.RoomNotFound)
    /\ BookingValidationService.validateRoom st' (Some id)
       = (Http.invalid "This room is currently unavailable" 400, None)
    /\ RoomController.toggleRoomAvailability accepts st' id
       = (RoomController.RoomToggled room, st).
Proof.
  intros Hnd Hf Hon Hacc.
  assert (Hfs : In room (Store.rooms st) /\ Store.r_id room = id).
  { unfold Store.Room_findById in Hf. apply find_some in Hf as [Hin Hid].
    apply bool_decide_eq_true in Hid. auto. }
  destruct Hfs as [Hin Hid]. subst id.
  unfold RoomController.toggleRoomAvailability at 1. rewrite Hf.
  rewrite Hacc by reflexivity.
  eexists _, _. split; [reflexivity|].
  cbn [Store.isAvailable Store.r_id Store.bookings].
  split; [rewrite Hon; reflexivity|]. split; [reflexivity|]. split; [reflexivity|].
  set (room' := {| Store.r_id := Store.r_id room; Store.name := Store.name room;
                   Store.price := Store.price room; Store.capacity := Store.capacity room;
                   Store.totalRooms := Store.totalRooms room;
                   Store.isAvailable := negb (Store.isAvailable room) |}).
  set (st' := {| Store.rooms := RoomController.replaceRoom (Store.r_id room) room'
                                  (Store.rooms st);
                 Store.bookings := Store.bookings st;
                 Store.nextId := Store.nextId st |}).
  assert (Hoff : Store.isAvailable room' = false) by (cbn; rewrite Hon; reflexivity).
  assert (Hnone : List.find (fun r => bool_decide (Store.r_id r = Store.r_id room)
                                      && Store.isAvailable r) (Store.rooms st') = None).
  { cbn [st' Store.rooms]. apply find_enabled_replaceRoom; assumption. }
  assert (Hf' : Store.Room_findById st' (Store.r_id room) = Some room').
  { unfold Store.Room_findById. cbn [st' Store.rooms].
    apply find_replaceRoom; [eauto | reflexivity]. }
  split; [unfold RoomController.getRoomById; rewrite Hnone; reflexivity|].
  split; [unfold RoomController.getRoomByIdAdmin; rewrite Hf'; reflexivity|].
  split; [intros now startDate; unfold RoomController.getRoomAvailability;
          rewrite Hnone; reflexivity|].
  split.
  { unfold BookingValidationService.validateRoom. cbn [mbind option_bind].
    rewrite Hf', Hoff. reflexivity. }
  unfold RoomController.toggleRoomAvailability. rewrite Hf'.
  rewrite Hacc by reflexivity.
  assert (Hroom : {| Store.r_id := Store.r_id room'; Store.name := Store.name room';
                     Store.price := Store.price room';
                     Store.capacity := Store.capacity room';
                     Store.totalRooms := Store.totalRooms room';
                     Store.isAvailable := negb (Store.isAvailable room') |} = room).
  { destruct room. cbn. rewrite negb_involutive. reflexivity. }
  rewrite Hroom. f_equal.
  cbn [st' Store.rooms Store.bookings Store.nextId room' Store.r_id].
  rewrite (replaceRoom_back (Store.r_id room) room room' (Store.rooms st) Hf eq_refl).
  destruct st; reflexivity.
Qed.

(** The Deluxe room of the catalog, with A booked. *)
Lemma toggle_disables_room_witness :
  exists room' st',
    RoomController.toggleRoomAvailability (fun _ => true) Deluxe.withA 1
    = (RoomController.RoomToggled room', st')
    /\ Store.bookings st' = Store.bookings Deluxe.withA
    /\ RoomController.getRoomById st' 1 = RoomController.RoomMissing.
Proof.
  destruct (toggle_disables_room (fun _ => true) Deluxe.withA 1 Deluxe.deluxe)
    as (room' & st' & H1 & _ & _ & H2 & H3 & _).
  - apply (bool_decide_unpack _). vm_compute. exact I.
  - reflexivity.
  - reflexivity.
  - reflexivity.
  - exists room', st'. auto.
Defined.

(** X17. [deleteRoom] removes a room and leaves its reservations in the
    store. For a room that exists the answer is 200; afterwards no room
    has the id, so [validateRoom] answers 404 "Room not found", the public
    and the admin lookup and the calendar answer 404, a second deletion
    answers 404, while every reservation, those of the deleted room
    included, is still stored. A room that does not exist gives 404 and no
    change. *)
Theorem deleteRoom_keeps_reservations (st : Store.State) (id : nat) :
  match Store.Room_findById st id with
  | None => RoomController.deleteRoom st id = (RoomController.RoomMissing, st)
  | Some _ =>
      exists st',
        RoomController.deleteRoom st id = (RoomController.RoomDeleted, st')
        /\ Store.bookings st' = Store.bookings st
        /\ (forall r, In r (Store.rooms st')
                      <-> In r (Store.rooms st) /\ Store.r_id r <> id)
        /\ BookingValidationService.validateRoom st' (Some id)
           = (Http.invalid "Room not found" 404, None)
        /\ RoomController.getRoomById st' id = RoomController.RoomMissing
        /\ RoomController.getRoomByIdAdmin st' id = RoomController.RoomMissing
        /\ (forall now startDate,
              RoomController.getRoomAvailability now st' id startDate
              = RoomController.RoomNotFound)
        /\ RoomController.deleteRoom st' id = (RoomController.RoomMissing, st')
  end.
Proof.
  destruct (Store.Room_findById st id) as [room|] eqn:Hf;
    [|unfold RoomController.deleteRoom; rewrite Hf; reflexivity].
  eexists. split; [unfold RoomController.deleteRoom; rewrite Hf; reflexivity|].
  split; [reflexivity|].
  set (st' := {| Store.rooms := _; Store.bookings := _; Store.nextId := _ |}).
  assert (Hnone : Store.Room_findById st' id = None).
  { unfold Store.Room_findById. cbn [st' Store.rooms]. apply find_removed. }
  split.
  { intros r. cbn [st' Store.rooms].
    rewrite filter_In, negb_true_iff, bool_decide_eq_false. reflexivity. }
  split.
  { unfold BookingValidationService.validateRoom. cbn [mbind option_bind].
    rewrite Hnone. reflexivity. }
  pose proof (find_enabled_none id (Store.rooms st') Hnone) as Hoff.
  split; [unfold RoomController.getRoomById; rewrite Hoff; reflexivity|].
  split; [unfold RoomController.getRoomByIdAdmin; rewrite Hnone; reflexivity|].
  split; [intros now startDate; unfold RoomController.getRoomAvailability;
          rewrite Hoff; reflexivity|].
  unfold RoomController.deleteRoom. rewrite Hnone. reflexivity.
Qed.

(** ** Listings *)

Section ListingFacts.
Import JsDate Store Http BookingValidationService Spec RoomController Lifecycle.

Lemma byPrice_total : Total byPrice.
Proof.
  intros r1 r2. unfold byPrice. rewrite !Qle_bool_iff.
  destruct (Qlt_le_dec (price r1) (price r2)) as [H|H]; [left|right]; [|exact H].
  apply Qlt_le_weak. exact H.
Qed.

Lemma byPrice_trans : Transitive byPrice.
Proof.
  intros r1 r2 r3. unfold byPrice. rewrite !Qle_bool_iff. apply Qle_trans.
Qed.

Lemma In_merge_sort r (l : list Room) : In r (merge_sort byPrice l) <-> In r l.
Proof.
  rewrite <- !list_elem_of_In. rewrite (merge_sort_Permutation byPrice l). reflexivity.
Qed.

Lemma Room_findById_In st r :
  NoDup (List.map r_id (rooms st)) -> In r (rooms st) ->
  Room_findById st (r_id r) = Some r.
Proof.
  intros Hnd Hin.
  destruct (Room_findById st (r_id r)) as [x|] eqn:Hf.
  - f_equal. symmetry. eapply Room_findById_unique; eauto.
  - unfold Room_findById in Hf. pose proof (find_none _ _ Hf r Hin) as Hn.
    simpl in Hn. rewrite bool_decide_eq_true_2 in Hn by reflexivity. discriminate.
Qed.

Lemma find_app_fresh (q : Booking -> bool) l b :
  (forall x, In x l -> q x = false) ->
  List.find q (l ++ [b]) = if q b then Some b else None.
Proof.
  intros H. induction l as [|x l IH]; [reflexivity|].
  simpl. rewrite (H x (or_introl eq_refl)). apply IH.
  intros y Hy. apply H. right. exact Hy.
Qed.

Lemma find_app_other (q : Booking -> bool) l b :
  q b = false -> List.find q (l ++ [b]) = List.find q l.
Proof.
  intros H. induction l as [|x l IH]; simpl; [rewrite H; reflexivity|].
  destruct (q x); [reflexivity | exact IH].
Qed.

Lemma createBooking_later_appends env st req b st' :
  CreateBookingLater.createBooking env st req = (BookingConfirmed b, st') ->
  st' = {| rooms := rooms st; bookings := bookings st ++ [b];
           nextId := S (nextId st) |}
  /\ b_id b = nextId st.
Proof.
  intros Hc.
  destruct (createBooking_later_confirmed _ _ _ _ _ Hc)
    as (roomId & room & ci & co & _ & _ & _ & _ & _ & _ & Hs).
  unfold BookingService.createBooking in Hs.
  destruct (BookingService.d_guestName _); [|discriminate].
  destruct (BookingService.d_guestEmail _); [|discriminate].
  destruct (BookingService.d_guestPhone _); [|discriminate].
  apply Booking_create_inr in Hs as (Hb & _ & ->).
  split; [reflexivity|]. rewrite Hb. reflexivity.
Qed.

End ListingFacts.

(** X18. The public room listing. When [getAllRooms] answers with a list,
    the list is in ascending order of price and holds exactly the rooms of
    the catalog that meet the price and capacity bounds and, unless the
    query says available=false, are enabled; a numeric bound given in the
    query holds of every listed room; and over a catalog with distinct
    ids every room listed without available=false passes [validateRoom]
    under its id. *)
Theorem public_listing_sorted_and_bookable
    (st : Store.State) (filters : RoomController.RoomFilters) (l : list Store.Room) :
  RoomController.getAllRooms st filters = RoomController.RoomList l ->
  StronglySorted RoomController.byPrice l
  /\ (exists bounds,
        RoomController.withinBounds filters = Some bounds
        /\ forall r,
             In r l
             <-> In r (Store.rooms st) /\ bounds r = true
                 /\ (RoomController.g_available filters = Some "false"%string
                     \/ Store.isAvailable r = true))
  /\ (forall q r, RoomController.g_minPrice filters = Some (Some q) -> In r l ->
                  (q <= Store.price r)%Q)
  /\ (forall q r, RoomController.g_maxPrice filters = Some (Some q) -> In r l ->
                  (Store.price r <= q)%Q)
  /\ (forall q r, RoomController.g_capacity filters = Some (Some q) -> In r l ->
                  (q <= inject_Z (Store.capacity r))%Q)
  /\ (RoomController.g_available filters <> Some "false"%string ->
      NoDup (List.map Store.r_id (Store.rooms st)) ->
      forall r, In r l ->
        BookingValidationService.validateRoom st (Some (Store.r_id r))
        = (Http.valid, Some r)).
Proof.
  unfold RoomController.getAllRooms.
  destruct (RoomController.withinBounds filters) as [bounds|] eqn:Hb; [|discriminate].
  cbv zeta.
  set (keep := fun r0 : Store.Room =>
                 (if match RoomController.g_available filters with
                     | Some a => negb (String.eqb a "false")
                     | None => true
                     end
                  then Store.isAvailable r0 else true) && bounds r0).
  intros [= <-].
  assert (Hmem : forall r,
            In r (merge_sort RoomController.byPrice (List.filter keep (Store.rooms st)))
            <-> In r (Store.rooms st) /\ bounds r = true
                /\ (RoomController.g_available filters = Some "false"%string
                    \/ Store.isAvailable r = true)).
  { intros r. rewrite In_merge_sort, filter_In. subst keep. cbv beta.
    rewrite andb_true_iff.
    destruct (RoomController.g_available filters) as [a|].
    - destruct (String.eqb_spec a "false") as [->|Hne]; simpl.
      + tauto.
      + split; [tauto|]. intros (H1 & H2 & [H3|H3]); [congruence | tauto].
    - split; [tauto|]. intros (H1 & H2 & [H3|H3]); [discriminate | tauto]. }
  split.
  { apply (@StronglySorted_merge_sort _ RoomController.byPrice _
             byPrice_trans byPrice_total). }
  split; [exists bounds; split; [reflexivity | exact Hmem]|].
  assert (Hbounds : forall r, In r (merge_sort RoomController.byPrice
                                      (List.filter keep (Store.rooms st))) ->
                              bounds r = true).
  { intros r Hr. apply Hmem in Hr. tauto. }
  unfold RoomController.withinBounds in Hb.
  split; [|split; [|split]].
  - intros q r Hq Hr. apply Hbounds in Hr. rewrite Hq in Hb.
    repeat case_match; simplify_eq;
      apply andb_true_iff in Hr as [Hr _]; apply andb_true_iff in Hr as [Hr _];
      apply Qle_bool_iff; exact Hr.
  - intros q r Hq Hr. apply Hbounds in Hr. rewrite Hq in Hb.
    repeat case_match; simplify_eq;
      apply andb_true_iff in Hr as [Hr _]; apply andb_true_iff in Hr as [_ Hr];
      apply Qle_bool_iff; exact Hr.
  - intros q r Hq Hr. apply Hbounds in Hr. rewrite Hq in Hb.
    repeat case_match; simplify_eq;
      apply andb_true_iff in Hr as [_ Hr];
      apply Qle_bool_iff; exact Hr.
  - intros Hpub Hnd r Hr. apply Hmem in Hr as (Hin & _ & [Hf|Hon]); [contradiction|].
    unfold BookingValidationService.validateRoom. cbn [mbind option_bind].
    rewrite (Room_findById_In st r Hnd Hin), Hon. reflexivity.
Qed.

(** The Deluxe catalog asked for rooms from 3000 a night. *)
Lemma public_listing_sorted_and_bookable_witness :
  BookingValidationService.validateRoom Deluxe.withA (Some 1%nat)
  = (Http.valid, Some Deluxe.deluxe)
  /\ (3000 <= Store.price Deluxe.deluxe)%Q.
Proof.
  pose (filters := {| RoomController.g_available := None;
                      RoomController.g_minPrice := Some (Some 3000%Q);
                      RoomController.g_maxPrice := None;
                      RoomController.g_capacity := None |}).
  destruct (public_listing_sorted_and_bookable Deluxe.withA filters [Deluxe.deluxe])
    as (_ & _ & Hmin & _ & _ & Hvalid).
  - vm_compute. reflexivity.
  - split.
    + refine (Hvalid _ _ Deluxe.deluxe _).
      * discriminate.
      * apply (bool_decide_unpack _). vm_compute. exact I.
      * left. reflexivity.
    + apply (Hmin 3000%Q Deluxe.deluxe eq_refl). left. reflexivity.
Defined.

(** X19. A confirmed reservation can be read back. After the later
    [createBooking] confirms a reservation over a store with distinct
    [_id]s below the id source, [getBookingById] finds it under its
    [_id], every other lookup answers as before, and for any filters
    [getAllBookings] fails as before or returns the former listing with
    the new reservation put in front when it matches the filters. *)
Theorem created_booking_is_read_back
    (env : Absent.Env) (st st' : Store.State) (req : Http.Request) (b : Store.Booking) :
  Lifecycle.idsFresh st ->
  CreateBookingLater.createBooking env st req = (Http.BookingConfirmed b, st') ->
  BookingService.getBookingById st' (Store.b_id b) = Some b
  /\ (forall id, id <> Store.b_id b ->
        BookingService.getBookingById st' id = BookingService.getBookingById st id)
  /\ (forall params,
        BookingService.getAllBookings st' params
        = match BookingService.getAllBookings st params with
          | inr listing =>
              inr (if BookingService.satisfies
                        (BookingService.buildBookingQuery params) b
                   then b :: listing else listing)
          | inl e => inl e
          end).
Proof.
  intros [_ Hlt] Hc.
  destruct (createBooking_later_appends _ _ _ _ _ Hc) as [-> Hid].
  unfold BookingService.getBookingById, Store.Booking_findById.
  cbn [Store.bookings].
  split; [|split].
  - rewrite find_app_fresh.
    + rewrite bool_decide_eq_true_2 by reflexivity. reflexivity.
    + intros x Hx. apply bool_decide_eq_false_2.
      rewrite Forall_forall in Hlt. apply list_elem_of_In, Hlt in Hx. lia.
  - intros id Hne. apply find_app_other. apply bool_decide_eq_false_2. congruence.
  - intros params. unfold BookingService.getAllBookings, BookingService.Booking_findBy.
    set (q := BookingService.buildBookingQuery params).
    destruct (BookingService.w_checkIn_gte q) as [[?|]|];
      destruct (BookingService.w_checkIn_lte q) as [[?|]|]; try reflexivity;
      unfold Store.Booking_find; cbn [Store.bookings];
      rewrite List.filter_app, rev_app_distr; simpl;
      destruct (BookingService.satisfies q b); reflexivity.
Qed.

(** Request A on the empty Deluxe catalog. *)
Lemma created_booking_is_read_back_witness :
  exists b st',
    CreateBookingLater.createBooking Deluxe.env (Lifecycle.initial Deluxe.catalog)
      Deluxe.requestA = (Http.BookingConfirmed b, st')
    /\ BookingService.getBookingById st' (Store.b_id b) = Some b.
Proof.
  destruct (CreateBookingLater.createBooking Deluxe.env
              (Lifecycle.initial Deluxe.catalog) Deluxe.requestA) as [r st'] eqn:E.
  destruct r; try (vm_compute in E; discriminate).
  exists booking, st'. split; [reflexivity|].
  refine (proj1 (created_booking_is_read_back Deluxe.env _ st' _ booking _ E)).
  split; constructor.
Defined.

(** X20. For the same query, unless it says available=false, the two room
    listings fail together, and otherwise the public listing holds
    exactly the enabled rooms of the admin listing. *)
Theorem admin_listing_covers_public
    (st : Store.State) (filters : RoomController.RoomFilters) :
  RoomController.g_available filters <> Some "false"%string ->
  match RoomController.getAllRooms st filters,
        RoomController.getAllRoomsAdmin st filters with
  | RoomController.RoomList public, RoomController.RoomList admin =>
      forall r, In r public <-> In r admin /\ Store.isAvailable r = true
  | RoomController.RoomError, RoomController.RoomError => True
  | _, _ => False
  end.
Proof.
  intros Hpub. unfold RoomController.getAllRooms, RoomController.getAllRoomsAdmin.
  destruct (RoomController.withinBounds filters) as [bounds|]; [|exact I].
  intros r. rewrite In_merge_sort, <- in_rev, !filter_In, !andb_true_iff.
  destruct (RoomController.g_available filters) as [a|]; [|tauto].
  destruct (String.eqb_spec a "false") as [E|_]; [congruence|]. cbn [negb].
  destruct (String.eqb a "true"); tauto.
Qed.

(** The Deluxe catalog without filters. *)
Lemma admin_listing_covers_public_witness :
  In Deluxe.deluxe [Deluxe.deluxe]
  <-> In Deluxe.deluxe [Deluxe.deluxe] /\ Store.isAvailable Deluxe.deluxe = true.
Proof.
  exact (admin_listing_covers_public Deluxe.withA
           {| RoomController.g_available := None;
              RoomController.g_minPrice := None;
              RoomController.g_maxPrice := None;
              RoomController.g_capacity := None |} ltac:(discriminate)
           Deluxe.deluxe).
Defined.

(** ** Occupancy accounting, continued *)

Section OccupancyOrderFacts.
Import JsDate Store Http Occupancy Spec.

Lemma counters_Permutation (l1 l2 : list Booking) k :
  l1 ≡ₚ l2 ->
  existsb (fun b => covers b k) l1 = existsb (fun b => covers b k) l2
  /\ dayCounter l1 k = dayCounter l2 k.
Proof.
  induction 1 as [|x l l' _ [IH1 IH2]|x y l|l l' l'' _ [IH1 IH2] _ [IH3 IH4]].
  - auto.
  - simpl. rewrite !dayCounter_cons, IH1, IH2. auto.
  - simpl. rewrite !dayCounter_cons. split; [|lia].
    destruct (covers x k), (covers y k); reflexivity.
  - split; congruence.
Qed.

Lemma dayCounter_app l l' k : dayCounter (l ++ l') k = dayCounter l k + dayCounter l' k.
Proof.
  induction l as [|b l IH]; simpl; [unfold dayCounter at 2; simpl; lia|].
  rewrite !dayCounter_cons, IH. lia.
Qed.

Lemma maxBookedRooms_nonneg l :
  Forall wellFormed l -> 0 <= maxBookedRooms (bookingsPerDate l).
Proof.
  intros Hwf.
  destruct (maxBookedRooms_cases (bookingsPerDate l)) as [[_ ->]|[k Hk]]; [lia|].
  rewrite bookingsPerDate_lookup in Hk by exact Hwf.
  destruct (existsb _ l); [|discriminate]. injection Hk as Hk. rewrite <- Hk.
  apply dayCounter_nonneg. exact Hwf.
Qed.

End OccupancyOrderFacts.

(** X21. The admission count does not depend on the order in which the
    store returns the reservations: for two orderings of the same
    well-formed reservations the per-day map is the same map, and so are
    the peak and the number of rooms reported as available. *)
Theorem occupancy_order_irrelevant
    (room : Store.Room) (l1 l2 : list Store.Booking) :
  Forall Spec.wellFormed l1 -> l1 ≡ₚ l2 ->
  Occupancy.bookingsPerDate l1 = Occupancy.bookingsPerDate l2
  /\ Occupancy.maxBookedRooms (Occupancy.bookingsPerDate l1)
     = Occupancy.maxBookedRooms (Occupancy.bookingsPerDate l2)
  /\ Occupancy.availableRooms room l1 = Occupancy.availableRooms room l2.
Proof.
  intros Hwf Hp.
  assert (Hwf2 : Forall Spec.wellFormed l2) by (rewrite <- Hp; exact Hwf).
  assert (Hm : Occupancy.bookingsPerDate l1 = Occupancy.bookingsPerDate l2).
  { apply map_eq. intros k. rewrite !bookingsPerDate_lookup by assumption.
    destruct (counters_Permutation l1 l2 k Hp) as [-> ->]. reflexivity. }
  unfold Occupancy.availableRooms. rewrite Hm. auto.
Qed.

(** The stays A and D of the store with both, in the two orders. *)
Lemma occupancy_order_irrelevant_witness :
  Occupancy.availableRooms Deluxe.deluxe (Store.bookings Deluxe.withAD)
  = Occupancy.availableRooms Deluxe.deluxe (rev (Store.bookings Deluxe.withAD)).
Proof.
  refine (proj2 (proj2 (occupancy_order_irrelevant Deluxe.deluxe
                          (Store.bookings Deluxe.withAD)
                          (rev (Store.bookings Deluxe.withAD)) _ _))).
  - let l := eval vm_compute in (Store.bookings Deluxe.withAD) in
    change (Forall Spec.wellFormed l).
    constructor; [|constructor; [|constructor]];
      repeat split; vm_compute; first [reflexivity | discriminate].
  - apply Permutation_rev.
Defined.

(** X22. More reservations never free rooms: over well-formed
    reservations the peak is not negative, so the rooms reported as
    available are at most [totalRooms], and with further reservations
    added to the ones read the number can only go down. *)
Theorem more_reservations_fewer_rooms
    (room : Store.Room) (l l' : list Store.Booking) :
  Forall Spec.wellFormed l -> Forall Spec.wellFormed l' ->
  Occupancy.availableRooms room (l ++ l') <= Occupancy.availableRooms room l
  /\ Occupancy.availableRooms room l <= Store.totalRooms room.
Proof.
  intros Hwf Hwf'.
  assert (Hall : Forall Spec.wellFormed (l ++ l')) by (apply Forall_app; auto).
  pose proof (maxBookedRooms_nonneg l Hwf) as H0.
  pose proof (maxBookedRooms_nonneg (l ++ l') Hall) as H1.
  unfold Occupancy.availableRooms. split; [|lia].
  destruct (maxBookedRooms_cases (Occupancy.bookingsPerDate l)) as [[_ E]|[k Hk]];
    [rewrite E; lia|].
  rewrite bookingsPerDate_lookup in Hk by exact Hwf.
  destruct (existsb (fun b => Spec.covers b k) l) eqn:Hex; [|discriminate].
  injection Hk as Hk.
  assert (Hk' : Occupancy.bookingsPerDate (l ++ l') !! k
                = Some (Spec.dayCounter (l ++ l') k)).
  { rewrite bookingsPerDate_lookup by exact Hall.
    rewrite existsb_app, Hex. reflexivity. }
  apply maxBookedRooms_ge in Hk'. rewrite dayCounter_app in Hk'.
  pose proof (dayCounter_nonneg l' k Hwf') as Hnn.
  set (m := Occupancy.maxBookedRooms (Occupancy.bookingsPerDate l)) in *.
  set (m' := Occupancy.maxBookedRooms (Occupancy.bookingsPerDate (l ++ l'))) in *.
  set (c := Spec.dayCounter l k) in *. set (c' := Spec.dayCounter l' k) in *.
  clearbody m m' c c'. lia.
Qed.

(** The stay A alone, then with a second stay on the same nights. *)
Lemma more_reservations_fewer_rooms_witness :
  Occupancy.availableRooms Deluxe.deluxe (Store.bookings Deluxe.withA ++ Store.bookings Deluxe.withA)
  <= Occupancy.availableRooms Deluxe.deluxe (Store.bookings Deluxe.withA).
Proof.
  assert (Hwf : Forall Spec.wellFormed (Store.bookings Deluxe.withA)).
  { let l := eval vm_compute in (Store.bookings Deluxe.withA) in
    change (Forall Spec.wellFormed l).
    constructor; [|constructor].
    repeat split; vm_compute; first [reflexivity | discriminate]. }
  exact (proj1 (more_reservations_fewer_rooms Deluxe.deluxe _ _ Hwf Hwf)).
Defined.

(** ** Guests *)

(** X23. The guests-per-room rule of the later [createBooking]:
    [Math.ceil(guests / 3)] is [(guests + 2) / 3] in whole numbers, and a
    request for [n] rooms and [g] guests is refused by the rule exactly
    when [3 * n < g]; a request without a room count, or without a guest
    count, passes the rule, the comparison with a missing number being
    false. *)
Theorem guests_per_room_rule (g n : Z) :
  CreateBookingLater.requiredRooms (Some g) = Some ((g + 2) / 3)
  /\ Http.js_lt (Some n) (CreateBookingLater.requiredRooms (Some g))
     = bool_decide (3 * n < g)
  /\ Http.js_lt None (CreateBookingLater.requiredRooms (Some g)) = false
  /\ Http.js_lt (Some n) (CreateBookingLater.requiredRooms None) = false.
Proof.
  assert (E : CreateBookingLater.requiredRooms (Some g) = Some ((g + 2) / 3)).
  { unfold CreateBookingLater.requiredRooms, Pricing.Math_ceil, Qceiling. simpl.
    f_equal. unfold Qfloor, Qopp, Qdiv, Qmult, Qinv, inject_Z. simpl.
    rewrite Z.mul_1_r. change (Z.pos (1 * 3)) with 3.
    pose proof (Z.div_mod (- g) 3 ltac:(discriminate)) as H1.
    pose proof (Z.mod_pos_bound (- g) 3 ltac:(reflexivity)) as H2.
    pose proof (Z.div_mod (g + 2) 3 ltac:(discriminate)) as H3.
    pose proof (Z.mod_pos_bound (g + 2) 3 ltac:(reflexivity)) as H4.
    lia. }
  split; [exact E|]. rewrite E. split; [|split; reflexivity].
  unfold Http.js_lt.
  pose proof (Z.div_mod (g + 2) 3 ltac:(discriminate)) as H3.
  pose proof (Z.mod_pos_bound (g + 2) 3 ltac:(reflexivity)) as H4.
  repeat case_bool_decide; try reflexivity; lia.
Qed.

(** X24. The capacity step of the probe. For an enabled room and a probe
    that names it and carries both dates, a guest count other than 0 that
    exceeds the capacity of the room is answered "over capacity"; a guest
    count of 0, a missing one, or one within the capacity is never
    answered so. *)
Theorem probe_checks_capacity
    (now : Z) (st : Store.State) (body : CheckAvailabilityController.ProbeBody)
    (roomId : nat) (room : Store.Room) :
  CheckAvailabilityController.a_roomId body = Some roomId ->
  Http.given (CheckAvailabilityController.a_checkIn body) = true ->
  Http.given (CheckAvailabilityController.a_checkOut body) = true ->
  Store.Room_findById st roomId = Some room ->
  Store.isAvailable room = true ->
  (forall g, CheckAvailabilityController.a_guests body = Some g -> g <> 0 ->
             Store.capacity room < g ->
             exists message,
               CheckAvailabilityController.checkAvailability now st body
               = CheckAvailabilityController.OverCapacity message room)
  /\ (match CheckAvailabilityController.a_guests body with
      | Some g => g = 0 \/ g <= Store.capacity room
      | None => True
      end ->
      forall message r,
        CheckAvailabilityController.checkAvailability now st body
        <> CheckAvailabilityController.OverCapacity message r).
Proof.
  intros Hid Hci Hco Hf Hon.
  assert (Hv : BookingValidationService.validateRoom st (Some roomId)
               = (Http.valid, Some room)).
  { unfold BookingValidationService.validateRoom. cbn [mbind option_bind].
    rewrite Hf, Hon. reflexivity. }
  unfold CheckAvailabilityController.checkAvailability.
  rewrite Hid, Hci, Hco, Hv. cbn [Http.given negb orb fst snd Http.isValid Http.valid].
  split.
  - intros g Hg Hnz Hcap. rewrite Hg. cbn [Http.truthyZ].
    change (default 0 (Some g)) with g.
    rewrite (proj2 (Z.eqb_neq g 0) Hnz). cbn [negb].
    unfold BookingValidationService.validateGuestCapacity.
    rewrite bool_decide_eq_true_2 by lia. cbn. eexists. reflexivity.
  - intros Hg message r.
    assert (Hpass : Http.isValid
                      (if Http.truthyZ (CheckAvailabilityController.a_guests body)
                       then BookingValidationService.validateGuestCapacity
                              (default 0 (CheckAvailabilityController.a_guests body))
                              (Store.capacity room)
                       else Http.valid) = true).
    { destruct (CheckAvailabilityController.a_guests body) as [g|]; [|reflexivity].
      cbn [Http.truthyZ]. change (default 0 (Some g)) with g.
      destruct (Z.eqb_spec g 0) as [->|Hnz]; [reflexivity|]. cbn [negb].
      unfold BookingValidationService.validateGuestCapacity.
      rewrite bool_decide_eq_false_2 by lia. reflexivity. }
    rewrite Hpass. cbn [negb].
    repeat case_match; discriminate.
Qed.

(** The Deluxe room (capacity 6) probed for 7 guests, with A booked. *)
Lemma probe_checks_capacity_witness :
  exists message,
    CheckAvailabilityController.checkAvailability (JsDate.midnight Deluxe.march1)
      Deluxe.withA
      {| CheckAvailabilityController.a_roomId := Some 1%nat;
         CheckAvailabilityController.a_checkIn := Some (Http.IsoDay (Deluxe.march1 + 2));
         CheckAvailabilityController.a_checkOut := Some (Http.IsoDay (Deluxe.march1 + 4));
         CheckAvailabilityController.a_guests := Some 7 |}
    = CheckAvailabilityController.OverCapacity message Deluxe.deluxe.
Proof.
  refine (proj1 (probe_checks_capacity (JsDate.midnight Deluxe.march1) Deluxe.withA
                   {| CheckAvailabilityController.a_roomId := Some 1%nat;
                      CheckAvailabilityController.a_checkIn :=
                        Some (Http.IsoDay (Deluxe.march1 + 2));
                      CheckAvailabilityController.a_checkOut :=
                        Some (Http.IsoDay (Deluxe.march1 + 4));
                      CheckAvailabilityController.a_guests := Some 7 |}
                   1%nat Deluxe.deluxe eq_refl eq_refl eq_refl eq_refl eq_refl)
            7 eq_refl _ _).
  - discriminate.
  - reflexivity.
Defined.

(** ** Histories *)

(** X25. Without updates the inventory invariant is never lost. From a
    store that satisfies the invariant, holds well-formed reservations and
    has distinct room ids, any sequence of creations for whole calendar
    days and at least one room, cancellations and deletions, served by the
    later controllers, leads to a store with the same three
    properties. *)
Theorem inventory_kept_without_updates
    (env : Absent.Env) (st : Store.State) (ops : list Lifecycle.Op) :
  History.sound st ->
  Forall History.withoutUpdate ops ->
  History.sound (Lifecycle.run env st ops).
Proof.
  intros Hst Hops. revert st Hst.
  induction Hops as [|op ops Hop Hops IH]; intros st Hst; [exact Hst|].
  simpl. apply IH. clear IH Hops ops.
  destruct Hst as (Hinv & Hwf & Hnd).
  destruct op as [req|id body|now id userId reason|id]; simpl in Hop |- *.
  - destruct Hop as (from & to & n & Hci & Hco & Hn & Hpos).
    destruct (CreateBookingLater.createBooking env st req) as [r st'] eqn:E.
    assert (Hcases : (forall b, r <> Http.BookingConfirmed b)
                     \/ exists b, r = Http.BookingConfirmed b).
    { destruct r; eauto; left; intros; discriminate. }
    destruct Hcases as [Hno|[b ->]].
    + pose proof (createBooking_later_unconfirmed env st req) as H.
      rewrite E in H. cbn [fst snd] in H |- *. rewrite (H Hno).
      repeat split; assumption.
    + cbn [snd].
      apply (create_step_keeps_inventory env st st' req b
               (JsDate.midnight from) (JsDate.midnight to) n); auto.
      * rewrite Hci. reflexivity.
      * rewrite Hco. reflexivity.
      * apply atMidnight_midnight.
      * apply atMidnight_midnight.
  - contradiction.
  - split; [|split].
    + intros r d Hr. rewrite cancel_step_rooms in Hr. specialize (Hinv r d Hr).
      pose proof (cancel_step_load env now st id userId reason (Store.r_id r) d
                    (nonneg_of_wellFormed _ Hwf)). lia.
    + apply cancel_step_wellFormed. exact Hwf.
    + rewrite cancel_step_rooms. exact Hnd.
  - split; [|split].
    + intros r d Hr. rewrite delete_step_rooms in Hr. specialize (Hinv r d Hr).
      pose proof (delete_step_load st id (Store.r_id r) d
                    (nonneg_of_wellFormed _ Hwf)). lia.
    + apply delete_step_wellFormed. exact Hwf.
    + rewrite delete_step_rooms. exact Hnd.
Qed.

(** A, then A again, then the first A deleted, on the Deluxe catalog. *)
Lemma inventory_kept_without_updates_witness :
  Spec.inventoryInvariant
    (Lifecycle.run Deluxe.env (Lifecycle.initial Deluxe.catalog)
       [Lifecycle.Create Deluxe.requestA; Lifecycle.Create Deluxe.requestA;
        Lifecycle.Delete 0]).
Proof.
  apply inventory_kept_without_updates.
  - split; [|split].
    + intros room d [<-|[]]. unfold Spec.nightLoad. simpl. discriminate.
    + constructor.
    + apply (bool_decide_unpack _). vm_compute. exact I.
  - repeat constructor; simpl; unfold History.dayRequest;
      eexists _, _, _; (repeat split; [reflexivity..|]); lia.
Defined.
